(** * photo_video_renamer: a shallow embedding and its verified properties

    The development follows [photo_video_renamer.py].  Python values are
    modelled as follows: [int] as [Z], [str] as [string], [bytes] as
    [list byte], a JSON object used as a dictionary as a [gmap], a
    function that may raise as a computation in the monad [res], and the
    file system as a tree of directories and files that every operation
    receives and returns explicitly. *)

From Stdlib Require Import ZArith Lia List Ascii String Bool Permutation Sorted.
From Stdlib Require Import Init.Byte.
From stdpp Require Import base tactics option list gmap strings sorting.
Local Open Scope Z_scope.

(** ** Exceptions *)

(** The exception classes the program distinguishes: [except ValueError]
    catches only the first, [except Exception] catches all of them. *)
Inductive exn : Type :=
| ValueError
| TypeError
| OSError
| OtherException.

Inductive res (A : Type) : Type :=
| Ret (a : A)
| Raise (e : exn).
Arguments Ret {A} a.
Arguments Raise {A} e.

#[global] Instance res_ret : MRet res := fun A a => Ret a.
#[global] Instance res_bind : MBind res := fun A B k c =>
  match c with
  | Ret a => k a
  | Raise e => Raise e
  end.

(** [try: c except Exception: h] *)
Definition try_except {A} (c : res A) (h : exn -> res A) : res A :=
  match c with
  | Ret a => Ret a
  | Raise e => h e
  end.

Definition of_option {A} (e : exn) (o : option A) : res A :=
  match o with
  | Some a => Ret a
  | None => Raise e
  end.

(** ** Python strings *)

Definition ascii_in_range (lo hi : nat) (c : ascii) : bool :=
  ((lo <=? nat_of_ascii c) && (nat_of_ascii c <=? hi))%nat.

Definition is_digit (c : ascii) : bool := ascii_in_range 48 57 c.
Definition is_upper (c : ascii) : bool := ascii_in_range 65 90 c.

(** [str.isspace] on the ASCII range: space, [\t \n \v \f \r] and the
    separators 28-31. *)
Definition is_space (c : ascii) : bool :=
  ascii_in_range 9 13 c || ascii_in_range 28 32 c.

Definition lower_char (c : ascii) : ascii :=
  if is_upper c then ascii_of_nat (nat_of_ascii c + 32) else c.

(** [s.lower()].  Only ASCII letters are mapped; the one character
    outside ASCII that Python lower-cases to an ASCII letter is the
    Kelvin sign, and no supported extension contains a [k]. *)
Fixpoint lower (s : string) : string :=
  match s with
  | EmptyString => EmptyString
  | String c s' => String (lower_char c) (lower s')
  end.

(** [s[:n]] and [s[n:]] for [n >= 0]. *)
Fixpoint str_take (n : nat) (s : string) : string :=
  match n, s with
  | S n', String c s' => String c (str_take n' s')
  | _, _ => EmptyString
  end.

Fixpoint str_drop (n : nat) (s : string) : string :=
  match n, s with
  | S n', String _ s' => str_drop n' s'
  | _, _ => s
  end.

(** [s.startswith(p)] and [s.endswith(p)]. *)
Definition startswith (s p : string) : bool := String.prefix p s.

Definition endswith (s p : string) : bool :=
  let n := String.length s in
  let k := String.length p in
  (k <=? n)%nat && String.eqb (str_drop (n - k) s) p.

(** [c in s] for a one-character string [c]. *)
Fixpoint contains_char (c : ascii) (s : string) : bool :=
  match s with
  | EmptyString => false
  | String d s' => Ascii.eqb c d || contains_char c s'
  end.

(** [s.replace(a, b)] for one-character strings [a] and [b]. *)
Fixpoint replace_char (a b : ascii) (s : string) : string :=
  match s with
  | EmptyString => EmptyString
  | String c s' => String (if Ascii.eqb c a then b else c) (replace_char a b s')
  end.

(** [s.split(sep)] for a one-character separator: always at least one
    field. *)
Fixpoint split (sep : ascii) (s : string) : list string :=
  match s with
  | EmptyString => [EmptyString]
  | String c s' =>
      if Ascii.eqb c sep then EmptyString :: split sep s'
      else match split sep s' with
           | f :: fs => String c f :: fs
           | [] => [String c EmptyString]
           end
  end.

(** [s.rfind(c)]: the index of the last occurrence, or [-1]. *)
Fixpoint rfind_from (c : ascii) (s : string) (i : nat) : option nat :=
  match s with
  | EmptyString => None
  | String d s' =>
      match rfind_from c s' (S i) with
      | Some j => Some j
      | None => if Ascii.eqb c d then Some i else None
      end
  end.

Definition rfind (s : string) (c : ascii) : Z :=
  match rfind_from c s 0 with
  | Some j => Z.of_nat j
  | None => -1
  end.

Fixpoint str_forallb (p : ascii -> bool) (s : string) : bool :=
  match s with
  | EmptyString => true
  | String c s' => p c && str_forallb p s'
  end.

Fixpoint str_repeat (c : ascii) (n : nat) : string :=
  match n with
  | O => EmptyString
  | S n' => String c (str_repeat c n')
  end.

(** [s.zfill(width)]: zeros go after a leading sign. *)
Definition zfill (width : nat) (s : string) : string :=
  let pad := str_repeat "0" (width - String.length s) in
  match s with
  | String c s' =>
      if Ascii.eqb c "-" || Ascii.eqb c "+" then String c (pad +:+ s')
      else pad +:+ s
  | EmptyString => pad
  end.

(** ** Python integers as text *)

Definition digit_char (d : Z) : ascii := ascii_of_nat (48 + Z.to_nat d).

(** Decimal digits by repeated division, least significant first into
    the accumulator; [fuel] bounds the number of digits. *)
Fixpoint str_aux (fuel : nat) (n : Z) (acc : string) : string :=
  match fuel with
  | O => acc
  | S fuel' =>
      let acc' := String (digit_char (n mod 10)) acc in
      if n / 10 =? 0 then acc' else str_aux fuel' (n / 10) acc'
  end.

Definition str_nonneg (n : Z) : string :=
  str_aux (S (Z.to_nat (Z.log2 n))) n EmptyString.

(** [str(n)] for an [int]. *)
Definition str_int (n : Z) : string :=
  if n <? 0 then String "-" (str_nonneg (- n)) else str_nonneg n.

(** [f"{n:0kd}"]. *)
Definition format_0d (k : nat) (n : Z) : string := zfill k (str_int n).

(** The value of a run of digits, most significant first (spaces are
    skipped, as [int] strips them). *)
Fixpoint digits_value (s : string) (acc : Z) : Z :=
  match s with
  | EmptyString => acc
  | String c s' =>
      if is_digit c then digits_value s' (10 * acc + (Z.of_nat (nat_of_ascii c) - 48))
      else digits_value s' acc
  end.

(** [int(s)] in base 10: surrounding white space is stripped, one sign
    is allowed, and digits may be grouped by single underscores. *)
Fixpoint lstrip (s : string) : string :=
  match s with
  | String c s' => if is_space c then lstrip s' else s
  | EmptyString => EmptyString
  end.

Definition rstrip (s : string) : string := String.rev (lstrip (String.rev s)).

(** [digit_groups prev s]: [s] is digits with single underscores between
    digits; [prev] tells whether the previous character was a digit. *)
Fixpoint digit_groups (prev : bool) (s : string) : bool :=
  match s with
  | EmptyString => prev
  | String c s' =>
      if is_digit c then digit_groups true s'
      else if Ascii.eqb c "_" then prev && digit_groups false s'
      else false
  end.

Definition int_of_str (s : string) : res Z :=
  let t := rstrip (lstrip s) in
  let '(neg, body) :=
    match t with
    | String c t' =>
        if Ascii.eqb c "-" then (true, t')
        else if Ascii.eqb c "+" then (false, t')
        else (false, t)
    | EmptyString => (false, t)
    end in
  if digit_groups false body
  then Ret (if neg then - digits_value body 0 else digits_value body 0)
  else Raise ValueError.

(** ** os.path *)

(** [os.path.join(a, *p)] of posixpath. *)
Definition join2 (path b : string) : string :=
  if startswith b "/" || String.eqb path EmptyString then b
  else if endswith path "/" then path +:+ b
  else path +:+ "/" +:+ b.

Definition os_path_join (a : string) (p : list string) : string :=
  fold_left join2 p a.

(** [os.path.basename(p)]. *)
Definition os_path_basename (p : string) : string :=
  str_drop (Z.to_nat (rfind p "/" + 1)) p.

(** [os.path.splitext(p)]: the extension starts at the last dot of the
    last component, unless only dots precede it there. *)
Definition os_path_splitext (p : string) : string * string :=
  let sepIndex := rfind p "/" in
  let dotIndex := rfind p "." in
  if sepIndex <? dotIndex then
    let lead := str_take (Z.to_nat (dotIndex - (sepIndex + 1)))
                         (str_drop (Z.to_nat (sepIndex + 1)) p) in
    if str_forallb (Ascii.eqb ".") lead then (p, EmptyString)
    else (str_take (Z.to_nat dotIndex) p, str_drop (Z.to_nat dotIndex) p)
  else (p, EmptyString).

(** ** datetime *)

(** A naive [datetime.datetime]. *)
Record datetime : Type := mk_datetime {
  year : Z;
  month : Z;
  day : Z;
  hour : Z;
  minute : Z;
  second : Z;
  microsecond : Z
}.

Definition is_leap (y : Z) : bool :=
  (y mod 4 =? 0) && (negb (y mod 100 =? 0) || (y mod 400 =? 0)).

Definition days_in_month (y m : Z) : Z :=
  if m =? 2 then (if is_leap y then 29 else 28)
  else if (m =? 4) || (m =? 6) || (m =? 9) || (m =? 11) then 30
  else 31.

Definition in_range (lo hi x : Z) : bool := (lo <=? x) && (x <=? hi).

(** The field ranges the [datetime] constructor enforces. *)
Definition valid_datetime (t : datetime) : bool :=
  in_range 1 9999 (year t) && in_range 1 12 (month t)
  && in_range 1 (days_in_month (year t) (month t)) (day t)
  && in_range 0 23 (hour t) && in_range 0 59 (minute t)
  && in_range 0 59 (second t) && in_range 0 999999 (microsecond t).

(** Comparison of naive datetimes: lexicographic on the fields. *)
Definition dt_key (t : datetime) : list Z :=
  [year t; month t; day t; hour t; minute t; second t; microsecond t].

Fixpoint lex_ltb (a b : list Z) : bool :=
  match a, b with
  | x :: a', y :: b' => (x <? y) || ((x =? y) && lex_ltb a' b')
  | [], _ :: _ => true
  | _, [] => false
  end.

Definition dt_ltb (a b : datetime) : bool := lex_ltb (dt_key a) (dt_key b).

Definition month_names : list string :=
  ["January"; "February"; "March"; "April"; "May"; "June"; "July";
   "August"; "September"; "October"; "November"; "December"].

(** [%B] in the C locale, which the program never changes. *)
Definition month_name (m : Z) : string :=
  nth (Z.to_nat (m - 1)) month_names EmptyString.

(** One [strftime] directive.  [%Y] is the year "with century as a
    decimal number" in four digits, as the library documents it (a few C
    libraries leave years below 1000 unpadded). *)
Definition strftime_directive (t : datetime) (d : ascii) : string :=
  if Ascii.eqb d "Y" then format_0d 4 (year t)
  else if Ascii.eqb d "m" then format_0d 2 (month t)
  else if Ascii.eqb d "d" then format_0d 2 (day t)
  else if Ascii.eqb d "H" then format_0d 2 (hour t)
  else if Ascii.eqb d "M" then format_0d 2 (minute t)
  else if Ascii.eqb d "S" then format_0d 2 (second t)
  else if Ascii.eqb d "B" then month_name (month t)
  else String "%" (String d EmptyString).

(** [t.strftime(fmt)]. *)
Fixpoint strftime (t : datetime) (fmt : string) : string :=
  match fmt with
  | EmptyString => EmptyString
  | String c fmt1 =>
      if Ascii.eqb c "%" then
        match fmt1 with
        | String d fmt2 => strftime_directive t d +:+ strftime t fmt2
        | EmptyString => String c EmptyString
        end
      else String c (strftime t fmt1)
  end.

(** *** strptime *)

(** [datetime.strptime] turns the format into a regular expression: a
    directive becomes an ordered alternation of short character-class
    sequences, white space becomes [\s+], any other character stands for
    itself.  The expression is matched at the start of the text with
    backtracking; text left over, or a field out of range, is a
    [ValueError]. *)
Definition char_class : Type := ascii -> bool.

Definition cc_range (lo hi : ascii) : char_class :=
  fun c => ascii_in_range (nat_of_ascii lo) (nat_of_ascii hi) c.

Definition cc_is (a : ascii) : char_class := Ascii.eqb a.

Definition directive_regex (d : ascii) : option (list (list char_class)) :=
  if Ascii.eqb d "Y" then Some [[is_digit; is_digit; is_digit; is_digit]]
  else if Ascii.eqb d "m" then
    Some [[cc_is "1"; cc_range "0" "2"]; [cc_is "0"; cc_range "1" "9"];
          [cc_range "1" "9"]]
  else if Ascii.eqb d "d" then
    Some [[cc_is "3"; cc_range "0" "1"]; [cc_range "1" "2"; is_digit];
          [cc_is "0"; cc_range "1" "9"]; [cc_range "1" "9"];
          [cc_is " "; cc_range "1" "9"]]
  else if Ascii.eqb d "H" then
    Some [[cc_is "2"; cc_range "0" "3"]; [cc_range "0" "1"; is_digit];
          [is_digit]]
  else if Ascii.eqb d "M" then
    Some [[cc_range "0" "5"; is_digit]; [is_digit]]
  else if Ascii.eqb d "S" then
    Some [[cc_is "6"; cc_range "0" "1"]; [cc_range "0" "5"; is_digit];
          [is_digit]]
  else None.

(** Match a sequence of classes at the start of [s]: the matched text
    and the rest. *)
Fixpoint match_classes (cs : list char_class) (s : string) : option (string * string) :=
  match cs with
  | [] => Some (EmptyString, s)
  | p :: cs' =>
      match s with
      | String c s' =>
          if p c then
            match match_classes cs' s' with
            | Some (m, r) => Some (String c m, r)
            | None => None
            end
          else None
      | EmptyString => None
      end
  end.

Definition set_field (d : ascii) (v : Z) (t : datetime) : datetime :=
  if Ascii.eqb d "Y" then mk_datetime v (month t) (day t) (hour t) (minute t) (second t) (microsecond t)
  else if Ascii.eqb d "m" then mk_datetime (year t) v (day t) (hour t) (minute t) (second t) (microsecond t)
  else if Ascii.eqb d "d" then mk_datetime (year t) (month t) v (hour t) (minute t) (second t) (microsecond t)
  else if Ascii.eqb d "H" then mk_datetime (year t) (month t) (day t) v (minute t) (second t) (microsecond t)
  else if Ascii.eqb d "M" then mk_datetime (year t) (month t) (day t) (hour t) v (second t) (microsecond t)
  else if Ascii.eqb d "S" then mk_datetime (year t) (month t) (day t) (hour t) (minute t) v (microsecond t)
  else t.

(** The first alternative, in order, after which [k] succeeds. *)
Fixpoint first_match {A} (alts : list (list char_class)) (s : string)
    (k : string -> string -> option A) : option A :=
  match alts with
  | [] => None
  | cs :: alts' =>
      match match_classes cs s with
      | Some (m, r) =>
          match k m r with
          | Some a => Some a
          | None => first_match alts' s k
          end
      | None => first_match alts' s k
      end
  end.

(** [\s+], greedy: the longest run of white space first, then shorter
    ones, but never an empty one. *)
Fixpoint match_spaces {A} (s : string) (k : string -> option A) : option A :=
  match s with
  | String c s' =>
      if is_space c then
        match match_spaces s' k with
        | Some a => Some a
        | None => k s'
        end
      else None
  | EmptyString => None
  end.

(** [in_space] records that the previous format character was white
    space, a run of which is a single [\s+]. *)
Fixpoint match_format (fmt : string) (in_space : bool) (s : string) (t : datetime)
    : option (datetime * string) :=
  match fmt with
  | EmptyString => Some (t, s)
  | String c fmt1 =>
      if Ascii.eqb c "%" then
        match fmt1 with
        | String d fmt2 =>
            match directive_regex d with
            | Some alts =>
                first_match alts s
                  (fun m r => match_format fmt2 false r (set_field d (digits_value m 0) t))
            | None => None
            end
        | EmptyString => None
        end
      else if is_space c then
        if in_space then match_format fmt1 true s t
        else match_spaces s (fun r => match_format fmt1 true r t)
      else
        match s with
        | String c' s' => if Ascii.eqb c c' then match_format fmt1 false s' t else None
        | EmptyString => None
        end
  end.

(** Fields a format does not mention default to 1900-01-01 00:00:00. *)
Definition strptime_default : datetime := mk_datetime 1900 1 1 0 0 0 0.

(** [datetime.strptime(s, fmt)] for a text [s]. *)
Definition strptime (s fmt : string) : res datetime :=
  match match_format fmt false s strptime_default with
  | Some (t, EmptyString) => if valid_datetime t then Ret t else Raise ValueError
  | _ => Raise ValueError
  end.

(** ** hashlib.md5 *)

Definition byte_val (b : byte) : Z := Z.of_N (Byte.to_N b).

Definition w32 (x : Z) : Z := x mod 2 ^ 32.

Definition rotl32 (x : Z) (s : Z) : Z :=
  w32 (Z.lor (Z.shiftl x s) (Z.shiftr (w32 x) (32 - s))).

Definition not32 (x : Z) : Z := Z.lxor (w32 x) (2 ^ 32 - 1).

Definition md5_shifts : list Z :=
  [7; 12; 17; 22; 7; 12; 17; 22; 7; 12; 17; 22; 7; 12; 17; 22;
   5; 9; 14; 20; 5; 9; 14; 20; 5; 9; 14; 20; 5; 9; 14; 20;
   4; 11; 16; 23; 4; 11; 16; 23; 4; 11; 16; 23; 4; 11; 16; 23;
   6; 10; 15; 21; 6; 10; 15; 21; 6; 10; 15; 21; 6; 10; 15; 21].

Definition md5_K : list Z :=
  [0xd76aa478; 0xe8c7b756; 0x242070db; 0xc1bdceee;
   0xf57c0faf; 0x4787c62a; 0xa8304613; 0xfd469501;
   0x698098d8; 0x8b44f7af; 0xffff5bb1; 0x895cd7be;
   0x6b901122; 0xfd987193; 0xa679438e; 0x49b40821;
   0xf61e2562; 0xc040b340; 0x265e5a51; 0xe9b6c7aa;
   0xd62f105d; 0x02441453; 0xd8a1e681; 0xe7d3fbc8;
   0x21e1cde6; 0xc33707d6; 0xf4d50d87; 0x455a14ed;
   0xa9e3e905; 0xfcefa3f8; 0x676f02d9; 0x8d2a4c8a;
   0xfffa3942; 0x8771f681; 0x6d9d6122; 0xfde5380c;
   0xa4beea44; 0x4bdecfa9; 0xf6bb4b60; 0xbebfbc70;
   0x289b7ec6; 0xeaa127fa; 0xd4ef3085; 0x04881d05;
   0xd9d4d039; 0xe6db99e5; 0x1fa27cf8; 0xc4ac5665;
   0xf4292244; 0x432aff97; 0xab9423a7; 0xfc93a039;
   0x655b59c3; 0x8f0ccc92; 0xffeff47d; 0x85845dd1;
   0x6fa87e4f; 0xfe2ce6e0; 0xa3014314; 0x4e0811a1;
   0xf7537e82; 0xbd3af235; 0x2ad7d2bb; 0xeb86d391].

(** Little-endian words and bytes. *)
Definition le_word (b0 b1 b2 b3 : Z) : Z :=
  b0 + 2 ^ 8 * b1 + 2 ^ 16 * b2 + 2 ^ 24 * b3.

Fixpoint le_words (n : nat) (bs : list Z) : list Z :=
  match n with
  | O => []
  | S n' => le_word (nth 0 bs 0) (nth 1 bs 0) (nth 2 bs 0) (nth 3 bs 0)
            :: le_words n' (drop 4 bs)
  end.

Definition le_bytes (nbytes : nat) (x : Z) : list Z :=
  map (fun i => (x / 2 ^ (8 * Z.of_nat i)) mod 256) (seq 0 nbytes).

Definition md5_state : Type := (Z * Z * Z * Z)%type.

Definition md5_init : md5_state :=
  (0x67452301, 0xefcdab89, 0x98badcfe, 0x10325476).

Definition md5_round (M : list Z) (i : nat) (st : md5_state) : md5_state :=
  let '(A, B, C, D) := st in
  let j := Z.of_nat i in
  let '(F, g) :=
    if j <? 16 then (Z.lor (Z.land B C) (Z.land (not32 B) D), j)
    else if j <? 32 then (Z.lor (Z.land D B) (Z.land (not32 D) C), (5 * j + 1) mod 16)
    else if j <? 48 then (Z.lxor (Z.lxor B C) D, (3 * j + 5) mod 16)
    else (Z.lxor C (Z.lor B (not32 D)), (7 * j) mod 16) in
  let F' := w32 (F + A + nth i md5_K 0 + nth (Z.to_nat g) M 0) in
  (D, w32 (B + rotl32 F' (nth i md5_shifts 0)), B, C).

Definition md5_block (st : md5_state) (block : list Z) : md5_state :=
  let M := le_words 16 block in
  let '(A, B, C, D) := fold_left (fun s i => md5_round M i s) (seq 0 64) st in
  let '(a0, b0, c0, d0) := st in
  (w32 (a0 + A), w32 (b0 + B), w32 (c0 + C), w32 (d0 + D)).

Fixpoint md5_blocks (n : nat) (st : md5_state) (msg : list Z) : md5_state :=
  match n with
  | O => st
  | S n' => md5_blocks n' (md5_block st (take 64 msg)) (drop 64 msg)
  end.

(** The message followed by [0x80], zeros up to 56 modulo 64, and its
    length in bits as a 64-bit little-endian word. *)
Definition md5_pad (msg : list Z) : list Z :=
  let len := Z.of_nat (length msg) in
  let zeros := Z.to_nat ((55 - len) mod 64) in
  msg ++ [128] ++ repeat 0 zeros ++ le_bytes 8 ((8 * len) mod 2 ^ 64).

(** The 16 bytes of the digest. *)
Definition md5_digest (data : list byte) : list Z :=
  let padded := md5_pad (map byte_val data) in
  let '(a, b, c, d) := md5_blocks (Nat.div (length padded) 64) md5_init padded in
  le_bytes 4 a ++ le_bytes 4 b ++ le_bytes 4 c ++ le_bytes 4 d.

Definition hex_chars : list ascii :=
  ["0"; "1"; "2"; "3"; "4"; "5"; "6"; "7"; "8"; "9"; "a"; "b"; "c"; "d"; "e"; "f"]%char.

Definition hex_digit (d : Z) : ascii := nth (Z.to_nat (d mod 16)) hex_chars "0"%char.

Fixpoint hex_of_bytes (bs : list Z) : string :=
  match bs with
  | [] => EmptyString
  | b :: bs' => String (hex_digit (b / 16)) (String (hex_digit b) (hex_of_bytes bs'))
  end.

(** A hash object is the bytes fed to it so far: [update] appends,
    [hexdigest] hashes the whole. *)
Definition md5_new : list byte := [].
Definition md5_update (h chunk : list byte) : list byte := h ++ chunk.
Definition md5_hexdigest (h : list byte) : string := hex_of_bytes (md5_digest h).

(** ** The file system and the external collaborators *)

(** What the image library reports for a file it can open: the pixel
    size and the EXIF mapping, as pairs of tag id and value in iteration
    order.  A value is either text or something else. *)
Inductive exif_value : Type :=
| ExifText (s : string)
| ExifOther.

Record image : Type := mk_image {
  img_width : Z;
  img_height : Z;
  img_exif : list (Z * exif_value)
}.

(** What [ffprobe -print_format json -show_format -show_streams]
    reports: a failure status, output that is not JSON, or the streams
    and the container tags ([format.tags], empty when absent). *)
Record stream : Type := mk_stream {
  codec_type : option string;
  stream_width : option Z;
  stream_height : option Z
}.

Inductive ffprobe_result : Type :=
| FfprobeError
| FfprobeGarbage
| FfprobeReport (streams : list stream) (tags : gmap string string).

(** A regular file: its bytes, whether it may be opened for reading, its
    last-modified time as [datetime.fromtimestamp(os.path.getmtime(p))]
    gives it, and what the two collaborators make of its content. *)
Record file : Type := mk_file {
  f_bytes : list byte;
  f_readable : bool;
  f_mtime : datetime;
  f_image : option image;
  f_probe : ffprobe_result
}.

(** A directory lists its entries in [scandir] order and may or may not
    allow entries to be added and removed. *)
#[warnings="-register-all"] Inductive node : Type :=
| File (f : file)
| Dir (writable : bool) (entries : list (string * node)).

Fixpoint assoc {A} (k : string) (es : list (string * A)) : option A :=
  match es with
  | [] => None
  | (k', v) :: es' => if String.eqb k k' then Some v else assoc k es'
  end.

Fixpoint assoc_set {A} (k : string) (v : A) (es : list (string * A)) : list (string * A) :=
  match es with
  | [] => [(k, v)]
  | (k', v') :: es' =>
      if String.eqb k k' then (k, v) :: es' else (k', v') :: assoc_set k v es'
  end.

Fixpoint assoc_del {A} (k : string) (es : list (string * A)) : list (string * A) :=
  match es with
  | [] => []
  | (k', v') :: es' =>
      if String.eqb k k' then es' else (k', v') :: assoc_del k es'
  end.

(** Paths are resolved from the root of the tree, which is also the
    working directory; empty components and [.] are skipped, [..] is
    not interpreted. *)
Definition components (p : string) : list string :=
  List.filter (fun c => negb (String.eqb c "") && negb (String.eqb c ".")) (split "/" p).

Fixpoint lookup_path (n : node) (cs : list string) : option node :=
  match cs with
  | [] => Some n
  | c :: cs' =>
      match n with
      | Dir _ es =>
          match assoc c es with
          | Some ch => lookup_path ch cs'
          | None => None
          end
      | File _ => None
      end
  end.

Definition resolve (fs : node) (p : string) : option node :=
  if String.eqb p "" then None else lookup_path fs (components p).

Definition os_path_exists (fs : node) (p : string) : bool :=
  match resolve fs p with
  | Some _ => true
  | None => false
  end.

Definition os_path_isdir (fs : node) (p : string) : bool :=
  match resolve fs p with
  | Some (Dir _ _) => true
  | _ => false
  end.

(** Rebuild the tree after [f] has edited the directory that holds the
    last component of [cs]; [f] receives that directory's flag and
    entries and the last component. *)
Fixpoint with_parent (n : node) (cs : list string)
    (f : bool -> list (string * node) -> string -> option (list (string * node)))
    : option node :=
  match cs with
  | [] => None
  | c :: cs' =>
      match n with
      | File _ => None
      | Dir w es =>
          match cs' with
          | [] => es' ← f w es c; Some (Dir w es')
          | _ :: _ =>
              ch ← assoc c es;
              ch' ← with_parent ch cs' f;
              Some (Dir w (assoc_set c ch' es))
          end
      end
  end.

(** A new entry: the name must be free and the directory writable. *)
Definition create_at (n : node) (cs : list string) (x : node) : option node :=
  with_parent n cs (fun w es c =>
    match assoc c es with
    | None => if w then Some (es ++ [(c, x)]) else None
    | Some _ => None
    end).

(** New content for an existing regular file. *)
Definition overwrite_at (n : node) (cs : list string) (x : node) : option node :=
  with_parent n cs (fun w es c =>
    match assoc c es with
    | Some (File _) => Some (assoc_set c x es)
    | _ => None
    end).

Definition remove_at (n : node) (cs : list string) : option node :=
  with_parent n cs (fun w es c =>
    match assoc c es with
    | Some _ => if w then Some (assoc_del c es) else None
    | None => None
    end).

(** The effect of [os.makedirs]: every missing directory along [cs] is
    created, which requires the directory above it to be writable; a
    regular file on the way is an error; so is an existing leaf unless
    [exist_ok]. *)
Fixpoint makedirs_at (n : node) (cs : list string) (exist_ok : bool) : option node :=
  match cs with
  | [] =>
      match n with
      | Dir _ _ => if exist_ok then Some n else None
      | File _ => None
      end
  | c :: cs' =>
      match n with
      | File _ => None
      | Dir w es =>
          match assoc c es with
          | Some ch =>
              ch' ← makedirs_at ch cs' exist_ok;
              Some (Dir w (assoc_set c ch' es))
          | None =>
              if w then
                ch' ← makedirs_at (Dir true []) cs' true;
                Some (Dir w (es ++ [(c, ch')]))
              else None
          end
      end
  end.

Fixpoint tree_size (n : node) : nat :=
  match n with
  | File _ => 1
  | Dir _ es =>
      S ((fix entries_size (l : list (string * node)) : nat :=
            match l with
            | [] => O
            | (_, ch) :: l' => (tree_size ch + entries_size l')%nat
            end) es)
  end.

(** ** Output and state *)

Inductive operation : Type :=
| OpCopy
| OpMove.

(** The lines the program prints, one constructor for each [print]; a
    destination is carried as the path itself (the program shows it
    relative to the output directory). *)
Inductive line : Type :=
| ErrorProcessing (image_path : string)
| FfprobeFailed (video_path : string)
| ErrorProcessingVideo (video_path : string)
| ErrorGeneratingHash (file_path : string)
| CouldNotExtract (filename : string)
| WouldSkip (filename new_path : string)
| Skipped (filename new_path : string)
| Would (op : operation) (filename new_path : string)
| Done (op : operation) (filename new_path : string)
| ErrorOperation (op : operation) (filename : string)
| InputDirectoryNotFound (input_directory : string)
| Scanning
| SkippingNoMetadata (name : string)
| NoSupportedFiles
| FoundFrom (n : nat) (start_year_month : string)
| InvalidYearMonth (start_year_month : string)
| ProcessingAll (n : nat)
| CreatedOutputDirectory (output_directory : string)
| ProcessingMediaFiles
| NoFilesToProcess
| Processed (success_count total_count : Z).

Record state : Type := mk_state {
  st_fs : node;
  st_out : list line
}.

(** Computations that read and change the file system, print, and may
    raise; the state reached when an exception is raised is kept. *)
Definition M (A : Type) : Type := state -> res A * state.

#[global] Instance M_ret : MRet M := fun A a s => (Ret a, s).
#[global] Instance M_bind : MBind M := fun A B k c s =>
  match c s with
  | (Ret a, s') => k a s'
  | (Raise e, s') => (Raise e, s')
  end.

Definition raise {A} (e : exn) : M A := fun s => (Raise e, s).

Definition catch {A} (c : M A) (h : exn -> M A) : M A := fun s =>
  match c s with
  | (Ret a, s') => (Ret a, s')
  | (Raise e, s') => h e s'
  end.

Definition print (l : line) : M unit := fun s =>
  (Ret tt, mk_state (st_fs s) (st_out s ++ [l])).

Definition get_fs : M node := fun s => (Ret (st_fs s), s).

(** A function that only reads the file system and prints. *)
Definition observe {A} (f : node -> A * list line) : M A := fun s =>
  let '(a, out) := f (st_fs s) in
  (Ret a, mk_state (st_fs s) (st_out s ++ out)).

(** A file-system operation that either happens as a whole or raises
    [OSError] and changes nothing. *)
Definition fs_op (f : node -> option node) : M unit := fun s =>
  match f (st_fs s) with
  | Some fs' => (Ret tt, mk_state fs' (st_out s))
  | None => (Raise OSError, s)
  end.

(** [os.makedirs(name, exist_ok=...)] *)
Definition os_makedirs (name : string) (exist_ok : bool) : M unit :=
  fs_op (fun fs =>
    if String.eqb name "" then None else makedirs_at fs (components name) exist_ok).

(** [shutil.copy2(src, dst)]: the source must be a readable regular
    file; a destination that is a directory receives the file under the
    source's base name; the copy carries the content and the
    modification time of the source. *)
Definition shutil_copy2 (src dst : string) : M unit :=
  fs_op (fun fs =>
    match resolve fs src with
    | Some (File f) =>
        if f_readable f then
          let dst' := if os_path_isdir fs dst
                      then os_path_join dst [os_path_basename src] else dst in
          if String.eqb dst' "" then None
          else if bool_decide (components src = components dst') then None
          else match resolve fs dst' with
               | Some _ => overwrite_at fs (components dst') (File f)
               | None => create_at fs (components dst') (File f)
               end
        else None
    | _ => None
    end).

(** [os.rename(src, dst)] for a regular file. *)
Definition os_rename (src dst : string) : M unit :=
  fs_op (fun fs =>
    match resolve fs src with
    | Some (File f) =>
        if String.eqb dst "" then None
        else if bool_decide (components src = components dst) then Some fs
        else
          fs1 ← remove_at fs (components src);
          match resolve fs1 dst with
          | Some _ => overwrite_at fs1 (components dst) (File f)
          | None => create_at fs1 (components dst) (File f)
          end
    | _ => None
    end).

Definition os_unlink (p : string) : M unit :=
  fs_op (fun fs =>
    match resolve fs p with
    | Some (File _) => remove_at fs (components p)
    | _ => None
    end).

(** [shutil.move(src, dst)] for a regular file: into [dst] when that is
    a directory, where the name must be free; by [os.rename], and when
    that fails by copying and then unlinking the source. *)
Definition shutil_move (src dst : string) : M unit :=
  fs ← get_fs;
  real_dst ←
    (if os_path_isdir fs dst then
       let real_dst := os_path_join dst [os_path_basename src] in
       if os_path_exists fs real_dst then raise OtherException else mret real_dst
     else mret dst);
  catch (os_rename src real_dst)
        (fun _ => shutil_copy2 src real_dst;; os_unlink src).

(** ** The program *)

(** The triple [(date_taken, width, height)] the metadata functions
    return; each part may be [None]. *)
Definition metadata : Type := (option datetime * option Z * option Z)%type.

Definition no_metadata : metadata := (None, None, None).

(** The ids that [PIL.ExifTags.TAGS] names [DateTime] (0x0132) and
    [DateTimeOriginal] (0x9003). *)
Definition is_date_tag (tag_id : Z) : bool :=
  (tag_id =? 306) || (tag_id =? 36867).

(** The loop over [exifdata]: the first date tag whose value parses
    wins; a value that does not parse is skipped; a value that is not
    text makes [strptime] raise [TypeError]. *)
Fixpoint exif_date_taken (exifdata : list (Z * exif_value)) : res (option datetime) :=
  match exifdata with
  | [] => Ret None
  | (tag_id, data) :: rest =>
      if is_date_tag tag_id then
        match data with
        | ExifText s =>
            match strptime s "%Y:%m:%d %H:%M:%S" with
            | Ret d => Ret (Some d)
            | Raise ValueError => exif_date_taken rest
            | Raise e => Raise e
            end
        | ExifOther => Raise TypeError
        end
      else exif_date_taken rest
  end.

(** [Image.open(image_path)] *)
Definition image_open (fs : node) (image_path : string) : res (file * image) :=
  match resolve fs image_path with
  | Some (File f) =>
      if f_readable f then
        match f_image f with
        | Some img => Ret (f, img)
        | None => Raise OtherException
        end
      else Raise OSError
  | _ => Raise OSError
  end.

Definition get_image_metadata (fs : node) (image_path : string) : metadata * list line :=
  match
    '(f, image) ← image_open fs image_path;
    date_taken ← exif_date_taken (img_exif image);
    let date_taken :=
      match date_taken with
      | Some d => d
      | None => f_mtime f
      end in
    Ret (date_taken, img_width image, img_height image)
  with
  | Ret (date_taken, width, height) => ((Some date_taken, Some width, Some height), [])
  | Raise _ => (no_metadata, [ErrorProcessing image_path])
  end.

(** [subprocess.run(['ffprobe', ...])] on a path. *)
Definition ffprobe (fs : node) (video_path : string) : ffprobe_result :=
  match resolve fs video_path with
  | Some (File f) => if f_readable f then f_probe f else FfprobeError
  | _ => FfprobeError
  end.

(** Python truth of a JSON number that may be missing. *)
Definition truthy (v : option Z) : bool :=
  match v with
  | Some x => negb (x =? 0)
  | None => false
  end.

(** Lines 109-113: the tag value as it is handed to [strptime]. *)
Definition prepare_date_str (date_str : string) : string :=
  if contains_char "T" date_str then
    let date_str := hd EmptyString (split "." (replace_char "T" " " date_str)) in
    if endswith date_str "Z"
    then str_take (String.length date_str - 1) date_str
    else date_str
  else date_str.

Definition date_fields : list string := ["creation_time"; "date"; "datetime"].

(** The loop over [date_fields]. *)
Fixpoint tag_date_taken (tags : gmap string string) (fields : list string)
    : res (option datetime) :=
  match fields with
  | [] => Ret None
  | field :: rest =>
      match tags !! field with
      | Some date_str =>
          match strptime (prepare_date_str date_str) "%Y-%m-%d %H:%M:%S" with
          | Ret d => Ret (Some d)
          | Raise ValueError => tag_date_taken tags rest
          | Raise e => Raise e
          end
      | None => tag_date_taken tags rest
      end
  end.

(** [datetime.fromtimestamp(os.path.getmtime(p))] *)
Definition getmtime (fs : node) (p : string) : res datetime :=
  match resolve fs p with
  | Some (File f) => Ret (f_mtime f)
  | _ => Raise OSError
  end.

(** Lines 81-124, once the JSON report is at hand. *)
Definition report_metadata (fs : node) (video_path : string)
    (streams : list stream) (tags : gmap string string) : res (datetime * Z * Z) :=
  match List.find (fun s => bool_decide (codec_type s = Some "video")) streams with
  | None => Raise OtherException
  | Some video_stream =>
      let width := stream_width video_stream in
      let height := stream_height video_stream in
      if negb (truthy width) || negb (truthy height) then Raise OtherException
      else
        date_taken ← tag_date_taken tags date_fields;
        date_taken ←
          match date_taken with
          | Some d => Ret d
          | None => getmtime fs video_path
          end;
        Ret (date_taken, default 0 width, default 0 height)
  end.

Definition get_video_metadata (fs : node) (video_path : string) : metadata * list line :=
  let '(r, out) :=
    match ffprobe fs video_path with
    | FfprobeError => (Raise OtherException, [FfprobeFailed video_path])
    | FfprobeGarbage => (Raise ValueError, [])
    | FfprobeReport streams tags => (report_metadata fs video_path streams tags, [])
    end in
  match r with
  | Ret (date_taken, width, height) => ((Some date_taken, Some width, Some height), out)
  | Raise _ => (no_metadata, out ++ [ErrorProcessingVideo video_path])
  end.

Fixpoint str_in (x : string) (l : list string) : bool :=
  match l with
  | [] => false
  | y :: l' => String.eqb x y || str_in x l'
  end.

Definition get_file_metadata (fs : node) (file_path : string) : metadata * list line :=
  let file_ext := lower (snd (os_path_splitext file_path)) in
  if str_in file_ext [".mov"; ".mp4"] then get_video_metadata fs file_path
  else get_image_metadata fs file_path.

(** [open(file_path, 'rb')] *)
Definition open_rb (fs : node) (file_path : string) : res file :=
  match resolve fs file_path with
  | Some (File f) => if f_readable f then Ret f else Raise OSError
  | _ => Raise OSError
  end.

(** [for chunk in iter(lambda: f.read(4096), b""): hash_obj.update(chunk)],
    on the bytes not yet read. *)
Fixpoint read_loop (fuel : nat) (rest : list byte) (hash_obj : list byte) : list byte :=
  match fuel with
  | O => hash_obj
  | S fuel' =>
      match take 4096 rest with
      | [] => hash_obj
      | chunk => read_loop fuel' (drop 4096 rest) (md5_update hash_obj chunk)
      end
  end.

Definition generate_hash (fs : node) (file_path : string) (len : nat)
    : res string * list line :=
  let hash_obj := md5_new in
  match
    f ← open_rb fs file_path;
    let hash_obj := read_loop (S (length (f_bytes f))) (f_bytes f) hash_obj in
    Ret (str_take len (md5_hexdigest hash_obj))
  with
  | Ret h => (Ret h, [])
  | Raise _ => (Ret "00000000", [ErrorGeneratingHash file_path])
  end.

(** Lines 172-184: the destination of a file with the given metadata,
    hash and extension. *)
Definition structured_dir_of (output_dir : string) (date_taken : datetime) : string :=
  let year_s := strftime date_taken "%Y" in
  let month_s := strftime date_taken "%B" in
  os_path_join output_dir [year_s; month_s].

Definition new_filename_of (date_taken : datetime) (width height : Z)
    (file_hash file_ext : string) : string :=
  let microseconds := str_take 4 (zfill 6 (str_int (microsecond date_taken))) in
  let date_str := strftime date_taken "%Y-%m-%d_%H.%M.%S" in
  let date_str := date_str +:+ "." +:+ microseconds in
  date_str +:+ "_" +:+ str_int width +:+ "x" +:+ str_int height
    +:+ "_" +:+ file_hash +:+ file_ext.

Definition new_path_of (output_dir : string) (date_taken : datetime) (width height : Z)
    (file_hash file_ext : string) : string :=
  os_path_join (structured_dir_of output_dir date_taken)
    [new_filename_of date_taken width height file_hash file_ext].

(** Lines 196-201: the loop that looks for a free name.  It returns the
    path and the counter it stopped with, or nothing when the fuel runs
    out. *)
Fixpoint free_name_loop (fuel : nat) (fs : node) (original_new_path file_ext : string)
    (new_path : string) (counter : Z) : option (string * Z) :=
  match fuel with
  | O => None
  | S fuel' =>
      if os_path_exists fs new_path then
        let name_without_ext := fst (os_path_splitext original_new_path) in
        let new_path := name_without_ext +:+ "_" +:+ format_0d 3 counter +:+ file_ext in
        free_name_loop fuel' fs original_new_path file_ext new_path (counter + 1)
      else Some (new_path, counter)
  end.

Definition operation_of (in_place : bool) : operation :=
  if in_place then OpMove else OpCopy.

Definition observe_res {A} (f : node -> res A * list line) : M A := fun s =>
  let '(r, out) := f (st_fs s) in
  (r, mk_state (st_fs s) (st_out s ++ out)).

(** Lines 208-222: the relocation itself, in live mode. *)
Definition relocate_file (file_path new_path structured_dir filename : string)
    (in_place : bool) : M bool :=
  os_makedirs structured_dir true;;
  catch
    ((if in_place then
        shutil_move file_path new_path;;
        print (Done OpMove filename new_path)
      else
        shutil_copy2 file_path new_path;;
        print (Done OpCopy filename new_path));;
     mret true)
    (fun _ =>
       print (ErrorOperation (operation_of in_place) filename);;
       mret false).

Definition copy_and_rename_file (file_path output_dir : string) (dry_run in_place : bool)
    : M bool :=
  let filename := os_path_basename file_path in
  let file_ext := lower (snd (os_path_splitext filename)) in
  '(date_taken, width, height) ← observe (fun fs => get_file_metadata fs file_path);
  match date_taken, width, height with
  | Some date_taken, Some width, Some height =>
      file_hash ← observe_res (fun fs => generate_hash fs file_path 8);
      let structured_dir := structured_dir_of output_dir date_taken in
      let new_path := new_path_of output_dir date_taken width height file_hash file_ext in
      fs ← get_fs;
      if os_path_exists fs new_path then
        (if dry_run then print (WouldSkip filename new_path)
         else print (Skipped filename new_path));;
        mret true
      else
        let counter := 1 in
        let original_new_path := new_path in
        match free_name_loop (S (tree_size fs)) fs original_new_path file_ext new_path counter with
        | None => raise OtherException
        | Some (new_path, _) =>
            if dry_run then
              print (Would (operation_of in_place) filename new_path);;
              mret true
            else relocate_file file_path new_path structured_dir filename in_place
        end
  | _, _, _ =>
      print (CouldNotExtract filename);;
      mret false
  end.

Definition supported_formats : list string :=
  [".jpg"; ".jpeg"; ".png"; ".tiff"; ".tif"; ".bmp"; ".gif"; ".webp"; ".heic";
   ".mov"; ".mp4"].

Definition is_dir_entry (e : string * node) : bool :=
  match snd e with
  | Dir _ _ => true
  | File _ => false
  end.

Definition dirnames (es : list (string * node)) : list string :=
  map fst (List.filter is_dir_entry es).

Definition filenames (es : list (string * node)) : list string :=
  map fst (List.filter (fun e => negb (is_dir_entry e)) es).

(** [os.walk(top)], top-down: the triple of a directory, then the walks
    of its sub-directories in listing order. *)
Fixpoint os_walk_node (top : string) (n : node) : list (string * list string * list string) :=
  match n with
  | File _ => []
  | Dir _ es =>
      (top, dirnames es, filenames es)
      :: (fix walk_entries (l : list (string * node)) :=
            match l with
            | [] => []
            | (name, child) :: l' =>
                os_walk_node (os_path_join top [name]) child ++ walk_entries l'
            end) es
  end.

Definition os_walk (fs : node) (top : string) : list (string * list string * list string) :=
  match resolve fs top with
  | Some n => os_walk_node top n
  | None => []
  end.

(** The inner loop of the scanner over the files of one directory. *)
Fixpoint media_in (root : string) (files : list string) : list string :=
  match files with
  | [] => []
  | file :: rest =>
      if startswith file "." then media_in root rest
      else if str_in (lower (snd (os_path_splitext file))) supported_formats
      then os_path_join root [file] :: media_in root rest
      else media_in root rest
  end.

Definition find_media_files_recursively (fs : node) (directory_path : string) : list string :=
  flat_map (fun '(root, dirs, files) => media_in root files) (os_walk fs directory_path).

(** Lines 248-253: the metadata of every scanned file. *)
Fixpoint collect_metadata (fs : node) (files : list string)
    : list (string * datetime) * list line :=
  match files with
  | [] => ([], [])
  | file_path :: rest =>
      let '((date_taken, width, height), out) := get_file_metadata fs file_path in
      let '(found, out') := collect_metadata fs rest in
      match date_taken with
      | Some d => ((file_path, d) :: found, out ++ out')
      | None =>
          (found, out ++ SkippingNoMetadata (os_path_basename file_path) :: out')
      end
  end.

(** [list.sort(key=lambda x: x[1])]: a stable sort that compares the
    keys with [<]; the result of such a sort does not depend on the
    algorithm, and insertion is the simplest one. *)
Fixpoint insert_by_time (x : string * datetime) (l : list (string * datetime))
    : list (string * datetime) :=
  match l with
  | [] => [x]
  | y :: l' =>
      if dt_ltb (snd y) (snd x) then y :: insert_by_time x l' else x :: y :: l'
  end.

Fixpoint sort_by_time (l : list (string * datetime)) : list (string * datetime) :=
  match l with
  | [] => []
  | x :: l' => insert_by_time x (sort_by_time l')
  end.

(** [start_year, start_month = map(int, start_year_month.split('/'))]:
    any other number of fields than two, and any field that is not an
    integer, is a [ValueError]. *)
Definition parse_year_month (start_year_month : string) : res (Z * Z) :=
  match split "/" start_year_month with
  | [a; b] =>
      start_year ← int_of_str a;
      start_month ← int_of_str b;
      Ret (start_year, start_month)
  | _ => Raise ValueError
  end.

(** The condition of line 268. *)
Definition from_start (start_year start_month : Z) (date_taken : datetime) : bool :=
  (start_year <? year date_taken)
  || ((year date_taken =? start_year) && (start_month <=? month date_taken)).

(** Python truth of an optional string argument. *)
Definition supplied (start_year_month : option string) : option string :=
  match start_year_month with
  | Some s => if String.eqb s "" then None else Some s
  | None => None
  end.

(** Lines 262-277: the files to relocate, or nothing when the start is
    not of the form year/month, and the line printed. *)
Definition select_media_files (start_year_month : option string)
    (media_files_with_metadata : list (string * datetime))
    : option (list string) * list line :=
  match supplied start_year_month with
  | Some s =>
      match parse_year_month s with
      | Ret (start_year, start_month) =>
          let filtered_files :=
            map fst (List.filter (fun x => from_start start_year start_month (snd x))
                                 media_files_with_metadata) in
          (Some filtered_files, [FoundFrom (length filtered_files) s])
      | Raise _ => (None, [InvalidYearMonth s])
      end
  | None =>
      let media_files := map fst media_files_with_metadata in
      (Some media_files, [ProcessingAll (length media_files)])
  end.

(** Lines 288-291. *)
Fixpoint relocate_loop (media_files : list string) (output_directory : string)
    (dry_run in_place : bool) (success_count total_count : Z) : M (Z * Z) :=
  match media_files with
  | [] => mret (success_count, total_count)
  | file_path :: rest =>
      let total_count := total_count + 1 in
      ok ← copy_and_rename_file file_path output_directory dry_run in_place;
      let success_count := if (ok : bool) then success_count + 1 else success_count in
      relocate_loop rest output_directory dry_run in_place success_count total_count
  end.

(** Lines 279-296: the output directory, the loop and the summary. *)
Definition relocate_all (media_files : list string) (output_directory : string)
    (dry_run in_place : bool) : M unit :=
  fs ← get_fs;
  (if negb dry_run && negb (os_path_exists fs output_directory) then
     os_makedirs output_directory false;;
     print (CreatedOutputDirectory output_directory)
   else mret tt);;
  print ProcessingMediaFiles;;
  '(success_count, total_count) ←
    relocate_loop media_files output_directory dry_run in_place 0 0;
  if total_count =? 0 then print NoFilesToProcess
  else print (Processed success_count total_count).

Definition process_directory (input_directory output_directory : string)
    (dry_run : bool) (start_year_month : option string) (in_place : bool) : M unit :=
  fs ← get_fs;
  if negb (os_path_isdir fs input_directory) then
    print (InputDirectoryNotFound input_directory)
  else
    print Scanning;;
    media_files_with_metadata ←
      observe (fun fs => collect_metadata fs (find_media_files_recursively fs input_directory));
    match media_files_with_metadata with
    | [] => print NoSupportedFiles
    | _ :: _ =>
        let media_files_with_metadata := sort_by_time media_files_with_metadata in
        selected ←
          observe (fun _ => select_media_files start_year_month media_files_with_metadata);
        match selected with
        | None => mret tt
        | Some media_files => relocate_all media_files output_directory dry_run in_place
        end
    end.


(** The capture time the metadata functions resolve for a path. *)
Definition resolved_time (fs : node) (p : string) : option datetime :=
  fst (fst (fst (get_file_metadata fs p))).

(** ** The specification's words *)

(** The [k] low-order decimal digits of [n], most significant first: a
    field of exactly [k] digits. *)
Fixpoint digits (k : nat) (n : Z) : string :=
  match k with
  | O => EmptyString
  | S k' => String (digit_char ((n / 10 ^ Z.of_nat k') mod 10)) (digits k' n)
  end.

Definition english_month (m : Z) : string :=
  match m with
  | 1 => "January" | 2 => "February" | 3 => "March" | 4 => "April"
  | 5 => "May" | 6 => "June" | 7 => "July" | 8 => "August"
  | 9 => "September" | 10 => "October" | 11 => "November" | 12 => "December"
  | _ => EmptyString
  end.

(** [<destination_root>/]: the root as the prefix of the paths below it.
    A root that already ends in the separator gets no second one, and
    the empty root is the working directory. *)
Definition as_directory (root : string) : string :=
  if String.eqb root "" then ""
  else if endswith root "/" then root
  else root +:+ "/".

(** [YYYY-MM-DD_HH.MM.SS], a dot, the first four digits of the
    six-digit microsecond value, and [_WxH_hx]. *)
Definition spec_stem (t : datetime) (w h : Z) (hx : string) : string :=
  digits 4 (year t) +:+ "-" +:+ digits 2 (month t) +:+ "-" +:+ digits 2 (day t)
  +:+ "_" +:+ digits 2 (hour t) +:+ "." +:+ digits 2 (minute t)
  +:+ "." +:+ digits 2 (second t)
  +:+ "." +:+ str_take 4 (digits 6 (microsecond t))
  +:+ "_" +:+ str_int w +:+ "x" +:+ str_int h +:+ "_" +:+ hx.


Definition is_lower_hex (c : ascii) : bool :=
  is_digit c || ascii_in_range 97 102 c.






(** A regular file [name] lies in the directory reached from a node by
    the directory names [ds]. *)
Inductive file_under : node -> list string -> string -> Prop :=
| file_here w es name f :
    In (name, File f) es -> file_under (Dir w es) [] name
| file_below w es d child ds name :
    In (d, child) es -> file_under child ds name ->
    file_under (Dir w es) (d :: ds) name.

Definition hidden (name : string) : bool := startswith name ".".

Definition supported (name : string) : bool :=
  str_in (lower (snd (os_path_splitext name))) supported_formats.

(** The per-file outcome lines of [copy_and_rename_file]. *)
Definition is_report (l : line) : bool :=
  match l with
  | CouldNotExtract _ | WouldSkip _ _ | Skipped _ _ | Would _ _ _
  | Done _ _ _ | ErrorOperation _ _ => true
  | _ => false
  end.


Definition is_failure (l : line) : bool :=
  match l with
  | CouldNotExtract _ | ErrorOperation _ _ => true
  | _ => false
  end.

(** *** The validity checker *)








(** ** Auxiliary notions for the statements *)

(** The state after more lines have been printed. *)
Definition add_out (s : state) (out : list line) : state :=
  mk_state (st_fs s) (st_out s ++ out).

(** The extension of a file as [copy_and_rename_file] takes it. *)
Definition file_ext_of (file_path : string) : string :=
  lower (snd (os_path_splitext (os_path_basename file_path))).

(** Every regular file of [n] is still there, unchanged, in [n'], and
    every directory of [n] is still a directory with the same flag. *)
Definition preserves (n n' : node) : Prop :=
  forall q : list string,
    (forall f, lookup_path n q = Some (File f) -> lookup_path n' q = Some (File f)) /\
    (forall w es, lookup_path n q = Some (Dir w es) ->
                  exists es', lookup_path n' q = Some (Dir w es')).


(** ** A small file system for the examples *)

Definition bytes_of_string (s : string) : list byte :=
  map byte_of_ascii (list_ascii_of_string s).

(** A 640x480 image without EXIF date, modified on 2023-06-15. *)
Definition ex_image : file :=
  mk_file (bytes_of_string "abc") true (mk_datetime 2023 6 15 10 0 0 123456)
    (Some (mk_image 640 480 [])) FfprobeError.

(** A 10x20 image whose EXIF carries a [DateTime]. *)
Definition ex_image_exif : file :=
  mk_file (bytes_of_string "hello") true (mk_datetime 2024 1 1 0 0 0 0)
    (Some (mk_image 10 20 [(271, ExifText "Canon"); (306, ExifText "2021:03:04 05:06:07")]))
    FfprobeError.

(** A 1920x1080 video with a [creation_time] tag. *)
Definition ex_video : file :=
  mk_file (bytes_of_string "video") true (mk_datetime 2020 1 1 0 0 0 0) None
    (FfprobeReport
       [mk_stream (Some "audio") None None; mk_stream (Some "video") (Some 1920) (Some 1080)]
       (<["creation_time" := "2023-12-25T14:30:45.000000Z"]> ∅)).

(** A text file, which no collaborator can read as media. *)
Definition ex_text : file :=
  mk_file (bytes_of_string "text") true (mk_datetime 2020 1 1 0 0 0 0) None FfprobeError.

Definition ex_fs : node :=
  Dir true
    [("photos",
      Dir true
        [("a.JPG", File ex_image);
         (".hidden.jpg", File ex_image);
         (".thumbs", Dir true [("t.png", File ex_image_exif)]);
         ("sub", Dir true [("clip.mp4", File ex_video);
                           ("readme.txt", File ex_text);
                           ("bad.jpg", File ex_text)])])].

Definition ex_state : state := mk_state ex_fs [].

(** A computation that leaves the file system as it found it. *)
Definition keeps_fs {A} (c : M A) : Prop :=
  forall s, st_fs (snd (c s)) = st_fs s.




(** Induction on a tree of files and directories. *)
Fixpoint node_induction (P : node -> Prop)
    (Hfile : forall f, P (File f))
    (Hdir : forall w es, Forall (fun e => P (snd e)) es -> P (Dir w es))
    (n : node) : P n :=
  match n with
  | File f => Hfile f
  | Dir w es =>
      Hdir w es
        ((fix children (l : list (string * node)) : Forall (fun e => P (snd e)) l :=
            match l with
            | [] => @List.Forall_nil _ _
            | (name, child) :: l' =>
                @List.Forall_cons _ (fun e => P (snd e)) (name, child) l'
                  (node_induction P Hfile Hdir child) (children l')
            end) es)
  end.

(** The media files the scanner yields below a node reached as [top]. *)
Definition scan_node (top : string) (n : node) : list string :=
  flat_map (fun '(root, dirs, files) => media_in root files) (os_walk_node top n).


(** C9 as the specification states it: no yielded path has a component
    below the root whose name starts with a dot. *)
Definition C9_as_stated : Prop :=
  forall fs root n ds name,
    resolve fs root = Some n -> file_under n ds name ->
    In (os_path_join root (ds ++ [name])) (find_media_files_recursively fs root) ->
    Forall (fun c => hidden c = false) (ds ++ [name]).


(** A tree that holds two images, and the first live run over it,
    copying into [out]. *)
Definition ex_fs_images : node :=
  Dir true [("in", Dir true [("a.jpg", File ex_image); ("b.PNG", File ex_image_exif)])].

Definition ex_first_run : res unit * state :=
  process_directory "in" "out" false None false (mk_state ex_fs_images []).

(** ** The order of the batch *)

(** [a] is not later than [b]. *)
Definition time_le (a b : string * datetime) : Prop := dt_ltb (snd b) (snd a) = false.


(** The entry the first pass keeps for a path, if any. *)
Definition resolved_entry (fs : node) (p : string) : option (string * datetime) :=
  match resolved_time fs p with
  | Some d => Some (p, d)
  | None => None
  end.

(** ** Further notions for the statements *)

(** An EXIF entry the loop of lines 38-47 passes over: it is no date
    tag, or its text does not parse. *)
Definition exif_skipped (e : Z * exif_value) : Prop :=
  is_date_tag (fst e) = false \/
  exists s, snd e = ExifText s /\ strptime s "%Y:%m:%d %H:%M:%S" = Raise ValueError.

(** An image whose [DateTime] is not text. *)
Definition ex_image_raw_date : file :=
  mk_file (bytes_of_string "raw") true (mk_datetime 2022 2 2 2 2 2 0)
    (Some (mk_image 30 40 [(306, ExifOther); (36867, ExifText "2021:03:04 05:06:07")]))
    FfprobeError.

Definition ex_fs_raw_date : node := Dir true [("x.jpg", File ex_image_raw_date)].

(** Whether a path goes to the video resolver (line 136). *)
Definition is_video_path (file_path : string) : bool :=
  str_in (lower (snd (os_path_splitext file_path))) [".mov"; ".mp4"].

(** Two capture times that [<] does not tell apart. *)
Definition same_time (a b : datetime) : bool :=
  negb (dt_ltb a b) && negb (dt_ltb b a).

(** Whether the first pass keeps a path (line 250). *)
Definition has_date (fs : node) (file_path : string) : bool :=
  match resolved_time fs file_path with
  | Some _ => true
  | None => false
  end.

(** The line of line 253. *)
Definition is_skipping (l : line) : bool :=
  match l with
  | SkippingNoMetadata _ => true
  | _ => false
  end.

(** The per-file lines after which [copy_and_rename_file] returns
    [True]. *)
Definition is_success (l : line) : bool := is_report l && negb (is_failure l).

(** A computation that prints nothing. *)
Definition silent {A} (c : M A) : Prop :=
  forall s, st_out (snd (c s)) = st_out s.

(** Two copies of one image under different names. *)
Definition ex_fs_twins : node :=
  Dir true [("in", Dir true [("a.jpg", File ex_image); ("b.JPG", File ex_image)])].

(** An output tree in which a regular file has the name of the year. *)
Definition ex_fs_blocked : node :=
  Dir true [("in", Dir true [("a.jpg", File ex_image)]);
            ("out", Dir true [("2023", File ex_text)])].

(** ** The command line (lines 299-337) *)

(** The namespace that [parser.parse_args()] returns. *)
Module args.
Record t : Type := mk {
  input_path : string;
  output : option string;
  dry_run : bool;
  from_date : option string;
  in_place : bool
}.
End args.

(** What [main] prints itself, and the lines of [process_directory]. *)
Inductive main_line : Type :=
| InputPathNotFound (input_path : string)
| InputPathNotDirectory (input_path : string)
| OutputIgnored
| ContinuePrompt (output_directory : string)
| OperationCancelled
| BatchLine (l : line).

(** How [main] ends: it returns, [sys.exit] is called, or an exception
    escapes. *)
Inductive ending : Type :=
| Returns
| SystemExit (code : Z)
| Escapes (e : exn).

(** [s.rstrip('/')] *)
Fixpoint lstrip_char (c : ascii) (s : string) : string :=
  match s with
  | String d s' => if Ascii.eqb d c then lstrip_char c s' else s
  | EmptyString => EmptyString
  end.

Definition rstrip_char (c : ascii) (s : string) : string :=
  String.rev (lstrip_char c (String.rev s)).

(** Lines 318-328: the variable [output_directory]. *)
Definition output_directory_of (a : args.t) : string :=
  if args.in_place a then args.input_path a
  else
    match supplied (args.output a) with
    | Some o => o
    | None => rstrip_char "/" (args.input_path a) +:+ "_renamed"
    end.

(** Line 337, with the lines that [main] printed before it. *)
Definition run_batch (a : args.t) (fs : node) (printed : list main_line)
    : ending * node * list main_line :=
  let '(r, s) :=
    process_directory (args.input_path a) (output_directory_of a) (args.dry_run a)
      (args.from_date a) (args.in_place a) (mk_state fs []) in
  (match r with
   | Ret _ => Returns
   | Raise e => Escapes e
   end,
   st_fs s, printed ++ map BatchLine (st_out s)).

(** [main] on the parsed arguments; [stdin] is the line that [input]
    reads, if there is one: at the end of the input [input] raises
    [EOFError] after it has written its prompt. *)
Definition main (a : args.t) (stdin : option string) (fs : node)
    : ending * node * list main_line :=
  if negb (os_path_exists fs (args.input_path a)) then
    (SystemExit 1, fs, [InputPathNotFound (args.input_path a)])
  else if negb (os_path_isdir fs (args.input_path a)) then
    (SystemExit 1, fs, [InputPathNotDirectory (args.input_path a)])
  else if args.in_place a then
    run_batch a fs
      (match supplied (args.output a) with
       | Some _ => [OutputIgnored]
       | None => []
       end)
  else
    let output_directory := output_directory_of a in
    if os_path_exists fs output_directory && negb (args.dry_run a) then
      match stdin with
      | Some response =>
          if negb (String.eqb (lower response) "y") then
            (SystemExit 0, fs, [ContinuePrompt output_directory; OperationCancelled])
          else run_batch a fs [ContinuePrompt output_directory]
      | None => (Escapes OtherException, fs, [ContinuePrompt output_directory])
      end
    else run_batch a fs [].

(** An output tree whose month directory does not allow new entries. *)
Definition ex_fs_locked : node :=
  Dir true [("in", Dir true [("a.jpg", File ex_image)]);
            ("out", Dir true [("2023", Dir true [("June", Dir false [])])])].

(** ** Well-formed trees *)

Fixpoint names_distinct (l : list string) : bool :=
  match l with
  | [] => true
  | x :: l' => negb (str_in x l') && names_distinct l'
  end.

(** No directory lists a name twice. *)
Fixpoint distinct_names (n : node) : bool :=
  match n with
  | File _ => true
  | Dir _ es =>
      names_distinct (map fst es)
      && (fix all (l : list (string * node)) : bool :=
            match l with
            | [] => true
            | (_, ch) :: l' => distinct_names ch && all l'
            end) es
  end.

(** A name that is one path component: not empty, not [.], and without
    a separator. *)
Definition plain_name (c : string) : bool :=
  negb (contains_char "/" c) && negb (String.eqb c "") && negb (String.eqb c ".").

(** Every entry of every directory has a plain name. *)
Fixpoint plain_names (n : node) : bool :=
  match n with
  | File _ => true
  | Dir _ es =>
      (fix all (l : list (string * node)) : bool :=
         match l with
         | [] => true
         | (c, ch) :: l' => plain_name c && plain_names ch && all l'
         end) es
  end.

(** A tree in which the source directory does not allow entries to be
    removed while the output directory is free to be written. *)
Definition ex_fs_pinned : node :=
  Dir true [("in", Dir false [("a.jpg", File ex_image)])].

(** * Theorems *)

(** ** Facts about strings and numbers *)

Lemma str_app_cons (c : ascii) (a b : string) : String c a +:+ b = String c (a +:+ b).
Proof. reflexivity. Qed.

Lemma str_app_nil (b : string) : "" +:+ b = b.
Proof. reflexivity. Qed.

Lemma str_length_app (a b : string) :
  String.length (a +:+ b) = (String.length a + String.length b)%nat.
Proof.
  induction a as [|c a IH]; [reflexivity|].
  rewrite str_app_cons. simpl. now rewrite IH.
Qed.

Lemma str_app_assoc (a b c : string) : (a +:+ b) +:+ c = a +:+ (b +:+ c).
Proof.
  induction a as [|x a IH]; [reflexivity|].
  rewrite !str_app_cons. now rewrite IH.
Qed.

Lemma str_app_empty_r (a : string) : a +:+ "" = a.
Proof.
  induction a as [|x a IH]; [reflexivity|].
  rewrite str_app_cons. now rewrite IH.
Qed.

Lemma str_drop_app_length (a b : string) : str_drop (String.length a) (a +:+ b) = b.
Proof.
  induction a as [|x a IH]; [now destruct b|].
  rewrite str_app_cons. exact IH.
Qed.

Lemma str_take_length (n : nat) (s : string) :
  String.length (str_take n s) = Nat.min n (String.length s).
Proof.
  revert s; induction n as [|n IH]; intros [|c s]; simpl; try reflexivity.
  now rewrite IH.
Qed.

Lemma str_forallb_take (p : ascii -> bool) (n : nat) (s : string) :
  str_forallb p s = true -> str_forallb p (str_take n s) = true.
Proof.
  revert s; induction n as [|n IH]; intros [|c s]; simpl; try reflexivity.
  intros [Hc Hs]%andb_true_iff. rewrite Hc. now apply IH.
Qed.

(** [s.endswith(c)] looks at the last character only. *)
Lemma endswith_snoc (s : string) (c d : ascii) :
  endswith (s +:+ String c "") (String d "") = Ascii.eqb c d.
Proof.
  unfold endswith. rewrite str_length_app. simpl String.length.
  replace (String.length s + 1 - 1)%nat with (String.length s) by lia.
  rewrite str_drop_app_length.
  destruct (String.length s + 1)%nat eqn:E; [lia|]. simpl.
  now destruct (Ascii.eqb c d).
Qed.

Lemma str_snoc_exists (c : ascii) (s : string) :
  exists s' d, String c s = s' +:+ String d "".
Proof.
  revert c; induction s as [|x s IH]; intros c.
  - now exists "", c.
  - destruct (IH x) as (s' & d & E). exists (String c s'), d.
    rewrite str_app_cons. now rewrite E.
Qed.

Lemma endswith_app (a b : string) (d : ascii) :
  b <> "" -> endswith (a +:+ b) (String d "") = endswith b (String d "").
Proof.
  intros Hb. destruct b as [|c b]; [easy|].
  destruct (str_snoc_exists c b) as (s' & x & E). rewrite E.
  rewrite <- str_app_assoc. now rewrite !endswith_snoc.
Qed.

Lemma startswith_cons (c d : ascii) (s : string) :
  startswith (String c s) (String d "") = Ascii.eqb d c.
Proof.
  unfold startswith. cbn [String.prefix].
  destruct (ascii_dec d c) as [->|Hn].
  - rewrite Ascii.eqb_refl. now destruct s.
  - apply Ascii.eqb_neq in Hn. now rewrite Hn.
Qed.

Lemma mod10_cases (x : Z) :
  x mod 10 = 0 \/ x mod 10 = 1 \/ x mod 10 = 2 \/ x mod 10 = 3 \/ x mod 10 = 4 \/
  x mod 10 = 5 \/ x mod 10 = 6 \/ x mod 10 = 7 \/ x mod 10 = 8 \/ x mod 10 = 9.
Proof. pose proof (Z.mod_pos_bound x 10); lia. Qed.

(** A decimal digit is a digit character, hence neither a sign nor a
    separator. *)
Lemma digit_char_is_digit (x : Z) : is_digit (digit_char (x mod 10)) = true.
Proof.
  destruct (mod10_cases x) as [E|[E|[E|[E|[E|[E|[E|[E|[E|E]]]]]]]]];
    rewrite E; reflexivity.
Qed.

Lemma is_digit_not (c d : ascii) :
  is_digit c = true -> is_digit d = false -> Ascii.eqb c d = false.
Proof.
  intros Hc Hd. apply Ascii.eqb_neq. intros ->. congruence.
Qed.

Lemma digits_S (k : nat) (n : Z) :
  digits (S k) n = String (digit_char ((n / 10 ^ Z.of_nat k) mod 10)) (digits k n).
Proof. reflexivity. Qed.

Lemma digits_length (k : nat) (n : Z) : String.length (digits k n) = k.
Proof.
  induction k as [|k IH]; [reflexivity|].
  rewrite digits_S. cbn [String.length]. now rewrite IH.
Qed.

Lemma digits_all_digit (k : nat) (n : Z) : str_forallb is_digit (digits k n) = true.
Proof.
  induction k as [|k IH]; [reflexivity|]. rewrite digits_S. cbn [str_forallb].
  now rewrite digit_char_is_digit, IH.
Qed.

(** The digits of [n] are those of [n / 10] followed by the last one. *)
Lemma digits_snoc (k : nat) (n : Z) :
  digits (S k) n = digits k (n / 10) +:+ String (digit_char (n mod 10)) "".
Proof.
  induction k as [|k IH].
  - rewrite digits_S. cbn [digits Z.of_nat]. rewrite Z.pow_0_r, Z.div_1_r. reflexivity.
  - rewrite (digits_S (S k) n), IH, (digits_S k (n / 10)), str_app_cons.
    f_equal. f_equal. f_equal.
    rewrite Nat2Z.inj_succ, Z.pow_succ_r by lia.
    rewrite Z.div_div by lia. reflexivity.
Qed.

(** Leading zeros: a number below [10 ^ m] written on [j + m] digits. *)
Lemma digits_leading_zeros (m j : nat) (n : Z) :
  0 <= n < 10 ^ Z.of_nat m ->
  digits (j + m) n = str_repeat "0" j +:+ digits m n.
Proof.
  intros Hn. induction j as [|j IH]; [reflexivity|].
  change (S j + m)%nat with (S (j + m)). rewrite digits_S, IH.
  simpl str_repeat. rewrite str_app_cons. f_equal.
  rewrite Z.div_small; [reflexivity|].
  split; [lia|]. eapply Z.lt_le_trans; [apply Hn|].
  apply Z.pow_le_mono_r; lia.
Qed.

Lemma str_aux_S (fuel : nat) (n : Z) (acc : string) :
  str_aux (S fuel) n acc =
  if n / 10 =? 0 then String (digit_char (n mod 10)) acc
  else str_aux fuel (n / 10) (String (digit_char (n mod 10)) acc).
Proof. reflexivity. Qed.

(** What the division loop produces: the [m] digits of [n], where [m]
    is the least number of digits that holds [n]. *)
Lemma str_aux_digits (fuel : nat) : forall (n : Z) (acc : string),
  0 <= n < 10 ^ Z.of_nat (S fuel) ->
  exists m : nat, (1 <= m)%nat /\ n < 10 ^ Z.of_nat m /\
    (m = 1%nat \/ 10 ^ Z.of_nat (m - 1) <= n) /\
    str_aux (S fuel) n acc = digits m n +:+ acc.
Proof.
  induction fuel as [|fuel IH]; intros n acc Hn.
  - exists 1%nat. change (10 ^ Z.of_nat 1) with 10 in *.
    rewrite str_aux_S. rewrite Z.div_small by lia. cbn [Z.eqb].
    rewrite digits_S. cbn [digits Z.of_nat]. rewrite Z.pow_0_r, Z.div_1_r.
    repeat split; lia || (now left) || reflexivity.
  - rewrite str_aux_S. destruct (n / 10 =? 0) eqn:E.
    + apply Z.eqb_eq in E. exists 1%nat.
      assert (n < 10) by (apply Z.div_small_iff in E; lia).
      rewrite digits_S. cbn [digits Z.of_nat]. rewrite Z.pow_0_r, Z.div_1_r.
      change (10 ^ Z.of_nat 1) with 10.
      repeat split; lia || (now left) || reflexivity.
    + apply Z.eqb_neq in E.
      assert (Hq : 0 <= n / 10 < 10 ^ Z.of_nat (S fuel)).
      { split; [apply Z.div_pos; lia|].
        apply Z.div_lt_upper_bound; [lia|].
        rewrite <- Z.pow_succ_r by lia. rewrite <- Nat2Z.inj_succ. apply Hn. }
      destruct (IH (n / 10) (String (digit_char (n mod 10)) acc) Hq)
        as (m & Hm & Hlt & Hmin & Heq).
      pose proof (Z.div_mod n 10 ltac:(lia)). pose proof (Z.mod_pos_bound n 10 ltac:(lia)).
      exists (S m). split; [lia|]. split; [|split].
      * rewrite Nat2Z.inj_succ, Z.pow_succ_r by lia. lia.
      * right. replace (S m - 1)%nat with m by lia.
        destruct Hmin as [->|Hmin]; [change (10 ^ Z.of_nat 1) with 10; lia|].
        replace m with (S (m - 1)) at 1 by lia.
        rewrite Nat2Z.inj_succ, Z.pow_succ_r by lia. lia.
      * rewrite Heq, digits_snoc, str_app_assoc. reflexivity.
Qed.

Lemma log2_fuel (n : Z) : 0 <= n -> n < 10 ^ Z.of_nat (S (Z.to_nat (Z.log2 n))).
Proof.
  intros Hn. destruct (Z.eq_dec n 0) as [->|Hz]; [reflexivity|].
  pose proof (Z.log2_spec n ltac:(lia)) as [_ H].
  pose proof (Z.log2_nonneg n).
  rewrite Nat2Z.inj_succ, Z2Nat.id by lia.
  eapply Z.lt_le_trans; [apply H|].
  apply Z.pow_le_mono_l. lia.
Qed.

(** [str(n)] of a number below [10 ^ k] has at most [k] digits and no
    sign, and [zfill] completes them with zeros. *)
Lemma format_0d_digits (k : nat) (n : Z) :
  (1 <= k)%nat -> 0 <= n < 10 ^ Z.of_nat k -> format_0d k n = digits k n.
Proof.
  intros Hk Hn. unfold format_0d, str_int.
  destruct (n <? 0) eqn:E; [apply Z.ltb_lt in E; lia|]. unfold str_nonneg.
  destruct (str_aux_digits (Z.to_nat (Z.log2 n)) n "" (conj (proj1 Hn) (log2_fuel n (proj1 Hn))))
    as (m & Hm & Hlt & Hmin & Heq).
  rewrite Heq, str_app_empty_r.
  assert (Hmk : (m <= k)%nat).
  { destruct Hmin as [->|Hmin]; [lia|].
    assert (Z.of_nat (m - 1) < Z.of_nat k); [|lia].
    apply (Z.pow_lt_mono_r_iff 10); lia. }
  unfold zfill. rewrite digits_length.
  destruct m as [|m]; [lia|].
  pose proof (digits_S m n) as ES.
  remember (digits (S m) n) as s eqn:Es. rewrite ES.
  rewrite (is_digit_not _ "-" (digit_char_is_digit _)) by reflexivity.
  rewrite (is_digit_not _ "+" (digit_char_is_digit _)) by reflexivity.
  cbn [orb]. rewrite <- ES, Es.
  replace k with ((k - S m) + S m)%nat at 2 by lia.
  symmetry. apply digits_leading_zeros. lia.
Qed.

(** ** The destination path (lines 172-184) *)

Lemma valid_datetime_bounds (t : datetime) :
  valid_datetime t = true ->
  1 <= year t <= 9999 /\ 1 <= month t <= 12 /\ 1 <= day t <= 31 /\
  0 <= hour t <= 23 /\ 0 <= minute t <= 59 /\ 0 <= second t <= 59 /\
  0 <= microsecond t <= 999999.
Proof.
  unfold valid_datetime, in_range. rewrite !andb_true_iff, !Z.leb_le.
  intros H. assert (days_in_month (year t) (month t) <= 31).
  { unfold days_in_month.
    repeat match goal with |- context [if ?b then _ else _] => destruct b end; lia. }
  lia.
Qed.

Lemma month_name_english (m : Z) : 1 <= m <= 12 -> month_name m = english_month m.
Proof.
  intros H.
  assert (E : m = 1 \/ m = 2 \/ m = 3 \/ m = 4 \/ m = 5 \/ m = 6 \/ m = 7 \/ m = 8 \/
              m = 9 \/ m = 10 \/ m = 11 \/ m = 12) by lia.
  destruct E as [E|[E|[E|[E|[E|[E|[E|[E|[E|[E|[E|E]]]]]]]]]]]; rewrite E; reflexivity.
Qed.

Lemma english_month_shape (m : Z) :
  1 <= m <= 12 ->
  english_month m <> "" /\ endswith (english_month m) "/" = false /\
  startswith (english_month m) "/" = false.
Proof.
  intros H.
  assert (E : m = 1 \/ m = 2 \/ m = 3 \/ m = 4 \/ m = 5 \/ m = 6 \/ m = 7 \/ m = 8 \/
              m = 9 \/ m = 10 \/ m = 11 \/ m = 12) by lia.
  destruct E as [E|[E|[E|[E|[E|[E|[E|[E|[E|[E|[E|E]]]]]]]]]]]; rewrite E;
    (split; [discriminate | split; reflexivity]).
Qed.

Lemma digits_shape (k : nat) (n : Z) :
  digits (S k) n <> "" /\ endswith (digits (S k) n) "/" = false /\
  forall r, startswith (digits (S k) n +:+ r) "/" = false.
Proof.
  split; [rewrite digits_S; discriminate|]. split.
  - rewrite digits_snoc, endswith_snoc.
    apply is_digit_not; [apply digit_char_is_digit | reflexivity].
  - intros r. rewrite digits_S, str_app_cons, startswith_cons, Ascii.eqb_sym.
    apply is_digit_not; [apply digit_char_is_digit | reflexivity].
Qed.

(** [os.path.join] with a component that is not absolute appends it to
    the directory prefix. *)
Lemma join2_relative (path b : string) :
  startswith b "/" = false -> join2 path b = as_directory path +:+ b.
Proof.
  intros Hb. unfold join2, as_directory. rewrite Hb. cbn [orb].
  destruct (String.eqb path "") eqn:E; [reflexivity|].
  destruct (endswith path "/"); [reflexivity|].
  now rewrite str_app_assoc.
Qed.

Lemma as_directory_app (a b : string) :
  b <> "" -> endswith b "/" = false -> as_directory (a +:+ b) = a +:+ b +:+ "/".
Proof.
  intros Hb He. unfold as_directory.
  rewrite endswith_app, He by assumption.
  destruct (String.eqb (a +:+ b) "") eqn:E; [|now rewrite str_app_assoc].
  apply String.eqb_eq in E. destruct a, b; try discriminate. congruence.
Qed.

Lemma strftime_year (t : datetime) : strftime t "%Y" = format_0d 4 (year t) +:+ "".
Proof. reflexivity. Qed.

Lemma strftime_month (t : datetime) : strftime t "%B" = month_name (month t) +:+ "".
Proof. reflexivity. Qed.

Lemma strftime_stamp (t : datetime) :
  strftime t "%Y-%m-%d_%H.%M.%S" =
  format_0d 4 (year t) +:+ "-" +:+ format_0d 2 (month t) +:+ "-" +:+ format_0d 2 (day t)
  +:+ "_" +:+ format_0d 2 (hour t) +:+ "." +:+ format_0d 2 (minute t)
  +:+ "." +:+ format_0d 2 (second t) +:+ "".
Proof. reflexivity. Qed.

Ltac str_normalize :=
  repeat (rewrite str_app_assoc || rewrite str_app_cons || rewrite str_app_nil
          || rewrite str_app_empty_r).

Lemma structured_dir_of_spec (output_dir : string) (t : datetime) :
  valid_datetime t = true ->
  structured_dir_of output_dir t =
  as_directory output_dir +:+ digits 4 (year t) +:+ "/" +:+ english_month (month t).
Proof.
  intros Hv. destruct (valid_datetime_bounds t Hv) as (Hy & Hm & _).
  unfold structured_dir_of, os_path_join. cbn [fold_left].
  rewrite strftime_year, strftime_month, !str_app_empty_r.
  rewrite format_0d_digits by (simpl; lia).
  rewrite month_name_english by assumption.
  destruct (digits_shape 3 (year t)) as (Hne & Hend & Hstart).
  destruct (english_month_shape (month t) Hm) as (Mne & Mend & Mstart).
  rewrite (join2_relative output_dir).
  2:{ specialize (Hstart ""). now rewrite str_app_empty_r in Hstart. }
  rewrite join2_relative by assumption.
  rewrite as_directory_app by assumption.
  now rewrite !str_app_assoc.
Qed.

Lemma new_filename_of_spec (t : datetime) (w h : Z) (hx e : string) :
  valid_datetime t = true ->
  new_filename_of t w h hx e = spec_stem t w h hx +:+ e.
Proof.
  intros Hv.
  destruct (valid_datetime_bounds t Hv) as (Hy & Hm & Hd & HH & HM & HS & Hu).
  unfold new_filename_of, spec_stem. rewrite strftime_stamp.
  fold (format_0d 6 (microsecond t)).
  rewrite !format_0d_digits by (simpl; lia).
  now str_normalize.
Qed.


(** ** The hasher (lines 143-154) *)

(** Reading by chunks feeds the hash object every byte, in order. *)
Lemma read_loop_all (fuel : nat) : forall (rest hash_obj : list byte),
  (length rest < fuel)%nat -> read_loop fuel rest hash_obj = hash_obj ++ rest.
Proof.
  induction fuel as [|fuel IH]; intros rest hash_obj Hlt; [lia|].
  cbn [read_loop]. destruct (take 4096 rest) as [|b chunk] eqn:E.
  - destruct rest as [|b rest]; [now rewrite app_nil_r | discriminate].
  - rewrite IH.
    + unfold md5_update. rewrite <- E, <- app_assoc, take_drop. reflexivity.
    + rewrite length_drop. destruct rest; [discriminate|]. simpl length in *. lia.
Qed.

Lemma le_bytes_length (k : nat) (x : Z) : length (le_bytes k x) = k.
Proof. unfold le_bytes. now rewrite length_map, length_seq. Qed.

Lemma md5_digest_length (data : list byte) : length (md5_digest data) = 16%nat.
Proof.
  unfold md5_digest.
  destruct (md5_blocks _ md5_init _) as [[[a b] c] d].
  now rewrite !length_app, !le_bytes_length.
Qed.

Lemma hex_digit_lower_hex (d : Z) : is_lower_hex (hex_digit d) = true.
Proof.
  unfold hex_digit. pose proof (Z.mod_pos_bound d 16 ltac:(lia)) as H.
  assert (Hn : (Z.to_nat (d mod 16) < 16)%nat) by lia.
  destruct (Z.to_nat (d mod 16)) as [|n]; [reflexivity|].
  do 15 (destruct n as [|n]; [reflexivity|]). lia.
Qed.

Lemma hex_of_bytes_length (bs : list Z) :
  String.length (hex_of_bytes bs) = (2 * length bs)%nat.
Proof.
  induction bs as [|b bs IH]; [reflexivity|].
  cbn [hex_of_bytes String.length length]. rewrite IH. lia.
Qed.

Lemma hex_of_bytes_lower_hex (bs : list Z) :
  str_forallb is_lower_hex (hex_of_bytes bs) = true.
Proof.
  induction bs as [|b bs IH]; [reflexivity|].
  cbn [hex_of_bytes str_forallb]. now rewrite !hex_digit_lower_hex, IH.
Qed.

Lemma md5_hexdigest_length (h : list byte) : String.length (md5_hexdigest h) = 32%nat.
Proof. unfold md5_hexdigest. now rewrite hex_of_bytes_length, md5_digest_length. Qed.

(** The result of [generate_hash] in terms of what [open] gives. *)
Lemma generate_hash_cases (fs : node) (file_path : string) (len : nat) :
  generate_hash fs file_path len =
  match open_rb fs file_path with
  | Ret f => (Ret (str_take len (md5_hexdigest (f_bytes f))), [])
  | Raise _ => (Ret "00000000", [ErrorGeneratingHash file_path])
  end.
Proof.
  unfold generate_hash. destruct (open_rb fs file_path) as [f|e]; [|reflexivity].
  cbn [mbind res_bind]. unfold md5_new.
  rewrite read_loop_all by lia. reflexivity.
Qed.

(** C6.  For every path the hasher returns a value and never raises:
    either the path could be opened and read, and the value is the
    first 8 characters of the hexadecimal digest of its bytes, or it
    could not, and the value is the sentinel [00000000]; in both cases
    the value is 8 lower-case hexadecimal characters. *)
Theorem C6_generate_hash_total (fs : node) (file_path : string) :
  exists h : string,
    fst (generate_hash fs file_path 8) = Ret h /\
    String.length h = 8%nat /\
    str_forallb is_lower_hex h = true /\
    ((exists f, open_rb fs file_path = Ret f /\
                h = str_take 8 (md5_hexdigest (f_bytes f))) \/
     ((exists e, open_rb fs file_path = Raise e) /\ h = "00000000")).
Proof.
  rewrite generate_hash_cases. destruct (open_rb fs file_path) as [f|e] eqn:E.
  - exists (str_take 8 (md5_hexdigest (f_bytes f))). split; [reflexivity|].
    split; [now rewrite str_take_length, md5_hexdigest_length|].
    split; [apply str_forallb_take, hex_of_bytes_lower_hex|].
    left. now exists f.
  - exists "00000000". repeat split; try reflexivity. right. split; [now exists e | reflexivity].
Qed.

(** ** The order on capture times *)

Lemma lex_ltb_irrefl (a : list Z) : lex_ltb a a = false.
Proof.
  induction a as [|x a IH]; [reflexivity|].
  cbn [lex_ltb]. rewrite Z.ltb_irrefl, Z.eqb_refl, IH. reflexivity.
Qed.

Lemma lex_ltb_trans (a : list Z) : forall b c,
  lex_ltb a b = true -> lex_ltb b c = true -> lex_ltb a c = true.
Proof.
  induction a as [|x a IH]; intros [|y b] [|z c]; cbn [lex_ltb]; try discriminate; auto.
  rewrite !orb_true_iff, !andb_true_iff, !Z.ltb_lt, !Z.eqb_eq.
  intros [H1|[H1 H1']] [H2|[H2 H2']]; [left; lia | left; lia | left; lia |].
  right. split; [lia | eauto].
Qed.

Lemma lex_ltb_total (a : list Z) : forall b,
  length a = length b -> lex_ltb a b = false -> lex_ltb b a = false -> a = b.
Proof.
  induction a as [|x a IH]; intros [|y b]; cbn [lex_ltb length]; try discriminate; auto.
  rewrite !orb_false_iff, !andb_false_iff, !Z.ltb_ge, !Z.eqb_neq.
  intros Hl [H1 H1'] [H2 H2']. assert (x = y) by lia. subst y.
  f_equal. apply IH; [lia | |]; tauto.
Qed.

Lemma dt_key_inj (a b : datetime) : dt_key a = dt_key b -> a = b.
Proof. destruct a, b. unfold dt_key. cbn. intros [= -> -> -> -> -> -> ->]. reflexivity. Qed.

Lemma dt_ltb_irrefl (a : datetime) : dt_ltb a a = false.
Proof. apply lex_ltb_irrefl. Qed.

Lemma dt_ltb_trans (a b c : datetime) :
  dt_ltb a b = true -> dt_ltb b c = true -> dt_ltb a c = true.
Proof. apply lex_ltb_trans. Qed.

Lemma dt_ltb_total (a b : datetime) :
  dt_ltb a b = false -> dt_ltb b a = false -> a = b.
Proof. intros H1 H2. apply dt_key_inj, lex_ltb_total; [reflexivity | assumption..]. Qed.

Lemma dt_ltb_asym (a b : datetime) : dt_ltb a b = true -> dt_ltb b a = false.
Proof.
  intros H. destruct (dt_ltb b a) eqn:E; [|reflexivity].
  pose proof (dt_ltb_trans _ _ _ H E) as C. rewrite dt_ltb_irrefl in C. discriminate.
Qed.

Lemma time_le_trans (a b c : string * datetime) : time_le a b -> time_le b c -> time_le a c.
Proof.
  unfold time_le. intros H1 H2. destruct (dt_ltb (snd c) (snd a)) eqn:E; [|reflexivity].
  destruct (dt_ltb (snd a) (snd b)) eqn:E'.
  - pose proof (dt_ltb_trans _ _ _ E E'). congruence.
  - pose proof (dt_ltb_total _ _ E' H1) as Eq. rewrite Eq in E. congruence.
Qed.

(** ** The sort (line 260) *)

Lemma insert_by_time_perm (x : string * datetime) (l : list (string * datetime)) :
  Permutation (insert_by_time x l) (x :: l).
Proof.
  induction l as [|y l IH]; [reflexivity|].
  cbn [insert_by_time]. destruct (dt_ltb (snd y) (snd x)); [|reflexivity].
  rewrite IH. apply perm_swap.
Qed.

Lemma sort_by_time_perm (l : list (string * datetime)) : Permutation (sort_by_time l) l.
Proof.
  induction l as [|x l IH]; [reflexivity|].
  cbn [sort_by_time]. rewrite insert_by_time_perm. now constructor.
Qed.

Lemma insert_by_time_sorted (x : string * datetime) (l : list (string * datetime)) :
  StronglySorted time_le l -> StronglySorted time_le (insert_by_time x l).
Proof.
  induction 1 as [|y l Hs IH Hy]; [repeat constructor|].
  cbn [insert_by_time]. destruct (dt_ltb (snd y) (snd x)) eqn:E.
  - constructor; [assumption|].
    rewrite insert_by_time_perm. constructor; [|assumption].
    unfold time_le. now apply dt_ltb_asym.
  - constructor; [now constructor|]. constructor; [exact E|].
    eapply Forall_impl; [exact Hy|]. intros z Hz. eapply time_le_trans; [exact E | exact Hz].
Qed.

Lemma sort_by_time_sorted (l : list (string * datetime)) :
  StronglySorted time_le (sort_by_time l).
Proof.
  induction l as [|x l IH]; [constructor|]. now apply insert_by_time_sorted.
Qed.




(** ** The first pass (lines 248-253) *)

Lemma omap_cons_eq {A B} (f : A -> option B) (x : A) (l : list A) :
  omap f (x :: l) = match f x with
                    | Some y => y :: omap f l
                    | None => omap f l
                    end.
Proof. reflexivity. Qed.

Lemma collect_metadata_omap (fs : node) (paths : list string) :
  fst (collect_metadata fs paths) = omap (resolved_entry fs) paths.
Proof.
  induction paths as [|p paths IH]; [reflexivity|].
  rewrite omap_cons_eq, <- IH. cbn [collect_metadata].
  unfold resolved_entry, resolved_time.
  destruct (get_file_metadata fs p) as [[[d w] h] out].
  destruct (collect_metadata fs paths) as [found out'].
  now destruct d.
Qed.

Lemma collect_metadata_resolved (fs : node) (paths : list string) :
  Forall (fun x => resolved_time fs (fst x) = Some (snd x)) (fst (collect_metadata fs paths)).
Proof.
  rewrite collect_metadata_omap. apply List.Forall_forall. intros [p d] Hin.
  apply list_elem_of_In, list_elem_of_omap in Hin as (q & _ & Hq).
  unfold resolved_entry in Hq. destruct (resolved_time fs q) eqn:E; [|discriminate].
  injection Hq as <- <-. exact E.
Qed.

Lemma select_media_files_sublist (start_year_month : option string)
    (l : list (string * datetime)) (media_files : list string) :
  fst (select_media_files start_year_month l) = Some media_files ->
  exists f : string * datetime -> bool, media_files = map fst (List.filter f l).
Proof.
  unfold select_media_files. destruct (supplied start_year_month) as [s|].
  - destruct (parse_year_month s) as [[y m]|e]; [|discriminate].
    intros [= <-]. eauto.
  - intros [= <-]. exists (fun _ => true).
    f_equal. induction l as [|x l IH]; [reflexivity|]. cbn [List.filter]. now f_equal.
Qed.


(** ** Running [copy_and_rename_file] (lines 157-222) *)

Lemma add_out_nil (s : state) : add_out s [] = s.
Proof. destruct s. unfold add_out. cbn. now rewrite app_nil_r. Qed.

Lemma add_out_app (s : state) (a b : list line) :
  add_out (add_out s a) b = add_out s (a ++ b).
Proof. unfold add_out. cbn. now rewrite app_assoc. Qed.

(** The metadata functions return all three parts or none, and print
    nothing when they succeed. *)
Lemma get_image_metadata_shape (fs : node) (p : string) :
  (exists d w h, get_image_metadata fs p = ((Some d, Some w, Some h), [])) \/
  get_image_metadata fs p = (no_metadata, [ErrorProcessing p]).
Proof.
  unfold get_image_metadata.
  match goal with |- context [match ?c with Ret _ => _ | Raise _ => _ end] =>
    destruct c as [[[d w] h]|e] end; eauto.
Qed.

Lemma get_video_metadata_shape (fs : node) (p : string) :
  (exists d w h, get_video_metadata fs p = ((Some d, Some w, Some h), [])) \/
  (exists out, get_video_metadata fs p = (no_metadata, out)).
Proof.
  unfold get_video_metadata. destruct (ffprobe fs p) as [| |streams tags]; eauto.
  destruct (report_metadata fs p streams tags) as [[[d w] h]|e]; eauto.
Qed.

Lemma get_file_metadata_shape (fs : node) (p : string) :
  (exists d w h, get_file_metadata fs p = ((Some d, Some w, Some h), [])) \/
  (exists out, get_file_metadata fs p = (no_metadata, out)).
Proof.
  unfold get_file_metadata. destruct (str_in _ _).
  - apply get_video_metadata_shape.
  - destruct (get_image_metadata_shape fs p) as [H|H]; eauto.
Qed.

(** The loop that looks for a free name stops at once on a free name. *)
Lemma free_name_loop_free (fuel : nat) (fs : node) (original ext new_path : string) (c : Z) :
  os_path_exists fs new_path = false ->
  free_name_loop (S fuel) fs original ext new_path c = Some (new_path, c).
Proof. intros H. cbn [free_name_loop]. now rewrite H. Qed.

Lemma generate_hash_ret (fs : node) (p : string) :
  exists hx, fst (generate_hash fs p 8) = Ret hx.
Proof.
  rewrite generate_hash_cases. destruct (open_rb fs p); eauto.
Qed.

Lemma copy_run_no_metadata (s : state) (fp out : string) (dry ip : bool) (out1 : list line) :
  get_file_metadata (st_fs s) fp = (no_metadata, out1) ->
  copy_and_rename_file fp out dry ip s =
  (Ret false, add_out s (out1 ++ [CouldNotExtract (os_path_basename fp)])).
Proof.
  intros Hm. unfold copy_and_rename_file, mbind, M_bind, observe.
  rewrite Hm. unfold no_metadata, print, mret, M_ret, add_out. cbn.
  now rewrite <- app_assoc.
Qed.

Lemma copy_run_skip (s : state) (fp out : string) (dry ip : bool)
    (d : datetime) (w h : Z) (out1 out2 : list line) (hx : string) :
  get_file_metadata (st_fs s) fp = ((Some d, Some w, Some h), out1) ->
  generate_hash (st_fs s) fp 8 = (Ret hx, out2) ->
  os_path_exists (st_fs s) (new_path_of out d w h hx (file_ext_of fp)) = true ->
  copy_and_rename_file fp out dry ip s =
  (Ret true,
   add_out s (out1 ++ out2 ++
     [(if dry then WouldSkip else Skipped) (os_path_basename fp)
        (new_path_of out d w h hx (file_ext_of fp))])).
Proof.
  intros Hm Hh He. unfold copy_and_rename_file, mbind, M_bind, observe, observe_res, get_fs.
  rewrite Hm. cbn [st_fs st_out]. rewrite Hh. cbn [st_fs st_out].
  fold (file_ext_of fp). rewrite He.
  unfold add_out. destruct dry; unfold print, mret, M_ret; cbn [st_fs st_out];
    now rewrite <- !app_assoc.
Qed.

Lemma copy_run_would (s : state) (fp out : string) (ip : bool)
    (d : datetime) (w h : Z) (out1 out2 : list line) (hx : string) :
  get_file_metadata (st_fs s) fp = ((Some d, Some w, Some h), out1) ->
  generate_hash (st_fs s) fp 8 = (Ret hx, out2) ->
  os_path_exists (st_fs s) (new_path_of out d w h hx (file_ext_of fp)) = false ->
  copy_and_rename_file fp out true ip s =
  (Ret true,
   add_out s (out1 ++ out2 ++
     [Would (operation_of ip) (os_path_basename fp)
        (new_path_of out d w h hx (file_ext_of fp))])).
Proof.
  intros Hm Hh He. unfold copy_and_rename_file, mbind, M_bind, observe, observe_res, get_fs.
  rewrite Hm. cbn [st_fs st_out]. rewrite Hh. cbn [st_fs st_out].
  fold (file_ext_of fp). rewrite He.
  rewrite free_name_loop_free by assumption.
  unfold add_out, print, mret, M_ret; cbn [st_fs st_out]. now rewrite <- !app_assoc.
Qed.

Lemma copy_run_live (s : state) (fp out : string) (ip : bool)
    (d : datetime) (w h : Z) (out1 out2 : list line) (hx : string) :
  get_file_metadata (st_fs s) fp = ((Some d, Some w, Some h), out1) ->
  generate_hash (st_fs s) fp 8 = (Ret hx, out2) ->
  os_path_exists (st_fs s) (new_path_of out d w h hx (file_ext_of fp)) = false ->
  copy_and_rename_file fp out false ip s =
  relocate_file fp (new_path_of out d w h hx (file_ext_of fp))
    (structured_dir_of out d) (os_path_basename fp) ip (add_out s (out1 ++ out2)).
Proof.
  intros Hm Hh He. unfold copy_and_rename_file, mbind, M_bind, observe, observe_res, get_fs.
  rewrite Hm. cbn [st_fs st_out]. rewrite Hh. cbn [st_fs st_out].
  fold (file_ext_of fp). rewrite He.
  rewrite free_name_loop_free by assumption.
  unfold add_out. now rewrite <- !app_assoc.
Qed.

(** ** The file system operations *)

Lemma assoc_app {A} (k : string) (es es' : list (string * A)) :
  assoc k (es ++ es') = match assoc k es with
                        | Some v => Some v
                        | None => assoc k es'
                        end.
Proof.
  induction es as [|[k' v] es IH]; [reflexivity|].
  cbn [app assoc]. now destruct (String.eqb k k').
Qed.

Lemma assoc_set_same {A} (k : string) (v : A) (es : list (string * A)) :
  assoc k (assoc_set k v es) = Some v.
Proof.
  induction es as [|[k' v'] es IH]; cbn [assoc_set assoc].
  - now rewrite String.eqb_refl.
  - destruct (String.eqb k k') eqn:E; cbn [assoc]; [now rewrite String.eqb_refl|].
    now rewrite E.
Qed.

Lemma assoc_set_other {A} (k c : string) (v : A) (es : list (string * A)) :
  k <> c -> assoc k (assoc_set c v es) = assoc k es.
Proof.
  intros Hne. induction es as [|[k' v'] es IH]; cbn [assoc_set assoc].
  - apply String.eqb_neq in Hne. now rewrite Hne.
  - destruct (String.eqb c k') eqn:E; cbn [assoc].
    + apply String.eqb_eq in E. subst k'. apply String.eqb_neq in Hne. now rewrite Hne.
    + now rewrite IH.
Qed.

Lemma lookup_path_cons (n : node) (c : string) (cs : list string) :
  lookup_path n (c :: cs) =
  match n with
  | Dir _ es => match assoc c es with
                | Some ch => lookup_path ch cs
                | None => None
                end
  | File _ => None
  end.
Proof. reflexivity. Qed.

Lemma preserves_refl (n : node) : preserves n n.
Proof. intros q. split; eauto. Qed.

Lemma preserves_trans (a b c : node) : preserves a b -> preserves b c -> preserves a c.
Proof.
  intros H1 H2 q. destruct (H1 q) as [F1 D1], (H2 q) as [F2 D2]. split; [auto|].
  intros w es H. destruct (D1 w es H) as [es' H']. eauto.
Qed.

(** Replacing a child by one that preserves it preserves the parent. *)
Lemma preserves_child (w : bool) (es : list (string * node)) (c : string) (ch ch' : node) :
  assoc c es = Some ch -> preserves ch ch' ->
  preserves (Dir w es) (Dir w (assoc_set c ch' es)).
Proof.
  intros Hc Hp [|k q].
  - split; [discriminate|]. intros w' es' [= -> ->]. eauto.
  - rewrite !lookup_path_cons. destruct (string_dec k c) as [->|Hne].
    + rewrite assoc_set_same, Hc. apply Hp.
    + rewrite assoc_set_other by assumption. split; eauto.
Qed.

(** Adding an entry under a free name preserves the directory. *)
Lemma preserves_new_entry (w : bool) (es : list (string * node)) (c : string) (x : node) :
  preserves (Dir w es) (Dir w (es ++ [(c, x)])).
Proof.
  intros [|k q].
  - split; [discriminate|]. intros w' es' [= -> ->]. eauto.
  - rewrite !lookup_path_cons, assoc_app.
    destruct (assoc k es) as [ch|]; split; eauto; discriminate.
Qed.

Lemma create_at_preserves (cs : list string) : forall (n n' x : node),
  create_at n cs x = Some n' -> preserves n n'.
Proof.
  unfold create_at. induction cs as [|c cs IH]; intros n n' x H; [discriminate|].
  cbn [with_parent] in H. destruct n as [f|w es]; [discriminate|].
  destruct cs as [|c' cs].
  - destruct (assoc c es); [discriminate|]. destruct w; [|discriminate].
    cbn in H. injection H as <-. apply preserves_new_entry.
  - destruct (assoc c es) as [ch|] eqn:Hc; [|discriminate]. cbn [mbind option_bind] in H.
    destruct (with_parent ch (c' :: cs) _) as [ch'|] eqn:Hw; [|discriminate].
    injection H as <-. eapply preserves_child; eauto.
Qed.

Lemma create_at_lookup (cs : list string) : forall (n n' x : node),
  create_at n cs x = Some n' -> lookup_path n' cs = Some x.
Proof.
  unfold create_at. induction cs as [|c cs IH]; intros n n' x H; [discriminate|].
  cbn [with_parent] in H. destruct n as [f|w es]; [discriminate|].
  destruct cs as [|c' cs].
  - destruct (assoc c es) eqn:Hc; [discriminate|]. destruct w; [|discriminate].
    cbn in H. injection H as <-.
    rewrite lookup_path_cons, assoc_app, Hc. cbn [assoc]. now rewrite String.eqb_refl.
  - destruct (assoc c es) as [ch|] eqn:Hc; [|discriminate]. cbn [mbind option_bind] in H.
    destruct (with_parent ch (c' :: cs) _) as [ch'|] eqn:Hw; [|discriminate].
    injection H as <-. rewrite lookup_path_cons, assoc_set_same. eapply IH, Hw.
Qed.

(** What [makedirs_at] does to a directory that is new and empty. *)
Lemma makedirs_fresh_files (cs : list string) : forall (n' : node) (q : list string) (f : file),
  makedirs_at (Dir true []) cs true = Some n' -> lookup_path n' q <> Some (File f).
Proof.
  induction cs as [|c cs IH]; intros n' q f H.
  - injection H as <-. destruct q; [discriminate|]. rewrite lookup_path_cons. discriminate.
  - cbn [makedirs_at assoc] in H. cbn [mbind option_bind] in H.
    destruct (makedirs_at (Dir true []) cs true) as [ch'|] eqn:Hm; [|discriminate].
    injection H as <-. destruct q as [|k q]; [discriminate|].
    rewrite lookup_path_cons. cbn [app assoc].
    destruct (String.eqb k c); [|discriminate]. now apply IH.
Qed.

Lemma makedirs_at_preserves (cs : list string) : forall (n n' : node) (ok : bool),
  makedirs_at n cs ok = Some n' -> preserves n n'.
Proof.
  induction cs as [|c cs IH]; intros n n' ok H.
  - cbn [makedirs_at] in H. destruct n; [discriminate|]. destruct ok; [|discriminate].
    injection H as <-. apply preserves_refl.
  - cbn [makedirs_at] in H. destruct n as [f|w es]; [discriminate|].
    destruct (assoc c es) as [ch|] eqn:Hc.
    + cbn [mbind option_bind] in H.
      destruct (makedirs_at ch cs ok) as [ch'|] eqn:Hm; [|discriminate].
      injection H as <-. eapply preserves_child; eauto.
    + destruct w; [|discriminate]. cbn [mbind option_bind] in H.
      destruct (makedirs_at (Dir true []) cs true) as [ch'|]; [|discriminate].
      injection H as <-. apply preserves_new_entry.
Qed.

(** [makedirs_at] creates directories only: a regular file found
    afterwards was there before. *)
Lemma makedirs_at_reflects_files (cs : list string) :
  forall (n n' : node) (ok : bool) (q : list string) (f : file),
  makedirs_at n cs ok = Some n' ->
  lookup_path n' q = Some (File f) -> lookup_path n q = Some (File f).
Proof.
  induction cs as [|c cs IH]; intros n n' ok q f H Hq.
  - cbn [makedirs_at] in H. destruct n; [discriminate|]. destruct ok; [|discriminate].
    now injection H as <-.
  - cbn [makedirs_at] in H. destruct n as [f0|w es]; [discriminate|].
    destruct (assoc c es) as [ch|] eqn:Hc.
    + cbn [mbind option_bind] in H.
      destruct (makedirs_at ch cs ok) as [ch'|] eqn:Hm; [|discriminate].
      injection H as <-. destruct q as [|k q]; [discriminate|].
      rewrite lookup_path_cons in Hq |- *. destruct (string_dec k c) as [->|Hne].
      * rewrite assoc_set_same in Hq. rewrite Hc. eapply IH; eauto.
      * now rewrite assoc_set_other in Hq by assumption.
    + destruct w; [|discriminate]. cbn [mbind option_bind] in H.
      destruct (makedirs_at (Dir true []) cs true) as [ch'|] eqn:Hm; [|discriminate].
      injection H as <-. destruct q as [|k q]; [discriminate|].
      rewrite lookup_path_cons in Hq |- *. rewrite assoc_app in Hq.
      destruct (assoc k es) as [v|]; [exact Hq|]. cbn [assoc] in Hq.
      destruct (String.eqb k c); [|discriminate].
      exfalso. eapply makedirs_fresh_files; eauto.
Qed.


(** *** Paths *)



Lemma file_preserved (fs fs' : node) (p : string) (f : file) :
  preserves fs fs' -> resolve fs p = Some (File f) -> resolve fs' p = Some (File f).
Proof.
  unfold resolve. intros Hp. destruct (String.eqb p ""); [easy|]. apply Hp.
Qed.

(** ** Path components of a joined path *)

Lemma split_nonempty (c : ascii) (s : string) : split c s <> [].
Proof.
  destruct s as [|x s]; cbn [split]; [discriminate|].
  destruct (Ascii.eqb x c); [discriminate|]. destruct (split c s); discriminate.
Qed.

Lemma split_app_sep (c : ascii) (a b : string) :
  split c (a +:+ String c b) = split c a ++ split c b.
Proof.
  induction a as [|x a IH].
  - rewrite str_app_nil. cbn [split]. now rewrite Ascii.eqb_refl.
  - rewrite str_app_cons. cbn [split]. rewrite IH.
    destruct (Ascii.eqb x c); [reflexivity|].
    pose proof (split_nonempty c a). destruct (split c a); [contradiction | reflexivity].
Qed.

Lemma components_app_sep (a b : string) :
  components (a +:+ String "/" b) = components a ++ components b.
Proof. unfold components. now rewrite split_app_sep, List.filter_app. Qed.

Lemma components_trailing_sep (a : string) : components (a +:+ "/") = components a.
Proof. rewrite components_app_sep. cbn. now rewrite app_nil_r. Qed.

Lemma endswith_sep_inv (s : string) :
  endswith s "/" = true -> exists a, s = a +:+ "/".
Proof.
  destruct s as [|c s]; [discriminate|].
  destruct (str_snoc_exists c s) as (a & d & ->). rewrite endswith_snoc.
  intros ->%Ascii.eqb_eq. now exists a.
Qed.

Lemma components_as_directory (sd b : string) :
  components (as_directory sd +:+ b) = components sd ++ components b.
Proof.
  unfold as_directory. destruct (String.eqb sd "") eqn:E.
  - apply String.eqb_eq in E. now subst sd.
  - destruct (endswith sd "/") eqn:E'.
    + apply endswith_sep_inv in E' as [a ->].
      now rewrite str_app_assoc, str_app_cons, str_app_nil, components_app_sep,
        components_trailing_sep.
    + now rewrite str_app_assoc, str_app_cons, str_app_nil, components_app_sep.
Qed.

Lemma components_join2 (sd b : string) :
  startswith b "/" = false -> components (join2 sd b) = components sd ++ components b.
Proof. intros H. rewrite join2_relative by assumption. apply components_as_directory. Qed.

(** *** The shape of the new file name *)

Lemma format_0d_first (k : nat) (n : Z) :
  exists c r, format_0d k n = String c r /\ (is_digit c = true \/ c = "-"%char).
Proof.
  unfold format_0d, str_int. destruct (n <? 0) eqn:E.
  - unfold zfill. eexists _, _. split; [reflexivity | now right].
  - apply Z.ltb_ge in E. unfold str_nonneg.
    destruct (str_aux_digits (Z.to_nat (Z.log2 n)) n "" (conj E (log2_fuel n E)))
      as (m & Hm & _ & _ & ->).
    rewrite str_app_empty_r. destruct m as [|m]; [lia|].
    unfold zfill. pose proof (digits_S m n) as ES.
    remember (digits (S m) n) as s eqn:Es. rewrite ES.
    rewrite (is_digit_not _ "-" (digit_char_is_digit _)) by reflexivity.
    rewrite (is_digit_not _ "+" (digit_char_is_digit _)) by reflexivity.
    cbn [orb]. destruct (_ - _)%nat as [|j]; cbn [str_repeat].
    + rewrite str_app_nil. eexists _, _. split; [reflexivity|]. left.
      apply digit_char_is_digit.
    + rewrite str_app_cons. eexists _, _. split; [reflexivity|]. now left.
Qed.

Lemma new_filename_first (d : datetime) (w h : Z) (hx e : string) :
  exists c r, new_filename_of d w h hx e = String c r /\ (is_digit c = true \/ c = "-"%char).
Proof.
  unfold new_filename_of. rewrite strftime_stamp.
  destruct (format_0d_first 4 (year d)) as (c & r & -> & Hc).
  rewrite !str_app_assoc, str_app_cons. eauto.
Qed.

(** The new file name is a single relative component. *)
Lemma new_filename_shape (d : datetime) (w h : Z) (hx e : string) :
  startswith (new_filename_of d w h hx e) "/" = false /\
  components (new_filename_of d w h hx e) <> [].
Proof.
  destruct (new_filename_first d w h hx e) as (c & r & -> & Hc).
  assert (Hslash : Ascii.eqb c "/" = false) by (destruct Hc as [Hc| ->]; [now apply is_digit_not | reflexivity]).
  assert (Hdot : c <> "."%char) by (destruct Hc as [Hc| ->]; [intros ->; discriminate | discriminate]).
  split.
  - now rewrite startswith_cons, Ascii.eqb_sym.
  - unfold components. cbn [split]. rewrite Hslash.
    pose proof (split_nonempty "/" r). destruct (split "/" r) as [|f fs]; [contradiction|].
    cbn [List.filter]. destruct f; cbn.
    + destruct (Ascii.eqb c "."%char) eqn:E; [apply Ascii.eqb_eq in E; contradiction|].
      cbn. discriminate.
    + destruct (Ascii.eqb c "."%char); cbn; discriminate.
Qed.

(** ** Creating directories and relocating (lines 208-222) *)

Lemma lookup_fresh_dir (q : list string) :
  q <> [] -> lookup_path (Dir true []) q = None.
Proof. destruct q; [contradiction | reflexivity]. Qed.

(** [makedirs_at] creates nothing below the directory it is asked for. *)
Lemma makedirs_at_beyond (cs : list string) :
  forall (n n' : node) (ok : bool) (x : string) (r : list string),
  makedirs_at n cs ok = Some n' ->
  lookup_path n (cs ++ x :: r) = None -> lookup_path n' (cs ++ x :: r) = None.
Proof.
  induction cs as [|c cs IH]; intros n n' ok x r H Hq.
  - cbn [makedirs_at] in H. destruct n; [discriminate|]. destruct ok; [|discriminate].
    now injection H as <-.
  - cbn [makedirs_at] in H. destruct n as [f0|w es]; [discriminate|].
    change ((c :: cs) ++ x :: r) with (c :: (cs ++ x :: r)) in *.
    rewrite lookup_path_cons in Hq |- *.
    destruct (assoc c es) as [ch|] eqn:Hc.
    + cbn [mbind option_bind] in H.
      destruct (makedirs_at ch cs ok) as [ch'|] eqn:Hm; [|discriminate].
      injection H as <-. rewrite assoc_set_same. eapply IH; eauto.
    + destruct w; [|discriminate]. cbn [mbind option_bind] in H.
      destruct (makedirs_at (Dir true []) cs true) as [ch'|] eqn:Hm; [|discriminate].
      injection H as <-. rewrite assoc_app, Hc. cbn [assoc]. rewrite String.eqb_refl.
      eapply IH; [exact Hm|]. apply lookup_fresh_dir. now destruct cs.
Qed.

Lemma overwrite_at_lookup (cs : list string) : forall (n n' x : node),
  overwrite_at n cs x = Some n' -> lookup_path n' cs = Some x.
Proof.
  unfold overwrite_at. induction cs as [|c cs IH]; intros n n' x H; [discriminate|].
  cbn [with_parent] in H. destruct n as [f|w es]; [discriminate|].
  destruct cs as [|c' cs].
  - destruct (assoc c es) as [[g|? ?]|] eqn:Hc; try discriminate.
    cbn in H. injection H as <-. now rewrite lookup_path_cons, assoc_set_same.
  - destruct (assoc c es) as [ch|] eqn:Hc; [|discriminate]. cbn [mbind option_bind] in H.
    destruct (with_parent ch (c' :: cs) _) as [ch'|] eqn:Hw; [|discriminate].
    injection H as <-. rewrite lookup_path_cons, assoc_set_same. eapply IH, Hw.
Qed.

Lemma assoc_del_other {A} (k c : string) (es : list (string * A)) :
  k <> c -> assoc k (assoc_del c es) = assoc k es.
Proof.
  intros Hne. induction es as [|[k' v'] es IH]; [reflexivity|].
  cbn [assoc_del assoc]. destruct (String.eqb c k') eqn:E; cbn [assoc].
  - apply String.eqb_eq in E. subst k'. apply String.eqb_neq in Hne. now rewrite Hne.
  - now rewrite IH.
Qed.

(** Removing a regular file leaves every other regular file in place. *)
Lemma remove_at_other (cs : list string) : forall (n n' : node) (g f : file) (q : list string),
  remove_at n cs = Some n' -> lookup_path n cs = Some (File g) ->
  lookup_path n q = Some (File f) -> q <> cs -> lookup_path n' q = Some (File f).
Proof.
  unfold remove_at. induction cs as [|c cs IH]; intros n n' g f q H Hcs Hq Hne; [discriminate|].
  cbn [with_parent] in H. destruct n as [f0|w es]; [discriminate|].
  destruct q as [|k q]; [discriminate|].
  rewrite lookup_path_cons in Hcs, Hq. destruct cs as [|c' cs].
  - destruct (assoc c es) as [ch|] eqn:Hc; [|discriminate]. destruct w; [|discriminate].
    cbn in H. injection H as <-. rewrite lookup_path_cons.
    destruct (string_dec k c) as [->|Hkc].
    + rewrite Hc in Hq. cbn in Hcs. injection Hcs as ->.
      destruct q; [congruence | discriminate].
    + now rewrite assoc_del_other.
  - destruct (assoc c es) as [ch|] eqn:Hc; [|discriminate]. cbn [mbind option_bind] in H.
    destruct (with_parent ch (c' :: cs) _) as [ch'|] eqn:Hw; [|discriminate].
    injection H as <-. rewrite lookup_path_cons.
    destruct (string_dec k c) as [->|Hkc].
    + rewrite assoc_set_same. rewrite Hc in Hq. eapply IH; eauto. congruence.
    + now rewrite assoc_set_other.
Qed.

Lemma resolve_lookup (fs : node) (p : string) (x : node) :
  resolve fs p = Some x -> p <> "" /\ lookup_path fs (components p) = Some x.
Proof.
  unfold resolve. destruct (String.eqb p "") eqn:E; [discriminate|].
  apply String.eqb_neq in E. auto.
Qed.

Lemma resolve_nonempty (fs : node) (p : string) :
  p <> "" -> resolve fs p = lookup_path fs (components p).
Proof. unfold resolve. intros H. apply String.eqb_neq in H. now rewrite H. Qed.

Lemma exists_false_lookup (fs : node) (p : string) :
  p <> "" -> os_path_exists fs p = false -> lookup_path fs (components p) = None.
Proof.
  unfold os_path_exists. intros H. rewrite resolve_nonempty by assumption.
  now destruct (lookup_path fs (components p)).
Qed.

Lemma components_nonempty_str (s : string) : components s <> [] -> s <> "".
Proof. intros H ->. now apply H. Qed.

Lemma join2_nonempty (sd b : string) : b <> "" -> join2 sd b <> "".
Proof.
  unfold join2. intros Hb.
  destruct (_ || _); [assumption|].
  destruct (endswith sd "/"); destruct sd; try discriminate; cbn; assumption.
Qed.

(** After the directories of [sd] have been made, a path right below
    [sd] that did not exist still does not exist. *)
Lemma makedirs_keeps_free (fs fs1 : node) (sd fname : string) (ok : bool) :
  startswith fname "/" = false -> components fname <> [] ->
  makedirs_at fs (components sd) ok = Some fs1 ->
  os_path_exists fs (os_path_join sd [fname]) = false ->
  os_path_join sd [fname] <> "" /\
  lookup_path fs1 (components (os_path_join sd [fname])) = None.
Proof.
  intros Hs Hc Hm He. unfold os_path_join in *. cbn [fold_left] in *.
  assert (Hne : join2 sd fname <> "") by (apply join2_nonempty; now apply components_nonempty_str).
  split; [assumption|].
  apply exists_false_lookup in He; [|assumption].
  rewrite components_join2 in He |- * by assumption.
  destruct (components fname) as [|x r]; [contradiction|].
  eapply makedirs_at_beyond; eauto.
Qed.

Lemma fs_op_run (g : node -> option node) (s : state) :
  fs_op g s = match g (st_fs s) with
              | Some fs' => (Ret tt, mk_state fs' (st_out s))
              | None => (Raise OSError, s)
              end.
Proof. reflexivity. Qed.

(** What a successful [shutil.copy2] to a free path does. *)
Lemma copy2_to_free (fs fs2 : node) (src dst : string) :
  dst <> "" -> lookup_path fs (components dst) = None ->
  (match resolve fs src with
   | Some (File f) =>
       if f_readable f then
         let dst' := if os_path_isdir fs dst
                     then os_path_join dst [os_path_basename src] else dst in
         if String.eqb dst' "" then None
         else if bool_decide (components src = components dst') then None
         else match resolve fs dst' with
              | Some _ => overwrite_at fs (components dst') (File f)
              | None => create_at fs (components dst') (File f)
              end
       else None
   | _ => None
   end) = Some fs2 ->
  exists f, resolve fs src = Some (File f) /\ preserves fs fs2 /\
            lookup_path fs2 (components dst) = Some (File f) /\
            components src <> components dst.
Proof.
  intros Hne Hfree H.
  destruct (resolve fs src) as [[f|? ?]|] eqn:Hsrc; try discriminate.
  destruct (f_readable f); [|discriminate].
  assert (Hd : os_path_isdir fs dst = false).
  { unfold os_path_isdir. rewrite resolve_nonempty, Hfree by assumption. reflexivity. }
  rewrite Hd in H. cbn zeta in H.
  destruct (String.eqb dst ""); [discriminate|].
  destruct (bool_decide _) eqn:Hb; [discriminate|].
  apply bool_decide_eq_false in Hb.
  rewrite resolve_nonempty, Hfree in H by assumption.
  exists f. split; [reflexivity|].
  split; [eapply create_at_preserves; exact H|].
  split; [eapply create_at_lookup; exact H | assumption].
Qed.

(** The outcomes of the relocation in copy mode. *)
Lemma relocate_file_copy_cases (s : state) (fp sd fname fn : string) :
  startswith fname "/" = false -> components fname <> [] ->
  os_path_exists (st_fs s) (os_path_join sd [fname]) = false ->
  exists r s', relocate_file fp (os_path_join sd [fname]) sd fn false s = (r, s') /\
    ((r = Raise OSError /\ s' = s) \/
     (r = Ret true /\
      st_out s' = st_out s ++ [Done OpCopy fn (os_path_join sd [fname])] /\
      preserves (st_fs s) (st_fs s') /\
      exists f, resolve (st_fs s) fp = Some (File f) /\
                resolve (st_fs s') (os_path_join sd [fname]) = Some (File f)) \/
     (r = Ret false /\
      st_out s' = st_out s ++ [ErrorOperation OpCopy fn] /\
      preserves (st_fs s) (st_fs s'))).
Proof.
  intros Hs Hc He. set (P := os_path_join sd [fname]) in *.
  unfold relocate_file, mbind, M_bind, os_makedirs. rewrite fs_op_run.
  destruct (String.eqb sd "") eqn:Esd; [eauto 6|].
  destruct (makedirs_at (st_fs s) (components sd) true) as [fs1|] eqn:Hm; [|eauto 6].
  pose proof (makedirs_at_preserves _ _ _ _ Hm) as Hp1.
  destruct (makedirs_keeps_free _ _ _ _ _ Hs Hc Hm He) as [HP Hfree]. fold P in HP, Hfree.
  unfold catch, shutil_copy2. rewrite fs_op_run. cbn [st_fs st_out].
  match goal with |- context [match ?g with Some _ => _ | None => _ end] =>
    destruct g as [fs2|] eqn:Hg end.
  - destruct (copy2_to_free _ _ _ _ HP Hfree Hg) as (f & Hsrc & Hp2 & Hl & _).
    eexists _, _. split; [reflexivity|]. right. left. cbn [st_fs st_out].
    split; [reflexivity|]. split; [reflexivity|].
    split; [eapply preserves_trans; eauto|].
    exists f. split.
    + apply resolve_lookup in Hsrc as [Hne Hsrc].
      rewrite resolve_nonempty by assumption.
      eapply makedirs_at_reflects_files; eauto.
    + now rewrite resolve_nonempty.
  - eexists _, _. split; [reflexivity|]. right. right. cbn [st_fs st_out]. auto.
Qed.

Lemma fs_op_raise (g : node -> option node) (s s' : state) (e : exn) :
  fs_op g s = (Raise e, s') -> s' = s.
Proof. rewrite fs_op_run. destruct (g (st_fs s)); [discriminate | now intros [= _ <-]]. Qed.

Lemma fs_op_ret (g : node -> option node) (s s' : state) :
  fs_op g s = (Ret tt, s') -> g (st_fs s) = Some (st_fs s') /\ st_out s' = st_out s.
Proof.
  rewrite fs_op_run. destruct (g (st_fs s)); [|discriminate]. now intros [= <-].
Qed.

Lemma shutil_copy2_to_free (s s' : state) (src dst : string) :
  dst <> "" -> lookup_path (st_fs s) (components dst) = None ->
  shutil_copy2 src dst s = (Ret tt, s') ->
  st_out s' = st_out s /\
  exists f, resolve (st_fs s) src = Some (File f) /\ preserves (st_fs s) (st_fs s') /\
            lookup_path (st_fs s') (components dst) = Some (File f) /\
            components src <> components dst.
Proof.
  intros Hne Hfree H. unfold shutil_copy2 in H.
  apply fs_op_ret in H as [Hg Ho]. split; [assumption|].
  eapply copy2_to_free; eauto.
Qed.

(** What a successful [os.rename] to a free path does. *)
Lemma os_rename_to_free (s s' : state) (src dst : string) :
  dst <> "" -> lookup_path (st_fs s) (components dst) = None ->
  os_rename src dst s = (Ret tt, s') ->
  st_out s' = st_out s /\
  exists f, resolve (st_fs s) src = Some (File f) /\
            lookup_path (st_fs s') (components dst) = Some (File f).
Proof.
  intros Hne Hfree H. unfold os_rename in H.
  apply fs_op_ret in H as [Hg Ho]. split; [assumption|].
  destruct (resolve (st_fs s) src) as [[f|? ?]|] eqn:Hsrc; try discriminate.
  exists f. split; [reflexivity|].
  destruct (String.eqb dst ""); [discriminate|].
  destruct (bool_decide _) eqn:Hb.
  - apply bool_decide_eq_true in Hb. apply resolve_lookup in Hsrc as [_ Hsrc].
    rewrite Hb in Hsrc. congruence.
  - cbn [mbind option_bind] in Hg.
    destruct (remove_at (st_fs s) (components src)) as [fs1|]; [|discriminate]. cbn in Hg.
    destruct (resolve fs1 dst).
    + eapply overwrite_at_lookup, Hg.
    + eapply create_at_lookup, Hg.
Qed.

Lemma os_unlink_keeps (s s' : state) (p : string) (q : list string) (f : file) :
  os_unlink p s = (Ret tt, s') ->
  lookup_path (st_fs s) q = Some (File f) -> q <> components p ->
  lookup_path (st_fs s') q = Some (File f) /\ st_out s' = st_out s.
Proof.
  intros H Hq Hne. unfold os_unlink in H.
  apply fs_op_ret in H as [Hg Ho]. split; [|assumption].
  destruct (resolve (st_fs s) p) as [[g|? ?]|] eqn:Hp; try discriminate.
  apply resolve_lookup in Hp as [_ Hp]. eapply remove_at_other; eauto.
Qed.

(** A successful [shutil.move] to a free path puts the file there. *)
Lemma shutil_move_to_free (s s' : state) (src dst : string) :
  dst <> "" -> lookup_path (st_fs s) (components dst) = None ->
  shutil_move src dst s = (Ret tt, s') ->
  st_out s' = st_out s /\
  exists f, resolve (st_fs s) src = Some (File f) /\
            lookup_path (st_fs s') (components dst) = Some (File f).
Proof.
  intros Hne Hfree. unfold shutil_move, mbind, M_bind, get_fs.
  assert (Hd : os_path_isdir (st_fs s) dst = false).
  { unfold os_path_isdir. rewrite resolve_nonempty, Hfree by assumption. reflexivity. }
  rewrite Hd. unfold mret, M_ret, catch.
  destruct (os_rename src dst s) as [[[]|e] s1] eqn:Hr.
  - intros [= <-]. eapply os_rename_to_free; eauto.
  - unfold os_rename in Hr. apply fs_op_raise in Hr. subst s1.
    destruct (shutil_copy2 src dst s) as [[[]|e2] s2] eqn:Hc; [|discriminate].
    intros Hu.
    destruct (shutil_copy2_to_free _ _ _ _ Hne Hfree Hc) as (Ho & f & Hsrc & Hp & Hl & Hdiff).
    destruct (os_unlink_keeps _ _ _ _ _ Hu Hl) as [Hl' Ho']; [congruence|].
    split; [congruence|]. eauto.
Qed.

(** In live mode a relocation that succeeds puts the source file at the
    given path and reports it. *)
Lemma relocate_file_lands (s s' : state) (fp sd fname fn : string) (ip : bool) :
  startswith fname "/" = false -> components fname <> [] ->
  os_path_exists (st_fs s) (os_path_join sd [fname]) = false ->
  relocate_file fp (os_path_join sd [fname]) sd fn ip s = (Ret true, s') ->
  st_out s' = st_out s ++ [Done (operation_of ip) fn (os_path_join sd [fname])] /\
  exists f, resolve (st_fs s) fp = Some (File f) /\
            resolve (st_fs s') (os_path_join sd [fname]) = Some (File f).
Proof.
  intros Hs Hc He. destruct ip.
  - set (P := os_path_join sd [fname]) in *.
    unfold relocate_file, mbind, M_bind, os_makedirs. rewrite fs_op_run.
    destruct (String.eqb sd "") eqn:Esd; [discriminate|].
    destruct (makedirs_at (st_fs s) (components sd) true) as [fs1|] eqn:Hm; [|discriminate].
    destruct (makedirs_keeps_free _ _ _ _ _ Hs Hc Hm He) as [HP Hfree]. fold P in HP, Hfree.
    unfold catch.
    destruct (shutil_move fp P (mk_state fs1 (st_out s))) as [[[]|e] s1] eqn:Hmv.
    + unfold print, mret, M_ret. intros [= <-]. cbn [st_fs st_out].
      destruct (shutil_move_to_free (mk_state fs1 (st_out s)) _ _ _ HP Hfree Hmv)
        as (Ho & f & Hsrc & Hl).
      cbn [st_fs st_out] in *. split; [now rewrite Ho|].
      exists f. split.
      * apply resolve_lookup in Hsrc as [Hne Hsrc]. rewrite resolve_nonempty by assumption.
        eapply makedirs_at_reflects_files; eauto.
      * now rewrite resolve_nonempty.
    + unfold print, mret, M_ret. discriminate.
  - destruct (relocate_file_copy_cases s fp sd fname fn Hs Hc He)
      as (r & s1 & Hrun & [[-> _]|[(-> & Ho & _ & Hf)|(-> & _)]]);
      rewrite Hrun; intros [= <-]; auto.
Qed.

(** ** The claims about [copy_and_rename_file] *)

Lemma metadata_fst_full (fs : node) (p : string) (d : datetime) (w h : Z) :
  fst (get_file_metadata fs p) = (Some d, Some w, Some h) ->
  get_file_metadata fs p = ((Some d, Some w, Some h), []).
Proof.
  destruct (get_file_metadata_shape fs p) as [(d' & w' & h' & ->)|[out ->]].
  - now intros [= -> -> ->].
  - discriminate.
Qed.

Lemma hash_fst_pair (fs : node) (p : string) (hx : string) :
  fst (generate_hash fs p 8) = Ret hx ->
  generate_hash fs p 8 = (Ret hx, snd (generate_hash fs p 8)).
Proof. destruct (generate_hash fs p 8). cbn. now intros ->. Qed.

Lemma new_path_of_join (out : string) (d : datetime) (w h : Z) (hx e : string) :
  new_path_of out d w h hx e =
  os_path_join (structured_dir_of out d) [new_filename_of d w h hx e].
Proof. reflexivity. Qed.



(** C10.  The loop that appends a counter is never entered.  When the
    computed destination exists, [copy_and_rename_file] returns through
    the skip branch before the loop; when it does not exist, the loop
    returns the destination itself with the counter still at 1, so that
    a dry run reports the computed destination, live mode relocates to
    it, and a relocation that succeeds leaves the source file at exactly
    that path and reports that path. *)
Theorem C10_counter_loop_never_runs (s : state) (file_path output_dir : string)
    (in_place : bool) (d : datetime) (w h : Z) (hx : string) (out1 out2 : list line) :
  get_file_metadata (st_fs s) file_path = ((Some d, Some w, Some h), out1) ->
  generate_hash (st_fs s) file_path 8 = (Ret hx, out2) ->
  let new_path := new_path_of output_dir d w h hx (file_ext_of file_path) in
  let filename := os_path_basename file_path in
  (os_path_exists (st_fs s) new_path = true ->
   forall dry_run,
     copy_and_rename_file file_path output_dir dry_run in_place s
     = (Ret true,
        add_out s (out1 ++ out2 ++
                   [(if dry_run then WouldSkip else Skipped) filename new_path]))) /\
  (os_path_exists (st_fs s) new_path = false ->
   free_name_loop (S (tree_size (st_fs s))) (st_fs s) new_path (file_ext_of file_path)
     new_path 1 = Some (new_path, 1) /\
   copy_and_rename_file file_path output_dir true in_place s
   = (Ret true, add_out s (out1 ++ out2 ++ [Would (operation_of in_place) filename new_path])) /\
   copy_and_rename_file file_path output_dir false in_place s
   = relocate_file file_path new_path (structured_dir_of output_dir d) filename in_place
       (add_out s (out1 ++ out2)) /\
   forall s',
     copy_and_rename_file file_path output_dir false in_place s = (Ret true, s') ->
     st_out s' = st_out s ++ out1 ++ out2 ++ [Done (operation_of in_place) filename new_path] /\
     exists f, resolve (st_fs s) file_path = Some (File f) /\
               resolve (st_fs s') new_path = Some (File f)).
Proof.
  intros Hm Hh new_path filename. split.
  - intros He dry_run. now apply copy_run_skip.
  - intros He. split; [now apply free_name_loop_free|].
    split; [now apply copy_run_would|].
    pose proof (copy_run_live s file_path output_dir in_place d w h out1 out2 hx Hm Hh He) as Hl.
    split; [exact Hl|]. intros s' Hrun. rewrite Hl in Hrun.
    destruct (new_filename_shape d w h hx (file_ext_of file_path)) as [Hs Hc].
    unfold new_path in *. rewrite new_path_of_join in Hrun, He |- *.
    apply relocate_file_lands in Hrun; [|assumption..].
    destruct Hrun as [Ho Hf]. cbn [add_out st_fs st_out] in Ho, Hf.
    split; [now rewrite Ho, <- !app_assoc | exact Hf].
Qed.

Lemma C10_counter_loop_never_runs_witness :
  (get_file_metadata (st_fs ex_state) "photos/a.JPG"
   = ((Some (mk_datetime 2023 6 15 10 0 0 123456), Some 640, Some 480), []) /\
   generate_hash (st_fs ex_state) "photos/a.JPG" 8 = (Ret "90015098", [])) /\
  free_name_loop (S (tree_size ex_fs)) ex_fs
    (new_path_of "out" (mk_datetime 2023 6 15 10 0 0 123456) 640 480 "90015098"
       (file_ext_of "photos/a.JPG"))
    (file_ext_of "photos/a.JPG")
    (new_path_of "out" (mk_datetime 2023 6 15 10 0 0 123456) 640 480 "90015098"
       (file_ext_of "photos/a.JPG")) 1
  = Some (new_path_of "out" (mk_datetime 2023 6 15 10 0 0 123456) 640 480 "90015098"
            (file_ext_of "photos/a.JPG"), 1).
Proof.
  split; [split; vm_compute; reflexivity|].
  apply (C10_counter_loop_never_runs ex_state "photos/a.JPG" "out" false
           (mk_datetime 2023 6 15 10 0 0 123456) 640 480 "90015098" [] []);
    vm_compute; reflexivity.
Defined.

(** ** What a run leaves untouched *)

Lemma keeps_fs_ret {A} (a : A) : keeps_fs (mret a : M A).
Proof. intros s. reflexivity. Qed.

Lemma keeps_fs_raise {A} (e : exn) : keeps_fs (raise e : M A).
Proof. intros s. reflexivity. Qed.

Lemma keeps_fs_print (l : line) : keeps_fs (print l).
Proof. intros s. reflexivity. Qed.

Lemma keeps_fs_get_fs : keeps_fs get_fs.
Proof. intros s. reflexivity. Qed.

Lemma keeps_fs_observe {A} (f : node -> A * list line) : keeps_fs (observe f).
Proof. intros s. unfold observe. now destruct (f (st_fs s)). Qed.

Lemma keeps_fs_observe_res {A} (f : node -> res A * list line) : keeps_fs (observe_res f).
Proof. intros s. unfold observe_res. now destruct (f (st_fs s)). Qed.

Lemma keeps_fs_bind {A B} (c : M A) (k : A -> M B) :
  keeps_fs c -> (forall a, keeps_fs (k a)) -> keeps_fs (c ≫= k).
Proof.
  intros Hc Hk s. unfold mbind, M_bind. specialize (Hc s).
  destruct (c s) as [[a|e] s1]; cbn [snd] in *; [|assumption].
  now rewrite Hk.
Qed.

Lemma copy_dry_run_keeps_fs (fp out : string) (ip : bool) :
  keeps_fs (copy_and_rename_file fp out true ip).
Proof.
  unfold copy_and_rename_file.
  apply keeps_fs_bind; [apply keeps_fs_observe|]. intros [[d w] h].
  destruct d as [d|], w as [w|], h as [h|];
    try (apply keeps_fs_bind; [apply keeps_fs_print | intros; apply keeps_fs_ret]).
  apply keeps_fs_bind; [apply keeps_fs_observe_res|]. intros hx.
  apply keeps_fs_bind; [apply keeps_fs_get_fs|]. intros fs.
  destruct (os_path_exists fs _).
  - apply keeps_fs_bind; [apply keeps_fs_print | intros; apply keeps_fs_ret].
  - destruct (free_name_loop _ _ _ _ _ _) as [[p c]|]; [|apply keeps_fs_raise].
    apply keeps_fs_bind; [apply keeps_fs_print | intros; apply keeps_fs_ret].
Qed.

Lemma relocate_loop_dry_run_keeps_fs (mf : list string) (out : string) (ip : bool) :
  forall sc tc, keeps_fs (relocate_loop mf out true ip sc tc).
Proof.
  induction mf as [|p mf IH]; intros sc tc; cbn [relocate_loop]; [apply keeps_fs_ret|].
  apply keeps_fs_bind; [apply copy_dry_run_keeps_fs|]. intros ok. apply IH.
Qed.

Lemma process_directory_dry_run_keeps_fs (i o : string) (sy : option string) (ip : bool) :
  keeps_fs (process_directory i o true sy ip).
Proof.
  unfold process_directory.
  apply keeps_fs_bind; [apply keeps_fs_get_fs|]. intros fs.
  destruct (negb _); [apply keeps_fs_print|].
  apply keeps_fs_bind; [apply keeps_fs_print|]. intros _.
  apply keeps_fs_bind; [apply keeps_fs_observe|]. intros [|x l]; [apply keeps_fs_print|].
  apply keeps_fs_bind; [apply keeps_fs_observe|]. intros [mf|]; [|apply keeps_fs_ret].
  unfold relocate_all.
  apply keeps_fs_bind; [apply keeps_fs_get_fs|]. intros fs'.
  cbn [negb andb].
  apply keeps_fs_bind; [apply keeps_fs_ret|]. intros _.
  apply keeps_fs_bind; [apply keeps_fs_print|]. intros _.
  apply keeps_fs_bind; [apply relocate_loop_dry_run_keeps_fs|]. intros [sc tc].
  destruct (tc =? 0); apply keeps_fs_print.
Qed.


(** ** The validity checker *)



(** ** The video resolver (lines 98-122) *)

Lemma strptime_raises_ValueError (s fmt : string) (e : exn) :
  strptime s fmt = Raise e -> e = ValueError.
Proof.
  unfold strptime. destruct (match_format fmt false s strptime_default) as [[t [|c r]]|].
  - destruct (valid_datetime t); [discriminate | now intros [= <-]].
  - now intros [= <-].
  - now intros [= <-].
Qed.












(** ** The scanner (lines 225-235) *)

Lemma media_in_spec (root : string) (files : list string) (p : string) :
  In p (media_in root files) <->
  exists name, In name files /\ hidden name = false /\ supported name = true /\
               p = os_path_join root [name].
Proof.
  induction files as [|file rest IH]; cbn [media_in].
  - split; [intros [] | intros (name & [] & _)].
  - fold (hidden file). fold (supported file).
    destruct (hidden file) eqn:Hh; [|destruct (supported file) eqn:Hs].
    + rewrite IH. split.
      * intros (name & Hin & H). exists name. split; [now right | exact H].
      * intros (name & [<-|Hin] & Hn & H); [congruence|]. exists name. auto.
    + cbn [In]. rewrite IH. split.
      * intros [<-|(name & Hin & H)]; [exists file; cbn; auto|].
        exists name. split; [now right | exact H].
      * intros (name & [<-|Hin] & Hn & Hs' & ->); [now left|]. right. exists name. auto.
    + rewrite IH. split.
      * intros (name & Hin & H). exists name. split; [now right | exact H].
      * intros (name & [<-|Hin] & Hn & Hs' & H); [congruence|]. exists name. auto.
Qed.

Lemma filenames_spec (es : list (string * node)) (name : string) :
  In name (filenames es) <-> exists f, In (name, File f) es.
Proof.
  unfold filenames. rewrite in_map_iff. split.
  - intros ([k x] & <- & Hin). apply filter_In in Hin as [Hin Hf].
    destruct x as [f|]; [|discriminate]. now exists f.
  - intros [f Hin]. exists (name, File f). split; [reflexivity|].
    apply filter_In. split; [assumption | reflexivity].
Qed.

Lemma os_walk_node_dir (top : string) (w : bool) (es : list (string * node)) :
  os_walk_node top (Dir w es) =
  (top, dirnames es, filenames es)
  :: flat_map (fun e => os_walk_node (os_path_join top [fst e]) (snd e)) es.
Proof.
  cbn [os_walk_node]. f_equal.
  induction es as [|[name child] es IH]; [reflexivity|].
  cbn [flat_map fst snd]. now rewrite <- IH.
Qed.

Lemma in_flat_map_twice {A B C} (g : B -> list C) (h : A -> list B) (l : list A) (p : C) :
  In p (flat_map g (flat_map h l)) <-> exists e, In e l /\ In p (flat_map g (h e)).
Proof.
  rewrite List.in_flat_map. split.
  - intros (y & Hy & Hp). apply List.in_flat_map in Hy as (e & He & Hy).
    exists e. split; [assumption|]. apply List.in_flat_map. eauto.
  - intros (e & He & Hp). apply List.in_flat_map in Hp as (y & Hy & Hp).
    exists y. split; [|assumption]. apply List.in_flat_map. eauto.
Qed.

(** What the scanner yields below a node: the regular files, at any
    depth, whose own name is not hidden and has a supported extension. *)
Lemma scan_node_spec (n : node) : forall (top p : string),
  In p (scan_node top n) <->
  exists ds name, file_under n ds name /\ hidden name = false /\ supported name = true /\
                  p = os_path_join top (ds ++ [name]).
Proof.
  induction n as [f|w es IH] using node_induction; intros top p.
  - split; [intros [] | intros (ds & name & H & _); inversion H].
  - unfold scan_node. rewrite os_walk_node_dir. cbn [flat_map].
    rewrite in_app_iff, media_in_spec, in_flat_map_twice.
    change (fun e : string * node =>
              os_walk_node (os_path_join top [fst e]) (snd e)) with
      (fun e : string * node => os_walk_node (os_path_join top [fst e]) (snd e)).
    split.
    + intros [(name & Hin & Hh & Hs & ->)|([d child] & Hin & Hp)].
      * apply filenames_spec in Hin as [f Hin].
        exists [], name. split; [econstructor; eauto | auto].
      * rewrite List.Forall_forall in IH. apply (IH _ Hin (os_path_join top [d])) in Hp.
        destruct Hp as (ds & name & Hu & Hh & Hs & ->).
        exists (d :: ds), name. split; [econstructor; eauto | auto].
    + intros (ds & name & Hu & Hh & Hs & ->).
      inversion Hu as [w' es' name' f Hin | w' es' d child ds' name' Hin Hsub]; subst.
      * left. exists name. split; [apply filenames_spec; eauto | auto].
      * right. exists (d, child). split; [assumption|].
        rewrite List.Forall_forall in IH. apply (IH _ Hin (os_path_join top [d])). eauto 6.
Qed.

(** C9, amended.  The scanner yields exactly the regular files below
    the root, in sub-directories of any depth, whose own name does not
    start with a dot and whose extension, lower-cased, is in the
    supported set.  The names of the directories on the way are not
    looked at, so that files inside hidden directories are yielded. *)
Theorem C9_scanner_yields (fs : node) (directory_path p : string) :
  In p (find_media_files_recursively fs directory_path) <->
  exists n ds name,
    resolve fs directory_path = Some n /\ file_under n ds name /\
    hidden name = false /\ supported name = true /\
    p = os_path_join directory_path (ds ++ [name]).
Proof.
  unfold find_media_files_recursively, os_walk.
  destruct (resolve fs directory_path) as [n|].
  - fold (scan_node directory_path n). rewrite scan_node_spec. split.
    + intros (ds & name & H). exists n, ds, name. auto.
    + intros (n' & ds & name & [= <-] & H). eauto.
  - split; [intros [] | intros (n & ds & name & [=] & _)].
Qed.

(** A file inside a hidden directory is yielded. *)
Lemma C9_counterexample : ~ C9_as_stated.
Proof.
  intros H.
  specialize (H ex_fs "photos" _ [".thumbs"] "t.png" eq_refl).
  assert (Hf : Forall (fun c => hidden c = false) ([".thumbs"] ++ ["t.png"])).
  { apply H.
    - eapply file_below; [right; right; left; reflexivity|].
      eapply file_here. left. reflexivity.
    - vm_compute. auto. }
  apply Forall_cons in Hf as [Hh _]. vm_compute in Hh. discriminate.
Qed.

(** ** The cutoff (lines 262-277) *)


Lemma supplied_nonempty (s : string) : s <> "" -> supplied (Some s) = Some s.
Proof. intros H. unfold supplied. apply String.eqb_neq in H. now rewrite H. Qed.

(** ** The output only grows *)














(** ** What the lines are about *)

Lemma metadata_out_not_report (fs : node) (p : string) :
  List.filter is_report (snd (get_file_metadata fs p)) = [].
Proof.
  unfold get_file_metadata. destruct (str_in _ _).
  - unfold get_video_metadata. destruct (ffprobe fs p) as [| |streams tags].
    + reflexivity.
    + reflexivity.
    + destruct (report_metadata fs p streams tags) as [[[d w] h]|e]; reflexivity.
  - destruct (get_image_metadata_shape fs p) as [(d & w & h & ->)| ->]; reflexivity.
Qed.

Lemma hash_out_not_report (fs : node) (p : string) (n : nat) :
  List.filter is_report (snd (generate_hash fs p n)) = [].
Proof. rewrite generate_hash_cases. destruct (open_rb fs p); reflexivity. Qed.

Lemma collect_out_not_report (fs : node) (paths : list string) :
  List.filter is_report (snd (collect_metadata fs paths)) = [].
Proof.
  induction paths as [|p paths IH]; [reflexivity|]. cbn [collect_metadata].
  pose proof (metadata_out_not_report fs p) as Hp.
  destruct (get_file_metadata fs p) as [[[d w] h] out].
  destruct (collect_metadata fs paths) as [found out']. cbn [snd] in *.
  destruct d; cbn [snd]; rewrite List.filter_app, Hp; cbn; now rewrite ?IH.
Qed.

Lemma select_out_not_report (sy : option string) (l : list (string * datetime)) :
  List.filter is_report (snd (select_media_files sy l)) = [].
Proof.
  unfold select_media_files. destruct (supplied sy) as [s|]; [|reflexivity].
  destruct (parse_year_month s) as [[y m]|e]; reflexivity.
Qed.

(** ** Running [process_directory] (lines 238-296) *)

Lemma process_directory_run (i o : string) (dry : bool) (sy : option string) (ip : bool)
    (s : state) :
  process_directory i o dry sy ip s =
  if negb (os_path_isdir (st_fs s) i) then (Ret tt, add_out s [InputDirectoryNotFound i])
  else
    match collect_metadata (st_fs s) (find_media_files_recursively (st_fs s) i) with
    | ([], out1) => (Ret tt, add_out s (Scanning :: out1 ++ [NoSupportedFiles]))
    | (x :: l, out1) =>
        match select_media_files sy (sort_by_time (x :: l)) with
        | (None, out2) => (Ret tt, add_out s (Scanning :: out1 ++ out2))
        | (Some mf, out2) =>
            relocate_all mf o dry ip (add_out s (Scanning :: out1 ++ out2))
        end
    end.
Proof.
  unfold process_directory, mbind, M_bind, get_fs.
  destruct (negb (os_path_isdir (st_fs s) i)); [reflexivity|].
  unfold print at 1. unfold observe at 1. cbn [st_fs st_out].
  destruct (collect_metadata _ _) as [[|x l] out1].
  - unfold print, add_out. cbn [st_fs st_out]. now rewrite <- !app_assoc.
  - unfold observe. cbn [st_fs st_out].
    destruct (select_media_files sy _) as [[mf|] out2]; unfold add_out, mret, M_ret;
      cbn [st_fs st_out]; now rewrite <- !app_assoc.
Qed.




(** ** Two runs in a row *)







Lemma relocate_loop_cons (p : string) (mf : list string) (out : string) (dry ip : bool)
    (sc tc : Z) (s : state) :
  relocate_loop (p :: mf) out dry ip sc tc s =
  match copy_and_rename_file p out dry ip s with
  | (Ret ok, s1) =>
      relocate_loop mf out dry ip (if ok then sc + 1 else sc) (tc + 1) s1
  | (Raise e, s1) => (Raise e, s1)
  end.
Proof. reflexivity. Qed.








(** The files to relocate are files whose metadata resolved. *)
Lemma selected_have_metadata (fs : node) (paths : list string) (sy : option string)
    (mf : list string) :
  fst (select_media_files sy (sort_by_time (fst (collect_metadata fs paths)))) = Some mf ->
  Forall (fun p => exists d w h,
            fst (get_file_metadata fs p) = (Some d, Some w, Some h)) mf.
Proof.
  intros Hsel. apply select_media_files_sublist in Hsel as [f ->].
  apply List.Forall_forall. intros p Hin.
  apply in_map_iff in Hin as ([q d] & <- & Hin). apply filter_In in Hin as [Hin _].
  apply (Permutation_in _ (sort_by_time_perm _)) in Hin.
  pose proof (collect_metadata_resolved fs paths) as Hres.
  rewrite List.Forall_forall in Hres. specialize (Hres _ Hin). cbn [fst snd] in *.
  unfold resolved_time in Hres.
  destruct (get_file_metadata_shape fs q) as [(d' & w & h & E)|[out E]];
    rewrite E in Hres |- *; cbn in Hres; [eauto | discriminate].
Qed.


Lemma select_out_line (sy : option string) (l : list (string * datetime)) :
  exists ln, snd (select_media_files sy l) = [ln] /\ forall sc tc, ln <> Processed sc tc.
Proof.
  unfold select_media_files. destruct (supplied sy) as [s|].
  - destruct (parse_year_month s) as [[y m]|e]; eexists; (split; [reflexivity|discriminate]).
  - eexists; (split; [reflexivity|discriminate]).
Qed.




(** ** The image resolver (lines 26-58) *)

Lemma exif_date_taken_skip (pre rest : list (Z * exif_value)) :
  Forall exif_skipped pre -> exif_date_taken (pre ++ rest) = exif_date_taken rest.
Proof.
  induction 1 as [|[tag v] pre Hs _ IH]; [reflexivity|].
  cbn [app exif_date_taken]. destruct Hs as [Hn|(s & Hv & Hp)]; cbn [fst snd] in *.
  - now rewrite Hn.
  - subst v. rewrite Hp. now destruct (is_date_tag tag).
Qed.

Lemma get_image_metadata_open (fs : node) (p : string) (f : file) (img : image) :
  image_open fs p = Ret (f, img) ->
  get_image_metadata fs p =
  match exif_date_taken (img_exif img) with
  | Ret date_taken =>
      ((Some (default (f_mtime f) date_taken), Some (img_width img), Some (img_height img)), [])
  | Raise _ => (no_metadata, [ErrorProcessing p])
  end.
Proof.
  intros Ho. unfold get_image_metadata. rewrite Ho. cbn [mbind res_bind].
  destruct (exif_date_taken (img_exif img)) as [[d|]|e]; reflexivity.
Qed.

(** X1.  For an image that opens, the capture time is the value of the
    first [DateTime] or [DateTimeOriginal] entry, in EXIF order, whose
    text parses as [%Y:%m:%d %H:%M:%S]; entries before it that are not
    date tags or do not parse are passed over, and entries after it are
    not looked at.  Width and height are those of the image and nothing
    is printed. *)
Theorem X1_image_date_is_first_parsed_tag (fs : node) (image_path : string) (f : file)
    (img : image) (pre post : list (Z * exif_value)) (tag : Z) (s : string) (d : datetime) :
  image_open fs image_path = Ret (f, img) ->
  img_exif img = pre ++ (tag, ExifText s) :: post ->
  Forall exif_skipped pre ->
  is_date_tag tag = true ->
  strptime s "%Y:%m:%d %H:%M:%S" = Ret d ->
  get_image_metadata fs image_path
  = ((Some d, Some (img_width img), Some (img_height img)), []).
Proof.
  intros Ho He Hpre Ht Hp. rewrite (get_image_metadata_open _ _ _ _ Ho), He.
  rewrite (exif_date_taken_skip _ _ Hpre). cbn [exif_date_taken]. now rewrite Ht, Hp.
Qed.

Lemma X1_image_date_is_first_parsed_tag_witness :
  get_image_metadata ex_fs "photos/.thumbs/t.png"
  = ((Some (mk_datetime 2021 3 4 5 6 7 0), Some 10, Some 20), []).
Proof.
  apply (X1_image_date_is_first_parsed_tag ex_fs "photos/.thumbs/t.png" ex_image_exif
           (mk_image 10 20 [(271, ExifText "Canon"); (306, ExifText "2021:03:04 05:06:07")])
           [(271, ExifText "Canon")] [] 306 "2021:03:04 05:06:07").
  - vm_compute. reflexivity.
  - reflexivity.
  - constructor; [left; reflexivity | constructor].
  - reflexivity.
  - vm_compute. reflexivity.
Defined.

(** X2.  For an image that opens and in whose EXIF data every entry is
    passed over (no date tag, or text that does not parse), the capture
    time is the last-modified time of the file. *)
Theorem X2_image_date_falls_back_to_mtime (fs : node) (image_path : string) (f : file)
    (img : image) :
  image_open fs image_path = Ret (f, img) ->
  Forall exif_skipped (img_exif img) ->
  get_image_metadata fs image_path
  = ((Some (f_mtime f), Some (img_width img), Some (img_height img)), []).
Proof.
  intros Ho Hall. rewrite (get_image_metadata_open _ _ _ _ Ho).
  rewrite <- (app_nil_r (img_exif img)), (exif_date_taken_skip _ _ Hall). reflexivity.
Qed.

Lemma X2_image_date_falls_back_to_mtime_witness :
  get_image_metadata ex_fs "photos/a.JPG"
  = ((Some (mk_datetime 2023 6 15 10 0 0 123456), Some 640, Some 480), []).
Proof.
  apply (X2_image_date_falls_back_to_mtime ex_fs "photos/a.JPG" ex_image (mk_image 640 480 [])).
  - vm_compute. reflexivity.
  - constructor.
Defined.

(** X3.  A date tag whose value is not text, met before any date that
    parses, makes the extraction fail as a whole: the dimensions of the
    image and its last-modified time are known, later date tags may
    parse, and still the result is the empty triple and the error line. *)
Theorem X3_image_non_text_date_fails (fs : node) (image_path : string) (f : file)
    (img : image) (pre post : list (Z * exif_value)) (tag : Z) :
  image_open fs image_path = Ret (f, img) ->
  img_exif img = pre ++ (tag, ExifOther) :: post ->
  Forall exif_skipped pre ->
  is_date_tag tag = true ->
  get_image_metadata fs image_path = (no_metadata, [ErrorProcessing image_path]).
Proof.
  intros Ho He Hpre Ht. rewrite (get_image_metadata_open _ _ _ _ Ho), He.
  rewrite (exif_date_taken_skip _ _ Hpre). cbn [exif_date_taken]. now rewrite Ht.
Qed.

Lemma X3_image_non_text_date_fails_witness :
  get_image_metadata ex_fs_raw_date "x.jpg" = (no_metadata, [ErrorProcessing "x.jpg"]).
Proof.
  apply (X3_image_non_text_date_fails ex_fs_raw_date "x.jpg" ex_image_raw_date
           (mk_image 30 40 [(306, ExifOther); (36867, ExifText "2021:03:04 05:06:07")])
           [] [(36867, ExifText "2021:03:04 05:06:07")] 306).
  - vm_compute. reflexivity.
  - reflexivity.
  - constructor.
  - reflexivity.
Defined.

(** ** The video resolver (lines 61-97) *)

Lemma tag_date_taken_returns (tags : gmap string string) (fields : list string) :
  exists r, tag_date_taken tags fields = Ret r.
Proof.
  induction fields as [|field rest IH]; [now exists None|].
  cbn [tag_date_taken]. destruct (tags !! field) as [v|]; [|exact IH].
  destruct (strptime _ _) as [d|e] eqn:E; [now exists (Some d)|].
  apply strptime_raises_ValueError in E. now subst e.
Qed.

Lemma ffprobe_report_file (fs : node) (p : string) (streams : list stream)
    (tags : gmap string string) :
  ffprobe fs p = FfprobeReport streams tags -> exists f, resolve fs p = Some (File f).
Proof.
  unfold ffprobe. destruct (resolve fs p) as [[f|w es]|]; [eauto | discriminate..].
Qed.

(** X4.  The video resolver succeeds exactly when ffprobe reports
    streams among which the first one of type video has a width and a
    height that are present and not zero; it then returns the
    dimensions of that stream.  Dates never make it fail: a tag that
    does not parse is passed over and the last-modified time is always
    there for a file that ffprobe could read. *)
Theorem X4_video_metadata_resolves_iff (fs : node) (video_path : string) (w h : Z) :
  (exists d, fst (get_video_metadata fs video_path) = (Some d, Some w, Some h)) <->
  (exists streams tags video_stream,
     ffprobe fs video_path = FfprobeReport streams tags /\
     List.find (fun s => bool_decide (codec_type s = Some "video")) streams
     = Some video_stream /\
     stream_width video_stream = Some w /\ w <> 0 /\
     stream_height video_stream = Some h /\ h <> 0).
Proof.
  unfold get_video_metadata. split.
  - intros [d H]. destruct (ffprobe fs video_path) as [| |streams tags] eqn:Ep;
      [discriminate H..|].
    exists streams, tags. unfold report_metadata in H.
    destruct (List.find _ streams) as [vs|]; [|discriminate H]. exists vs.
    destruct (stream_width vs) as [w'|], (stream_height vs) as [h'|];
      cbn [truthy negb orb] in H; try discriminate H;
      [| destruct (w' =? 0); discriminate H].
    destruct (w' =? 0) eqn:Ew; [discriminate H|].
    destruct (h' =? 0) eqn:Eh; [discriminate H|]. cbn [negb orb] in H.
    destruct (tag_date_taken_returns tags date_fields) as [r Hr]. rewrite Hr in H.
    cbn [mbind res_bind] in H.
    destruct (match r with Some d0 => Ret d0 | None => getmtime fs video_path end) as [d0|e];
      cbn [mbind res_bind default fst] in H; [|discriminate H].
    injection H as _ <- <-. apply Z.eqb_neq in Ew, Eh. auto 10.
  - intros (streams & tags & vs & Ep & Hf & Hw & Hw0 & Hh & Hh0).
    rewrite Ep. unfold report_metadata. rewrite Hf, Hw, Hh. cbn [truthy].
    apply Z.eqb_neq in Hw0, Hh0. rewrite Hw0, Hh0. cbn [negb orb].
    destruct (tag_date_taken_returns tags date_fields) as [r Hr]. rewrite Hr.
    cbn [mbind res_bind].
    destruct (ffprobe_report_file _ _ _ _ Ep) as [f Hres].
    unfold getmtime. rewrite Hres.
    destruct r as [d|]; cbn [mbind res_bind default fst]; eauto.
Qed.

(** X5.  When the video resolver fails it returns the empty triple and
    its last line names the video; the line about ffprobe comes before
    it exactly when ffprobe itself failed.  When it succeeds it prints
    nothing. *)
Theorem X5_video_failure_lines (fs : node) (video_path : string) :
  (exists d w h, get_video_metadata fs video_path = ((Some d, Some w, Some h), [])) \/
  (ffprobe fs video_path = FfprobeError /\
   get_video_metadata fs video_path
   = (no_metadata, [FfprobeFailed video_path; ErrorProcessingVideo video_path])) \/
  (ffprobe fs video_path <> FfprobeError /\
   get_video_metadata fs video_path = (no_metadata, [ErrorProcessingVideo video_path])).
Proof.
  unfold get_video_metadata.
  destruct (ffprobe fs video_path) as [| |streams tags]; [right; left; auto | |].
  - right. right. split; [discriminate | reflexivity].
  - destruct (report_metadata fs video_path streams tags) as [[[d w] h]|e].
    + left. eauto.
    + right. right. split; [discriminate | reflexivity].
Qed.

(** ** The dispatch (lines 131-140) *)

(** X6.  The triple [get_file_metadata] returns is all there or all
    missing, so that the test of line 250 on the date alone and the
    test of line 165 on the three parts agree.  A success prints
    nothing; a failure ends with the error line of the resolver that
    the lower-cased extension selects. *)
Theorem X6_file_metadata_all_or_nothing (fs : node) (file_path : string) :
  (exists d w h, get_file_metadata fs file_path = ((Some d, Some w, Some h), [])) \/
  (exists out,
     get_file_metadata fs file_path = (no_metadata, out) /\
     last out = Some (if is_video_path file_path
                      then ErrorProcessingVideo file_path
                      else ErrorProcessing file_path)).
Proof.
  unfold get_file_metadata, is_video_path.
  destruct (str_in _ [".mov"; ".mp4"]).
  - destruct (get_video_metadata_shape fs file_path) as [H|[out H]]; [now left|].
    right. exists out. split; [assumption|].
    unfold get_video_metadata in H.
    destruct (ffprobe fs file_path) as [| |streams tags].
    + injection H as <-. reflexivity.
    + injection H as <-. reflexivity.
    + destruct (report_metadata _ _ _ _) as [[[d w] h]|e]; [discriminate H|].
      injection H as <-. reflexivity.
  - destruct (get_image_metadata_shape fs file_path) as [H|H]; [now left|].
    right. eexists. split; [exact H | reflexivity].
Qed.

(** ** The sort (lines 259-260) *)

Lemma same_time_eq (t u : datetime) : same_time t u = true -> t = u.
Proof.
  unfold same_time. intros H. apply andb_true_iff in H as [H1 H2].
  apply negb_true_iff in H1, H2. now apply dt_ltb_total.
Qed.

Lemma insert_by_time_same_time (t : datetime) (x : string * datetime)
    (l : list (string * datetime)) :
  List.filter (fun e => same_time t (snd e)) (insert_by_time x l)
  = List.filter (fun e => same_time t (snd e)) (x :: l).
Proof.
  induction l as [|y l IH]; [reflexivity|]. cbn [insert_by_time].
  destruct (dt_ltb (snd y) (snd x)) eqn:E; [|reflexivity].
  cbn [List.filter] in IH |- *. rewrite IH.
  destruct (same_time t (snd y)) eqn:Ey, (same_time t (snd x)) eqn:Ex; try reflexivity.
  apply same_time_eq in Ey, Ex. rewrite <- Ey, <- Ex, dt_ltb_irrefl in E. discriminate.
Qed.

(** X7.  The sort by capture time rearranges the entries, without
    losing or repeating any; in its result no entry is later than one
    that follows it; and entries with the same capture time stay in the
    order in which the scanner yielded them. *)
Theorem X7_sort_by_time_stable (l : list (string * datetime)) :
  Permutation (sort_by_time l) l /\
  StronglySorted time_le (sort_by_time l) /\
  forall t, List.filter (fun e => same_time t (snd e)) (sort_by_time l)
            = List.filter (fun e => same_time t (snd e)) l.
Proof.
  split; [apply sort_by_time_perm|]. split; [apply sort_by_time_sorted|].
  intros t. induction l as [|x l IH]; [reflexivity|].
  cbn [sort_by_time]. rewrite insert_by_time_same_time. cbn [List.filter]. now rewrite IH.
Qed.

(** ** The first pass (lines 246-253) *)

Lemma metadata_out_not_skipping (fs : node) (p : string) :
  List.filter is_skipping (snd (get_file_metadata fs p)) = [].
Proof.
  unfold get_file_metadata. destruct (str_in _ _).
  - unfold get_video_metadata. destruct (ffprobe fs p) as [| |streams tags].
    + reflexivity.
    + reflexivity.
    + destruct (report_metadata fs p streams tags) as [[[d w] h]|e]; reflexivity.
  - destruct (get_image_metadata_shape fs p) as [(d & w & h & ->)| ->]; reflexivity.
Qed.

(** X8.  The first pass loses no scanned path: the paths kept are, in
    scan order, those for which a capture time resolves, and for every
    other path, in scan order too, the line that names it as skipped is
    printed. *)
Theorem X8_first_pass_keeps_or_reports (fs : node) (paths : list string) :
  map fst (fst (collect_metadata fs paths)) = List.filter (has_date fs) paths /\
  List.filter is_skipping (snd (collect_metadata fs paths))
  = map (fun p => SkippingNoMetadata (os_path_basename p))
        (List.filter (fun p => negb (has_date fs p)) paths).
Proof.
  induction paths as [|p paths [IH1 IH2]]; [split; reflexivity|].
  cbn [collect_metadata List.filter].
  pose proof (metadata_out_not_skipping fs p) as Hp.
  assert (Hd : has_date fs p = match fst (fst (fst (get_file_metadata fs p))) with
                               | Some _ => true
                               | None => false
                               end) by reflexivity.
  rewrite !Hd. clear Hd.
  destruct (get_file_metadata fs p) as [[[d w] h] out].
  destruct (collect_metadata fs paths) as [found out']. cbn [fst snd] in *.
  destruct d as [d|]; cbn [fst snd negb map]; rewrite List.filter_app, Hp; cbn [app].
  - split; [now f_equal | assumption].
  - split; [assumption|]. cbn [List.filter is_skipping]. now f_equal.
Qed.

(** ** The loop and its counters (lines 284-296) *)

Lemma silent_fs_op (g : node -> option node) : silent (fs_op g).
Proof. intros s. rewrite fs_op_run. now destruct (g (st_fs s)). Qed.

Lemma silent_ret {A} (a : A) : silent (mret a : M A).
Proof. intros s. reflexivity. Qed.

Lemma silent_raise {A} (e : exn) : silent (raise e : M A).
Proof. intros s. reflexivity. Qed.

Lemma silent_get_fs : silent get_fs.
Proof. intros s. reflexivity. Qed.

Lemma silent_bind {A B} (c : M A) (k : A -> M B) :
  silent c -> (forall a, silent (k a)) -> silent (c ≫= k).
Proof.
  intros Hc Hk s. unfold mbind, M_bind. specialize (Hc s).
  destruct (c s) as [[a|e] s1]; cbn [snd] in *; [|assumption].
  now rewrite Hk.
Qed.

Lemma silent_catch {A} (c : M A) (h : exn -> M A) :
  silent c -> (forall e, silent (h e)) -> silent (catch c h).
Proof.
  intros Hc Hh s. unfold catch. specialize (Hc s).
  destruct (c s) as [[a|e] s1]; cbn [snd] in *; [assumption|].
  now rewrite Hh.
Qed.

Lemma silent_shutil_move (src dst : string) : silent (shutil_move src dst).
Proof.
  unfold shutil_move. apply silent_bind; [apply silent_get_fs|]. intros fs.
  apply silent_bind.
  - destruct (os_path_isdir fs dst); [|apply silent_ret].
    destruct (os_path_exists fs _); [apply silent_raise | apply silent_ret].
  - intros real_dst. apply silent_catch; [apply silent_fs_op|]. intros _.
    apply silent_bind; [apply silent_fs_op|]. intros _. apply silent_fs_op.
Qed.

Lemma silent_shutil_copy2 (src dst : string) : silent (shutil_copy2 src dst).
Proof. apply silent_fs_op. Qed.

(** [relocate_file], step by step. *)
Lemma relocate_file_run (fp P sd fn : string) (ip : bool) (s : state) :
  relocate_file fp P sd fn ip s =
  match (if String.eqb sd "" then None else makedirs_at (st_fs s) (components sd) true) with
  | None => (Raise OSError, s)
  | Some fs1 =>
      match (if ip then shutil_move fp P else shutil_copy2 fp P) (mk_state fs1 (st_out s)) with
      | (Ret _, s1) => (Ret true, add_out s1 [Done (operation_of ip) fn P])
      | (Raise _, s1) => (Ret false, add_out s1 [ErrorOperation (operation_of ip) fn])
      end
  end.
Proof.
  unfold relocate_file, mbind at 1, M_bind at 1, os_makedirs. rewrite fs_op_run.
  destruct (if String.eqb sd "" then None else makedirs_at (st_fs s) (components sd) true)
    as [fs1|]; [|reflexivity].
  unfold catch, mbind, M_bind. destruct ip; cbn [operation_of].
  - destruct (shutil_move fp P _) as [[[]|e] s1]; reflexivity.
  - destruct (shutil_copy2 fp P _) as [[[]|e] s1]; reflexivity.
Qed.

(** What [relocate_file] returns and prints. *)
Lemma relocate_file_outcome (fp P sd fn : string) (ip : bool) (s : state) :
  exists s',
    (relocate_file fp P sd fn ip s = (Ret true, s') /\
     st_out s' = st_out s ++ [Done (operation_of ip) fn P]) \/
    (relocate_file fp P sd fn ip s = (Ret false, s') /\
     st_out s' = st_out s ++ [ErrorOperation (operation_of ip) fn]) \/
    (relocate_file fp P sd fn ip s = (Raise OSError, s') /\ s' = s).
Proof.
  rewrite relocate_file_run.
  destruct (if String.eqb sd "" then None else makedirs_at (st_fs s) (components sd) true)
    as [fs1|]; [|eauto 6].
  assert (Hs : silent (if ip then shutil_move fp P else shutil_copy2 fp P)).
  { destruct ip; [apply silent_shutil_move | apply silent_shutil_copy2]. }
  specialize (Hs (mk_state fs1 (st_out s))).
  destruct ((if ip then shutil_move fp P else shutil_copy2 fp P) _) as [[[]|e] s1];
    cbn [snd st_out] in Hs.
  - eexists. left. split; [reflexivity|]. cbn. now rewrite Hs.
  - eexists. right. left. split; [reflexivity|]. cbn. now rewrite Hs.
Qed.

(** What [copy_and_rename_file] returns and prints: before the line
    that reports on the file only lines of the resolvers and of the
    hasher, and [True] exactly when that line is no failure. *)
Lemma copy_and_rename_file_outcome (fp out : string) (dry ip : bool) (s : state) :
  exists r s' pre,
    copy_and_rename_file fp out dry ip s = (r, s') /\
    List.filter is_report pre = [] /\
    ((exists l, r = Ret (negb (is_failure l)) /\ is_report l = true /\
                st_out s' = st_out s ++ pre ++ [l]) \/
     (r = Raise OSError /\ dry = false /\ s' = add_out s pre)).
Proof.
  destruct (get_file_metadata_shape (st_fs s) fp) as [(d & w & h & Hm)|[out1 Hm]].
  - destruct (generate_hash_ret (st_fs s) fp) as [hx Hh].
    pose proof (hash_fst_pair _ _ _ Hh) as Hh0.
    pose proof (hash_out_not_report (st_fs s) fp 8) as Hnr.
    destruct (os_path_exists (st_fs s) (new_path_of out d w h hx (file_ext_of fp))) eqn:He.
    + rewrite (copy_run_skip _ _ _ dry ip _ _ _ _ _ _ Hm Hh0 He). cbn [app].
      eexists _, _, _. split; [reflexivity|]. split; [exact Hnr|]. left.
      exists ((if dry then WouldSkip else Skipped) (os_path_basename fp)
                (new_path_of out d w h hx (file_ext_of fp))).
      destruct dry; repeat split.
    + destruct dry.
      * rewrite (copy_run_would _ _ _ ip _ _ _ _ _ _ Hm Hh0 He). cbn [app].
        eexists _, _, _. split; [reflexivity|]. split; [exact Hnr|]. left.
        exists (Would (operation_of ip) (os_path_basename fp)
                  (new_path_of out d w h hx (file_ext_of fp))).
        repeat split.
      * rewrite (copy_run_live _ _ _ ip _ _ _ _ _ _ Hm Hh0 He). cbn [app].
        destruct (relocate_file_outcome fp (new_path_of out d w h hx (file_ext_of fp))
                    (structured_dir_of out d) (os_path_basename fp) ip
                    (add_out s (snd (generate_hash (st_fs s) fp 8))))
          as [s' [[Hr Ho]|[[Hr Ho]|[Hr ->]]]]; rewrite Hr;
          eexists _, _, _; (split; [reflexivity|]); (split; [exact Hnr|]).
        -- left. exists (Done (operation_of ip) (os_path_basename fp)
                           (new_path_of out d w h hx (file_ext_of fp))).
           split; [reflexivity|]. split; [reflexivity|].
           rewrite Ho. cbn. now rewrite <- app_assoc.
        -- left. exists (ErrorOperation (operation_of ip) (os_path_basename fp)).
           split; [reflexivity|]. split; [reflexivity|].
           rewrite Ho. cbn. now rewrite <- app_assoc.
        -- right. auto.
  - rewrite (copy_run_no_metadata _ _ _ dry ip _ Hm).
    eexists _, _, out1. split; [reflexivity|].
    pose proof (metadata_out_not_report (st_fs s) fp) as Hnr. rewrite Hm in Hnr.
    split; [exact Hnr|]. left. exists (CouldNotExtract (os_path_basename fp)).
    repeat split.
Qed.

Lemma relocate_loop_counts (out : string) (dry ip : bool) (mf : list string) :
  forall (s s' : state) (sc tc sc' tc' : Z),
  relocate_loop mf out dry ip sc tc s = (Ret (sc', tc'), s') ->
  exists new,
    st_out s' = st_out s ++ new /\
    tc' = tc + Z.of_nat (length mf) /\
    length (List.filter is_report new) = length mf /\
    sc' = sc + Z.of_nat (length (List.filter is_success new)).
Proof.
  induction mf as [|p mf IH]; intros s s' sc tc sc' tc' Hrun.
  - cbn in Hrun. injection Hrun as <- <- <-. exists []. rewrite app_nil_r. cbn.
    repeat split; lia.
  - rewrite relocate_loop_cons in Hrun.
    destruct (copy_and_rename_file_outcome p out dry ip s)
      as (r & s1 & pre & Hstep & Hpre & [(l & -> & Hl & Ho)|(-> & _ & _)]);
      rewrite Hstep in Hrun; [|discriminate].
    apply IH in Hrun as (new & Ho' & -> & Hn & ->).
    exists (pre ++ [l] ++ new). rewrite Ho', Ho, <- !app_assoc.
    split; [reflexivity|]. split; [cbn [length]; lia|].
    assert (Hps : List.filter is_success pre = []).
    { clear -Hpre. induction pre as [|a pre IH]; [reflexivity|].
      cbn [List.filter] in *. unfold is_success at 1.
      destruct (is_report a); [discriminate|]. cbn. auto. }
    rewrite !List.filter_app, !length_app, Hpre, Hps, Hn. cbn [List.filter app length].
    rewrite Hl. split; [reflexivity|].
    replace (is_success l) with (negb (is_failure l))
      by (unfold is_success; now rewrite Hl).
    destruct (is_failure l); cbn [negb andb length app]; lia.
Qed.

Lemma relocate_all_steps (mf : list string) (o : string) (dry ip : bool) (s : state) :
  relocate_all mf o dry ip s =
  match (if negb dry && negb (os_path_exists (st_fs s) o)
         then os_makedirs o false;; print (CreatedOutputDirectory o)
         else mret tt) s with
  | (Ret _, s1) =>
      match relocate_loop mf o dry ip 0 0 (add_out s1 [ProcessingMediaFiles]) with
      | (Ret (sc, tc), s2) =>
          (Ret tt, add_out s2 [if tc =? 0 then NoFilesToProcess else Processed sc tc])
      | (Raise e, s2) => (Raise e, s2)
      end
  | (Raise e, s1) => (Raise e, s1)
  end.
Proof.
  unfold relocate_all, mbind at 1, M_bind at 1, get_fs.
  unfold mbind at 1, M_bind at 1.
  match goal with |- context [match ?c s with _ => _ end] => destruct (c s) as [[[]|e] s1] end;
    [|reflexivity].
  unfold mbind at 1, M_bind at 1, print at 1. fold (add_out s1 [ProcessingMediaFiles]).
  unfold mbind at 1, M_bind at 1.
  destruct (relocate_loop _ _ _ _ _ _ _) as [[[sc tc]|e] s2]; [|reflexivity].
  destruct (tc =? 0); reflexivity.
Qed.

(** The step before the loop (lines 280-282) prints at most the line
    about the output directory. *)
Lemma output_directory_step (o : string) (dry : bool) (s : state) :
  (exists s1 pre,
     (if negb dry && negb (os_path_exists (st_fs s) o)
      then os_makedirs o false;; print (CreatedOutputDirectory o)
      else mret tt) s = (Ret tt, s1) /\
     st_out s1 = st_out s ++ pre /\ List.filter is_report pre = []) \/
  (if negb dry && negb (os_path_exists (st_fs s) o)
   then os_makedirs o false;; print (CreatedOutputDirectory o)
   else mret tt) s = (Raise OSError, s).
Proof.
  destruct (negb dry && negb (os_path_exists (st_fs s) o)).
  - unfold mbind, M_bind, os_makedirs. rewrite fs_op_run.
    destruct (if String.eqb o "" then None else _) as [fs1|]; [|now right].
    left. eexists _, [CreatedOutputDirectory o]. repeat split.
  - left. exists s, []. rewrite app_nil_r. repeat split.
Qed.

(** X9.  When a run ends with the summary line, the total it shows is
    the number of per-file lines printed and the number of successes is
    the number of those lines that report no failure: a skip, an
    intended or a completed copy or move.  The total is positive and
    the successes do not exceed it. *)
Theorem X9_summary_counts_the_reports (input output : string) (dry_run in_place : bool)
    (start_year_month : option string) (fs : node) (s' : state) (sc tc : Z) :
  process_directory input output dry_run start_year_month in_place (mk_state fs [])
  = (Ret tt, s') ->
  last (st_out s') = Some (Processed sc tc) ->
  tc = Z.of_nat (length (List.filter is_report (st_out s'))) /\
  sc = Z.of_nat (length (List.filter is_success (st_out s'))) /\
  0 <= sc <= tc /\ 0 < tc.
Proof.
  intros Hrun Hlast. rewrite process_directory_run in Hrun. cbn [st_fs] in Hrun.
  destruct (os_path_isdir fs input); cbn [negb] in Hrun;
    [|injection Hrun as <-; discriminate Hlast].
  pose proof (collect_out_not_report fs (find_media_files_recursively fs input)) as Hc.
  destruct (collect_metadata fs _) as [[|x l] o1]; cbn [snd] in Hc.
  { injection Hrun as <-. cbn [add_out st_out app] in Hlast.
    rewrite app_comm_cons, last_snoc in Hlast. discriminate Hlast. }
  pose proof (select_out_not_report start_year_month (sort_by_time (x :: l))) as Hs.
  destruct (select_out_line start_year_month (sort_by_time (x :: l))) as (ln & Eln & Hln).
  destruct (select_media_files start_year_month _) as [[mf|] o2]; cbn [snd] in *.
  2:{ injection Hrun as <-. subst o2. cbn [add_out st_out app] in Hlast.
      rewrite app_comm_cons, last_snoc in Hlast. injection Hlast as ->.
      now destruct (Hln sc tc). }
  rewrite relocate_all_steps in Hrun.
  destruct (output_directory_step output dry_run (add_out (mk_state fs []) (Scanning :: o1 ++ o2)))
    as [(s1 & pre & Hc1 & Ho1 & Hp1)|Hc1]; rewrite Hc1 in Hrun; [|discriminate].
  destruct (relocate_loop mf output dry_run in_place 0 0 _) as [[[sc' tc']|e] s2] eqn:Hloop;
    [|discriminate].
  injection Hrun as <-. cbn [add_out st_out] in Hlast |- *.
  rewrite last_snoc in Hlast.
  destruct (tc' =? 0) eqn:Etc; [discriminate|]. injection Hlast as -> ->.
  apply relocate_loop_counts in Hloop as (new & Ho & Htc & Hn & Hsc).
  cbn [add_out st_out app] in Ho, Ho1. rewrite Ho, Ho1.
  assert (Hfs : forall l, List.filter is_report l = [] -> List.filter is_success l = []).
  { clear. induction l as [|a l IH]; [reflexivity|].
    cbn [List.filter]. unfold is_success at 1.
    destruct (is_report a); [discriminate|]. cbn. auto. }
  assert (Hhead : List.filter is_report (Scanning :: (o1 ++ o2) ++ pre) = []).
  { cbn [List.filter is_report]. rewrite !List.filter_app, Hc, Hs, Hp1. reflexivity. }
  rewrite !List.filter_app, !length_app, Hhead, (Hfs _ Hhead), Hn.
  cbn [List.filter is_report is_success andb length Nat.add].
  apply Z.eqb_neq in Etc.
  pose proof (List.filter_length_le is_success new) as Hle1.
  assert (Hle : (length (List.filter is_success new) <= length mf)%nat).
  { rewrite <- Hn. clear. induction new as [|a new IH]; [reflexivity|].
    cbn [List.filter]. unfold is_success at 1.
    destruct (is_report a); cbn [andb]; [|exact IH].
    destruct (negb (is_failure a)); cbn [length]; lia. }
  rewrite !Nat.add_0_r. repeat split; lia.
Qed.

Lemma X9_summary_counts_the_reports_witness :
  2 = Z.of_nat (length (List.filter is_report (st_out (snd ex_first_run)))) /\
  2 = Z.of_nat (length (List.filter is_success (st_out (snd ex_first_run)))) /\
  0 <= 2 <= 2 /\ 0 < 2.
Proof.
  apply (X9_summary_counts_the_reports "in" "out" false false None ex_fs_images
           (snd ex_first_run) 2 2).
  - vm_compute. reflexivity.
  - vm_compute. reflexivity.
Defined.

(** ** Dry runs (lines 203-206 and 279-296) *)

Lemma not_report_not_failure (l : list line) :
  List.filter is_report l = [] -> Forall (fun x => is_failure x = false) l.
Proof.
  induction l as [|a l IH]; [constructor|]. cbn [List.filter].
  destruct (is_report a) eqn:E; [discriminate|]. intros H.
  constructor; [now destruct a | now apply IH].
Qed.

Lemma dry_run_loop (out : string) (ip : bool) (mf : list string) :
  forall (s : state) (sc tc : Z),
  Forall (fun p => exists d w h,
            fst (get_file_metadata (st_fs s) p) = (Some d, Some w, Some h)) mf ->
  exists new,
    relocate_loop mf out true ip sc tc s
    = (Ret (sc + Z.of_nat (length mf), tc + Z.of_nat (length mf)), add_out s new) /\
    Forall (fun l => is_failure l = false) new.
Proof.
  induction mf as [|p mf IH]; intros s sc tc Hall.
  - exists []. cbn [relocate_loop length Z.of_nat]. rewrite !Z.add_0_r, add_out_nil.
    split; [reflexivity | constructor].
  - apply Forall_cons in Hall as [(d & w & h & Hm) Hall].
    pose proof (metadata_fst_full _ _ _ _ _ Hm) as Hm0.
    destruct (generate_hash_ret (st_fs s) p) as [hx Hh].
    pose proof (hash_fst_pair _ _ _ Hh) as Hh0.
    pose proof (not_report_not_failure _ (hash_out_not_report (st_fs s) p 8)) as Hnf.
    rewrite relocate_loop_cons.
    destruct (os_path_exists (st_fs s) (new_path_of out d w h hx (file_ext_of p))) eqn:He.
    + rewrite (copy_run_skip _ _ _ true ip _ _ _ _ _ _ Hm0 Hh0 He). cbn [app].
      destruct (IH (add_out s (snd (generate_hash (st_fs s) p 8) ++
                               [WouldSkip (os_path_basename p)
                                  (new_path_of out d w h hx (file_ext_of p))]))
                  (sc + 1) (tc + 1) Hall) as (new & Hrun & Hf).
      rewrite Hrun, add_out_app. eexists. split.
      * f_equal. f_equal. f_equal; cbn [length]; lia.
      * apply Forall_app. split; [|exact Hf].
        apply Forall_app. split; [exact Hnf | now repeat constructor].
    + rewrite (copy_run_would _ _ _ ip _ _ _ _ _ _ Hm0 Hh0 He). cbn [app].
      destruct (IH (add_out s (snd (generate_hash (st_fs s) p 8) ++
                               [Would (operation_of ip) (os_path_basename p)
                                  (new_path_of out d w h hx (file_ext_of p))]))
                  (sc + 1) (tc + 1) Hall) as (new & Hrun & Hf).
      rewrite Hrun, add_out_app. eexists. split.
      * f_equal. f_equal. f_equal; cbn [length]; lia.
      * apply Forall_app. split; [|exact Hf].
        apply Forall_app. split; [exact Hnf | now repeat constructor].
Qed.

(** X10.  A dry run of the batch always ends normally and prints no
    failure line: every file that the first pass kept is reported as a
    skip or as an intended copy or move, whatever the state of the
    output tree. *)
Theorem X10_dry_run_never_fails (input output : string) (start_year_month : option string)
    (in_place : bool) (s : state) :
  exists new,
    process_directory input output true start_year_month in_place s
    = (Ret tt, add_out s new) /\
    Forall (fun l => is_failure l = false) new.
Proof.
  rewrite process_directory_run.
  destruct (os_path_isdir (st_fs s) input); cbn [negb];
    [|eexists; split; [reflexivity | now repeat constructor]].
  pose proof (not_report_not_failure _
                (collect_out_not_report (st_fs s)
                   (find_media_files_recursively (st_fs s) input))) as Hc.
  pose proof (selected_have_metadata (st_fs s) (find_media_files_recursively (st_fs s) input)
                start_year_month) as Hsel.
  destruct (collect_metadata (st_fs s) _) as [[|x l] o1]; cbn [fst snd] in *.
  { eexists. split; [reflexivity|]. constructor; [reflexivity|].
    apply Forall_app. split; [exact Hc | now repeat constructor]. }
  pose proof (not_report_not_failure _
                (select_out_not_report start_year_month (sort_by_time (x :: l)))) as Hs.
  destruct (select_media_files start_year_month _) as [[mf|] o2]; cbn [fst snd] in *.
  2:{ eexists. split; [reflexivity|]. constructor; [reflexivity|].
      apply Forall_app. now split. }
  rewrite relocate_all_steps. cbn [negb andb]. unfold mret at 1, M_ret at 1.
  destruct (dry_run_loop output in_place mf
              (add_out (add_out s (Scanning :: o1 ++ o2)) [ProcessingMediaFiles]) 0 0)
    as (new & Hrun & Hf); [now apply Hsel|].
  rewrite Hrun, !add_out_app. eexists. split; [reflexivity|].
  cbn [app]. constructor; [reflexivity|].
  rewrite <- !app_assoc. repeat (apply Forall_app; split); try assumption.
  constructor; [reflexivity|]. apply Forall_app. split; [exact Hf|].
  destruct (_ =? 0); now repeat constructor.
Qed.

(** ** Runs that relocate nothing (lines 240-257) *)

Lemma collect_metadata_none (fs : node) (paths : list string) :
  Forall (fun p => has_date fs p = false) paths -> fst (collect_metadata fs paths) = [].
Proof.
  intros H. rewrite collect_metadata_omap.
  induction H as [|p paths Hp _ IH]; [reflexivity|].
  rewrite omap_cons_eq. unfold resolved_entry. unfold has_date in Hp.
  destruct (resolved_time fs p); [discriminate | exact IH].
Qed.

(** X11.  When the input is no directory, or when no scanned file has
    a capture time that resolves, the run ends normally after the line
    that says so and leaves the file system as it was: in live mode
    too, the output directory is not created. *)
Theorem X11_nothing_found_changes_nothing (input output : string) (dry_run in_place : bool)
    (start_year_month : option string) (s : state) :
  os_path_isdir (st_fs s) input = false \/
  Forall (fun p => has_date (st_fs s) p = false)
         (find_media_files_recursively (st_fs s) input) ->
  exists new l,
    process_directory input output dry_run start_year_month in_place s
    = (Ret tt, add_out s (new ++ [l])) /\
    (l = InputDirectoryNotFound input \/ l = NoSupportedFiles) /\
    List.filter is_report new = [].
Proof.
  intros H. rewrite process_directory_run.
  destruct (os_path_isdir (st_fs s) input) eqn:Ed; cbn [negb].
  - destruct H as [H|H]; [discriminate|]. apply collect_metadata_none in H.
    pose proof (collect_out_not_report (st_fs s)
                  (find_media_files_recursively (st_fs s) input)) as Hc.
    destruct (collect_metadata (st_fs s) _) as [found o1]. cbn [fst snd] in *. subst found.
    exists (Scanning :: o1), NoSupportedFiles. split; [reflexivity|]. split; [now right|].
    exact Hc.
  - exists [], (InputDirectoryNotFound input). repeat split. now left.
Qed.

Lemma X11_nothing_found_changes_nothing_witness :
  exists new l,
    process_directory "photos/sub/readme.txt" "out" false None false ex_state
    = (Ret tt, add_out ex_state (new ++ [l])) /\
    (l = InputDirectoryNotFound "photos/sub/readme.txt" \/ l = NoSupportedFiles) /\
    List.filter is_report new = [].
Proof.
  apply (X11_nothing_found_changes_nothing "photos/sub/readme.txt" "out" false false None
           ex_state).
  left. vm_compute. reflexivity.
Defined.

(** ** A start after every file (lines 262-296) *)

(** X12.  When the start is later than every capture time, a live run
    still creates the output directory, where it does not exist yet,
    before it finds that there is nothing to process; the lines printed
    after the first pass are the count of zero files, the creation of
    the directory, the announcement of the loop and the notice that no
    file is left. *)
Theorem X12_late_start_still_creates_output (fs fs' : node) (input output start : string)
    (in_place : bool) (y m : Z) :
  os_path_isdir fs input = true ->
  fst (collect_metadata fs (find_media_files_recursively fs input)) <> [] ->
  start <> "" ->
  parse_year_month start = Ret (y, m) ->
  Forall (fun x => from_start y m (snd x) = false)
         (fst (collect_metadata fs (find_media_files_recursively fs input))) ->
  os_path_exists fs output = false ->
  output <> "" ->
  makedirs_at fs (components output) false = Some fs' ->
  process_directory input output false (Some start) in_place (mk_state fs [])
  = (Ret tt,
     mk_state fs'
       (Scanning :: snd (collect_metadata fs (find_media_files_recursively fs input))
        ++ [FoundFrom 0 start; CreatedOutputDirectory output; ProcessingMediaFiles;
            NoFilesToProcess])).
Proof.
  intros Hd Hne Hs Hp Hall He Ho Hm.
  rewrite process_directory_run. cbn [st_fs]. rewrite Hd. cbn [negb].
  destruct (collect_metadata fs _) as [[|x l] o1]; cbn [fst snd] in *; [congruence|].
  unfold select_media_files. rewrite (supplied_nonempty _ Hs), Hp.
  assert (Hf : List.filter (fun e => from_start y m (snd e)) (sort_by_time (x :: l)) = []).
  { assert (Hall' : Forall (fun e => from_start y m (snd e) = false) (sort_by_time (x :: l))).
    { eapply Permutation_Forall; [symmetry; apply sort_by_time_perm | exact Hall]. }
    induction Hall' as [|a r Ha _ IH]; [reflexivity|].
    cbn [List.filter]. now rewrite Ha. }
  rewrite Hf. cbn [map length].
  rewrite relocate_all_steps. cbn [add_out st_fs st_out negb andb app]. rewrite He.
  cbn [negb]. unfold mbind at 1, M_bind at 1, os_makedirs. rewrite fs_op_run.
  apply String.eqb_neq in Ho. rewrite Ho. cbn [add_out st_fs st_out]. rewrite Hm.
  cbn [print relocate_loop mret M_ret st_fs st_out add_out Z.eqb app].
  unfold add_out. cbn [st_fs st_out app]. now rewrite <- !app_assoc.
Qed.

Lemma X12_late_start_still_creates_output_witness :
  process_directory "in" "out" false (Some "2030/01") false (mk_state ex_fs_images [])
  = (Ret tt,
     mk_state
       (Dir true [("in", Dir true [("a.jpg", File ex_image); ("b.PNG", File ex_image_exif)]);
                  ("out", Dir true [])])
       [Scanning; FoundFrom 0 "2030/01"; CreatedOutputDirectory "out"; ProcessingMediaFiles;
        NoFilesToProcess]).
Proof.
  apply (X12_late_start_still_creates_output ex_fs_images _ "in" "out" "2030/01" false 2030 1).
  - vm_compute. reflexivity.
  - vm_compute. discriminate.
  - discriminate.
  - vm_compute. reflexivity.
  - vm_compute. repeat constructor.
  - vm_compute. reflexivity.
  - discriminate.
  - vm_compute. reflexivity.
Defined.

(** ** What copy mode leaves in place (lines 157-222 and 279-296) *)

Lemma copy_step_preserves (fp out : string) (dry : bool) (s : state) :
  preserves (st_fs s) (st_fs (snd (copy_and_rename_file fp out dry false s))).
Proof.
  destruct (get_file_metadata_shape (st_fs s) fp) as [(d & w & h & Hm)|[out1 Hm]].
  - destruct (generate_hash_ret (st_fs s) fp) as [hx Hh].
    pose proof (hash_fst_pair _ _ _ Hh) as Hh0.
    destruct (os_path_exists (st_fs s) (new_path_of out d w h hx (file_ext_of fp))) eqn:He.
    + rewrite (copy_run_skip _ _ _ dry false _ _ _ _ _ _ Hm Hh0 He). apply preserves_refl.
    + destruct dry.
      * rewrite (copy_run_would _ _ _ false _ _ _ _ _ _ Hm Hh0 He). apply preserves_refl.
      * rewrite (copy_run_live _ _ _ false _ _ _ _ _ _ Hm Hh0 He). cbn [app].
        destruct (new_filename_shape d w h hx (file_ext_of fp)) as [Hs Hc].
        rewrite new_path_of_join in He |- *.
        destruct (relocate_file_copy_cases (add_out s (snd (generate_hash (st_fs s) fp 8))) fp
                    (structured_dir_of out d) _ (os_path_basename fp) Hs Hc He)
          as (r & s' & Hrun & [[-> ->]|[(-> & Ho & Hpr & _)|(-> & Ho & Hpr)]]);
          rewrite Hrun; cbn [snd]; [apply preserves_refl | exact Hpr..].
  - rewrite (copy_run_no_metadata _ _ _ dry false _ Hm). apply preserves_refl.
Qed.

Lemma copy_loop_preserves (out : string) (dry : bool) (mf : list string) :
  forall (s : state) (sc tc : Z),
  preserves (st_fs s) (st_fs (snd (relocate_loop mf out dry false sc tc s))).
Proof.
  induction mf as [|p mf IH]; intros s sc tc; [apply preserves_refl|].
  rewrite relocate_loop_cons. pose proof (copy_step_preserves p out dry s) as Hp.
  destruct (copy_and_rename_file p out dry false s) as [[ok|e] s1]; cbn [snd] in *;
    [|exact Hp].
  eapply preserves_trans; [exact Hp | apply IH].
Qed.

Lemma output_directory_step_preserves (o : string) (dry : bool) (s : state) :
  preserves (st_fs s)
    (st_fs (snd ((if negb dry && negb (os_path_exists (st_fs s) o)
                  then os_makedirs o false;; print (CreatedOutputDirectory o)
                  else mret tt) s))).
Proof.
  destruct (negb dry && negb (os_path_exists (st_fs s) o)); [|apply preserves_refl].
  unfold mbind, M_bind, os_makedirs. rewrite fs_op_run.
  destruct (String.eqb o ""); [apply preserves_refl|].
  destruct (makedirs_at (st_fs s) (components o) false) as [fs1|] eqn:Hm;
    [|apply preserves_refl].
  cbn. eapply makedirs_at_preserves; eauto.
Qed.

(** X13.  In copy mode a run of the batch, dry or live, complete or
    cut short by an error, never changes, replaces or removes a regular
    file that was there before, and every directory stays a directory:
    all it does to the file system is to add directories and files. *)
Theorem X13_copy_mode_only_adds (input output : string) (dry_run : bool)
    (start_year_month : option string) (s : state) :
  preserves (st_fs s)
    (st_fs (snd (process_directory input output dry_run start_year_month false s))).
Proof.
  rewrite process_directory_run.
  destruct (os_path_isdir (st_fs s) input); cbn [negb]; [|apply preserves_refl].
  destruct (collect_metadata (st_fs s) _) as [[|x l] o1]; [apply preserves_refl|].
  destruct (select_media_files start_year_month _) as [[mf|] o2]; [|apply preserves_refl].
  rewrite relocate_all_steps.
  pose proof (output_directory_step_preserves output dry_run
                (add_out s (Scanning :: o1 ++ o2))) as Hstep.
  destruct ((if negb dry_run && negb (os_path_exists _ output)
             then os_makedirs output false;; print (CreatedOutputDirectory output)
             else mret tt) _) as [[[]|e] s1]; cbn [snd add_out st_fs] in Hstep;
    [|exact Hstep].
  pose proof (copy_loop_preserves output dry_run mf (add_out s1 [ProcessingMediaFiles]) 0 0)
    as Hloop.
  destruct (relocate_loop mf output dry_run false 0 0 _) as [[[sc tc]|e] s2];
    cbn [snd add_out st_fs] in *; eapply preserves_trans; eauto.
Qed.

(** ** A year or month directory that cannot be created (lines 208-209) *)

(** X14.  [os.makedirs] stands outside the [try]: when the directory
    for the year and the month cannot be created, the error escapes
    from [copy_and_rename_file] and from the loop, so that the files
    that come after are not handled and no summary is printed.  The
    file system is as it was before the file was handled. *)
Theorem X14_directory_failure_escapes (s : state) (file_path output : string)
    (rest : list string) (in_place : bool) (sc tc : Z)
    (d : datetime) (w h : Z) (hx : string) :
  fst (get_file_metadata (st_fs s) file_path) = (Some d, Some w, Some h) ->
  fst (generate_hash (st_fs s) file_path 8) = Ret hx ->
  os_path_exists (st_fs s) (new_path_of output d w h hx (file_ext_of file_path)) = false ->
  makedirs_at (st_fs s) (components (structured_dir_of output d)) true = None ->
  relocate_loop (file_path :: rest) output false in_place sc tc s
  = (Raise OSError, add_out s (snd (generate_hash (st_fs s) file_path 8))).
Proof.
  intros Hm Hh He Hmk.
  pose proof (metadata_fst_full _ _ _ _ _ Hm) as Hm0.
  pose proof (hash_fst_pair _ _ _ Hh) as Hh0.
  rewrite relocate_loop_cons, (copy_run_live _ _ _ in_place _ _ _ _ _ _ Hm0 Hh0 He).
  rewrite relocate_file_run. cbn [add_out st_fs app]. rewrite Hmk.
  now destruct (String.eqb _ "").
Qed.

Lemma X14_directory_failure_escapes_witness :
  relocate_loop ["in/a.jpg"; "in/never.jpg"] "out" false false 0 0 (mk_state ex_fs_blocked [])
  = (Raise OSError,
     add_out (mk_state ex_fs_blocked []) (snd (generate_hash ex_fs_blocked "in/a.jpg" 8))).
Proof.
  apply (X14_directory_failure_escapes (mk_state ex_fs_blocked []) "in/a.jpg" "out"
           ["in/never.jpg"] false 0 0 (mk_datetime 2023 6 15 10 0 0 123456) 640 480 "90015098").
  - vm_compute. reflexivity.
  - vm_compute. reflexivity.
  - vm_compute. reflexivity.
  - vm_compute. reflexivity.
Defined.

(** ** Files with the same content (lines 186-193) *)

(** X15.  Two files with the same capture time, dimensions, content
    hash and lower-cased extension have one destination: once the
    first has been relocated or found in place, the second is reported
    as already existing and counted as a success, and the file system
    is not touched, so that in move mode the second file stays where it
    is. *)
Theorem X15_same_content_is_skipped (s s1 : state) (p q output : string) (in_place : bool)
    (d : datetime) (w h : Z) (hx : string) :
  fst (get_file_metadata (st_fs s) p) = (Some d, Some w, Some h) ->
  fst (generate_hash (st_fs s) p 8) = Ret hx ->
  copy_and_rename_file p output false in_place s = (Ret true, s1) ->
  fst (get_file_metadata (st_fs s1) q) = (Some d, Some w, Some h) ->
  fst (generate_hash (st_fs s1) q 8) = Ret hx ->
  file_ext_of q = file_ext_of p ->
  copy_and_rename_file q output false in_place s1
  = (Ret true,
     add_out s1 (snd (generate_hash (st_fs s1) q 8)
                 ++ [Skipped (os_path_basename q)
                       (new_path_of output d w h hx (file_ext_of p))])).
Proof.
  intros Hm Hh Hrun Hm' Hh' Hext.
  pose proof (metadata_fst_full _ _ _ _ _ Hm) as Hm0.
  pose proof (hash_fst_pair _ _ _ Hh) as Hh0.
  pose proof (metadata_fst_full _ _ _ _ _ Hm') as Hm0'.
  pose proof (hash_fst_pair _ _ _ Hh') as Hh0'.
  assert (He1 : os_path_exists (st_fs s1) (new_path_of output d w h hx (file_ext_of p)) = true).
  { destruct (os_path_exists (st_fs s) (new_path_of output d w h hx (file_ext_of p))) eqn:He.
    - rewrite (copy_run_skip _ _ _ false in_place _ _ _ _ _ _ Hm0 Hh0 He) in Hrun.
      injection Hrun as <-. exact He.
    - rewrite (copy_run_live _ _ _ in_place _ _ _ _ _ _ Hm0 Hh0 He) in Hrun.
      cbn [app] in Hrun.
      destruct (new_filename_shape d w h hx (file_ext_of p)) as [Hs Hc].
      rewrite new_path_of_join in He, Hrun |- *.
      destruct (relocate_file_lands (add_out s (snd (generate_hash (st_fs s) p 8)))
                  _ _ _ _ _ _ Hs Hc He Hrun) as (_ & f & _ & Hf).
      unfold os_path_exists. now rewrite Hf. }
  rewrite <- Hext in He1 |- *.
  exact (copy_run_skip _ _ _ false in_place _ _ _ _ _ _ Hm0' Hh0' He1).
Qed.

Lemma X15_same_content_is_skipped_witness :
  copy_and_rename_file "in/b.JPG" "out" false false
    (snd (copy_and_rename_file "in/a.jpg" "out" false false (mk_state ex_fs_twins [])))
  = (Ret true,
     add_out (snd (copy_and_rename_file "in/a.jpg" "out" false false (mk_state ex_fs_twins [])))
       (snd (generate_hash
               (st_fs (snd (copy_and_rename_file "in/a.jpg" "out" false false
                              (mk_state ex_fs_twins []))))
               "in/b.JPG" 8)
        ++ [Skipped (os_path_basename "in/b.JPG")
              (new_path_of "out" (mk_datetime 2023 6 15 10 0 0 123456) 640 480 "90015098"
                 (file_ext_of "in/a.jpg"))])).
Proof.
  apply (X15_same_content_is_skipped (mk_state ex_fs_twins []) _ "in/a.jpg" "in/b.JPG" "out"
           false (mk_datetime 2023 6 15 10 0 0 123456) 640 480 "90015098").
  - vm_compute. reflexivity.
  - vm_compute. reflexivity.
  - vm_compute. reflexivity.
  - vm_compute. reflexivity.
  - vm_compute. reflexivity.
  - vm_compute. reflexivity.
Defined.

(** ** The command line (lines 299-337) *)

(** X16.  An input path that does not exist or is no directory ends
    the program with exit status 1 after one line; nothing is asked
    and nothing is changed. *)
Theorem X16_main_rejects_bad_input (a : args.t) (stdin : option string) (fs : node) :
  os_path_isdir fs (args.input_path a) = false ->
  exists l,
    main a stdin fs = (SystemExit 1, fs, [l]) /\
    (l = InputPathNotFound (args.input_path a) \/
     l = InputPathNotDirectory (args.input_path a)).
Proof.
  intros Hd. unfold main. rewrite Hd.
  destruct (os_path_exists fs (args.input_path a)); cbn [negb]; eauto.
Qed.

Lemma X16_main_rejects_bad_input_witness :
  exists l,
    main (args.mk "photos/a.JPG" None false None false) None ex_fs = (SystemExit 1, ex_fs, [l]) /\
    (l = InputPathNotFound "photos/a.JPG" \/ l = InputPathNotDirectory "photos/a.JPG").
Proof.
  apply (X16_main_rejects_bad_input (args.mk "photos/a.JPG" None false None false) None ex_fs).
  vm_compute. reflexivity.
Defined.

Lemma run_batch_dry_run (a : args.t) (fs : node) (printed : list main_line) :
  args.dry_run a = true -> snd (fst (run_batch a fs printed)) = fs.
Proof.
  intros Hd. unfold run_batch. rewrite Hd.
  pose proof (process_directory_dry_run_keeps_fs (args.input_path a) (output_directory_of a)
                (args.from_date a) (args.in_place a) (mk_state fs [])) as H.
  destruct (process_directory _ _ _ _ _ _) as [r s]. exact H.
Qed.

Lemma main_dry_run_keeps_fs (a : args.t) (stdin : option string) (fs : node) :
  args.dry_run a = true -> snd (fst (main a stdin fs)) = fs.
Proof.
  intros Hd. unfold main. rewrite Hd. cbn [negb]. rewrite andb_false_r.
  destruct (negb (os_path_exists fs (args.input_path a))); [reflexivity|].
  destruct (negb (os_path_isdir fs (args.input_path a))); [reflexivity|].
  destruct (args.in_place a); now apply run_batch_dry_run.
Qed.

(** X17.  With [--dry-run] the program never reads an answer, whether
    the output directory exists or not, and it leaves the file system
    as it found it. *)
Theorem X17_main_dry_run_asks_and_changes_nothing (a : args.t) (stdin : option string)
    (fs : node) :
  args.dry_run a = true ->
  main a stdin fs = main a None fs /\ snd (fst (main a stdin fs)) = fs.
Proof.
  intros Hd. split; [|now apply main_dry_run_keeps_fs].
  unfold main. rewrite Hd. cbn [negb]. now rewrite andb_false_r.
Qed.

Lemma X17_main_dry_run_asks_and_changes_nothing_witness :
  main (args.mk "photos" None true None false) (Some "n") ex_fs
  = main (args.mk "photos" None true None false) None ex_fs /\
  snd (fst (main (args.mk "photos" None true None false) (Some "n") ex_fs)) = ex_fs.
Proof.
  apply (X17_main_dry_run_asks_and_changes_nothing
           (args.mk "photos" None true None false) (Some "n") ex_fs).
  reflexivity.
Defined.



(** X19.  The program changes the file system only in a live run on an
    input that is a directory, and then only when it moves in place,
    when the output directory does not exist yet, or when the question
    whether to continue was answered with [y] or [Y]. *)
Theorem X19_main_changes_only_with_consent (a : args.t) (stdin : option string) (fs : node) :
  snd (fst (main a stdin fs)) <> fs ->
  args.dry_run a = false /\
  os_path_isdir fs (args.input_path a) = true /\
  (args.in_place a = true \/
   os_path_exists fs (output_directory_of a) = false \/
   exists response, stdin = Some response /\ lower response = "y").
Proof.
  intros Hch.
  destruct (args.dry_run a) eqn:Hd.
  { now rewrite main_dry_run_keeps_fs in Hch. }
  split; [reflexivity|]. unfold main in Hch. rewrite Hd in Hch.
  destruct (os_path_exists fs (args.input_path a)); cbn [negb] in Hch;
    [|now destruct Hch].
  destruct (os_path_isdir fs (args.input_path a)); cbn [negb] in Hch;
    [|now destruct Hch].
  split; [reflexivity|].
  destruct (args.in_place a); [now left|]. right.
  destruct (os_path_exists fs (output_directory_of a)); [|now left]. right.
  cbn [andb] in Hch. destruct stdin as [response|]; [|now destruct Hch].
  exists response. split; [reflexivity|].
  destruct (String.eqb (lower response) "y") eqn:E; cbn [negb] in Hch;
    [now apply String.eqb_eq | now destruct Hch].
Qed.

Lemma X19_main_changes_only_with_consent_witness :
  args.dry_run (args.mk "in" None false None false) = false /\
  os_path_isdir ex_fs_images (args.input_path (args.mk "in" None false None false)) = true /\
  (args.in_place (args.mk "in" None false None false) = true \/
   os_path_exists ex_fs_images (output_directory_of (args.mk "in" None false None false))
   = false \/
   exists response, None = Some response /\ lower response = "y").
Proof.
  apply (X19_main_changes_only_with_consent (args.mk "in" None false None false) None
           ex_fs_images).
  vm_compute. discriminate.
Defined.

(** ** The destination stays below the year and the month (lines 177-184) *)

Lemma contains_char_app (c : ascii) (a b : string) :
  contains_char c (a +:+ b) = contains_char c a || contains_char c b.
Proof.
  induction a as [|x a IH]; [now rewrite str_app_nil|].
  rewrite str_app_cons. cbn [contains_char]. now rewrite IH, orb_assoc.
Qed.

Lemma str_forallb_no_char (p : ascii -> bool) (c : ascii) (s : string) :
  p c = false -> str_forallb p s = true -> contains_char c s = false.
Proof.
  intros Hc. induction s as [|x s IH]; [reflexivity|]. cbn [str_forallb contains_char].
  intros H. apply andb_true_iff in H as [Hx Hs]. rewrite (IH Hs), orb_false_r.
  destruct (Ascii.eqb c x) eqn:E; [|reflexivity].
  apply Ascii.eqb_eq in E. subst x. congruence.
Qed.

Lemma contains_char_take (c : ascii) (n : nat) : forall s,
  contains_char c s = false -> contains_char c (str_take n s) = false.
Proof.
  induction n as [|n IH]; intros [|x s]; cbn [str_take contains_char]; try reflexivity.
  intros H. apply orb_false_iff in H as [-> Hs]. now rewrite IH.
Qed.

Lemma contains_char_drop (c : ascii) (n : nat) : forall s,
  contains_char c s = false -> contains_char c (str_drop n s) = false.
Proof.
  induction n as [|n IH]; intros [|x s]; cbn [str_drop]; try (intros H; exact H).
  cbn [contains_char]. intros H. apply orb_false_iff in H as [_ Hs]. now apply IH.
Qed.

Lemma split_plain (c : ascii) (s : string) :
  contains_char c s = false -> split c s = [s].
Proof.
  induction s as [|x s IH]; [reflexivity|]. cbn [contains_char split].
  intros H. apply orb_false_iff in H as [Hx Hs]. rewrite Ascii.eqb_sym, Hx.
  now rewrite (IH Hs).
Qed.

Lemma components_plain (s : string) :
  contains_char "/" s = false -> s <> "" -> s <> "." -> components s = [s].
Proof.
  intros H H1 H2. unfold components. rewrite (split_plain _ _ H). cbn [List.filter].
  apply String.eqb_neq in H1, H2. now rewrite H1, H2.
Qed.

Lemma digits_no_sep (k : nat) (n : Z) : contains_char "/" (digits k n) = false.
Proof. apply (str_forallb_no_char is_digit); [reflexivity | apply digits_all_digit]. Qed.

Lemma str_nonneg_no_sep (n : Z) : 0 <= n -> contains_char "/" (str_nonneg n) = false.
Proof.
  intros H. unfold str_nonneg.
  destruct (str_aux_digits (Z.to_nat (Z.log2 n)) n "" (conj H (log2_fuel n H)))
    as (m & _ & _ & _ & ->).
  rewrite str_app_empty_r. apply digits_no_sep.
Qed.

Lemma str_int_no_sep (n : Z) : contains_char "/" (str_int n) = false.
Proof.
  unfold str_int. destruct (n <? 0) eqn:E.
  - cbn [contains_char]. apply Z.ltb_lt in E. now rewrite str_nonneg_no_sep by lia.
  - apply Z.ltb_ge in E. now apply str_nonneg_no_sep.
Qed.

Lemma str_drop_0 (s : string) : str_drop 0 s = s.
Proof. now destruct s. Qed.

Lemma rfind_from_spec (c : ascii) (s : string) : forall i,
  match rfind_from c s i with
  | Some j => (i <= j)%nat /\ contains_char c (str_drop (S (j - i)) s) = false
  | None => contains_char c s = false
  end.
Proof.
  induction s as [|x s IH]; intros i; cbn [rfind_from]; [reflexivity|].
  specialize (IH (S i)). destruct (rfind_from c s (S i)) as [j|].
  - destruct IH as [Hle Hn]. split; [lia|].
    replace (S (j - i)) with (S (S (j - S i))) by lia. exact Hn.
  - destruct (Ascii.eqb c x) eqn:E.
    + split; [lia|]. rewrite Nat.sub_diag. cbn [str_drop]. rewrite ?str_drop_0. exact IH.
    + cbn [contains_char]. now rewrite E, IH.
Qed.

Lemma basename_no_sep (p : string) : contains_char "/" (os_path_basename p) = false.
Proof.
  unfold os_path_basename, rfind. pose proof (rfind_from_spec "/" p 0) as H.
  destruct (rfind_from "/" p 0) as [j|].
  - destruct H as [_ H]. rewrite Nat.sub_0_r in H.
    replace (Z.to_nat (Z.of_nat j + 1)) with (S j) by lia. exact H.
  - change (Z.to_nat (-1 + 1)) with 0%nat. rewrite str_drop_0. exact H.
Qed.

Lemma splitext_ext_no_sep (f : string) :
  contains_char "/" f = false -> contains_char "/" (snd (os_path_splitext f)) = false.
Proof.
  intros H. unfold os_path_splitext.
  destruct (_ <? _); [|reflexivity].
  destruct (str_forallb _ _); [reflexivity|]. cbn [snd]. now apply contains_char_drop.
Qed.

Lemma lower_char_sep (c : ascii) : Ascii.eqb "/" (lower_char c) = Ascii.eqb "/" c.
Proof. destruct c as [[] [] [] [] [] [] [] []]; reflexivity. Qed.

Lemma lower_no_sep (s : string) : contains_char "/" (lower s) = contains_char "/" s.
Proof.
  induction s as [|x s IH]; [reflexivity|]. cbn [lower contains_char].
  now rewrite lower_char_sep, IH.
Qed.

Lemma file_ext_of_no_sep (p : string) : contains_char "/" (file_ext_of p) = false.
Proof.
  unfold file_ext_of. rewrite lower_no_sep. apply splitext_ext_no_sep, basename_no_sep.
Qed.

Lemma generate_hash_no_sep (fs : node) (p hx : string) :
  fst (generate_hash fs p 8) = Ret hx -> contains_char "/" hx = false.
Proof.
  rewrite generate_hash_cases. destruct (open_rb fs p) as [f|e]; cbn [fst]; intros H.
  2:{ assert (E : hx = "00000000") by congruence. now rewrite E. }
  assert (E : hx = str_take 8 (md5_hexdigest (f_bytes f))) by congruence. rewrite E.
  apply (str_forallb_no_char is_lower_hex); [reflexivity|].
  apply str_forallb_take, hex_of_bytes_lower_hex.
Qed.

Lemma new_filename_no_sep (d : datetime) (w h : Z) (hx e : string) :
  valid_datetime d = true ->
  contains_char "/" hx = false -> contains_char "/" e = false ->
  contains_char "/" (new_filename_of d w h hx e) = false.
Proof.
  intros Hv Hh He. rewrite (new_filename_of_spec _ _ _ _ _ Hv). unfold spec_stem.
  rewrite !contains_char_app, !digits_no_sep, !str_int_no_sep, Hh, He.
  rewrite (contains_char_take _ _ _ (digits_no_sep 6 (microsecond d))). reflexivity.
Qed.

Lemma new_filename_single (d : datetime) (w h : Z) (hx e : string) :
  valid_datetime d = true ->
  contains_char "/" hx = false -> contains_char "/" e = false ->
  components (new_filename_of d w h hx e) = [new_filename_of d w h hx e].
Proof.
  intros Hv Hh He. apply components_plain; [now apply new_filename_no_sep| |].
  - destruct (new_filename_first d w h hx e) as (c & r & -> & _). discriminate.
  - destruct (new_filename_first d w h hx e) as (c & r & -> & [Hc| ->]); [|discriminate].
    intros [= -> _]. discriminate Hc.
Qed.

Lemma english_month_single (m : Z) :
  1 <= m <= 12 -> components (english_month m) = [english_month m].
Proof.
  intros H.
  assert (Hm : m = 1 \/ m = 2 \/ m = 3 \/ m = 4 \/ m = 5 \/ m = 6 \/ m = 7 \/ m = 8 \/
               m = 9 \/ m = 10 \/ m = 11 \/ m = 12) by lia.
  repeat (destruct Hm as [->|Hm]; [reflexivity|]). now subst m.
Qed.

Lemma digits_single (k : nat) (n : Z) : components (digits (S k) n) = [digits (S k) n].
Proof.
  apply components_plain; [apply digits_no_sep|discriminate|].
  rewrite digits_S. intros [= Hc _].
  pose proof (digit_char_is_digit (n / 10 ^ Z.of_nat k)) as Hd. rewrite Hc in Hd.
  discriminate Hd.
Qed.

Lemma strftime_year_digits (d : datetime) :
  valid_datetime d = true -> strftime d "%Y" = digits 4 (year d).
Proof.
  intros Hv. apply valid_datetime_bounds in Hv as (Hy & _).
  rewrite strftime_year, str_app_empty_r. apply format_0d_digits; lia.
Qed.

Lemma strftime_month_english (d : datetime) :
  valid_datetime d = true -> strftime d "%B" = english_month (month d).
Proof.
  intros Hv. apply valid_datetime_bounds in Hv as (_ & Hm & _).
  rewrite strftime_month, str_app_empty_r. now apply month_name_english.
Qed.

Lemma new_path_components (out : string) (d : datetime) (w h : Z) (hx e : string) :
  valid_datetime d = true ->
  contains_char "/" hx = false -> contains_char "/" e = false ->
  components (structured_dir_of out d) = components out ++ [strftime d "%Y"; strftime d "%B"] /\
  components (new_path_of out d w h hx e)
  = components out ++ [strftime d "%Y"; strftime d "%B"; new_filename_of d w h hx e].
Proof.
  intros Hv Hh He.
  pose proof (valid_datetime_bounds _ Hv) as (_ & Hm & _).
  assert (Hsd : components (structured_dir_of out d)
                = components out ++ [strftime d "%Y"; strftime d "%B"]).
  { rewrite (structured_dir_of_spec _ _ Hv), (strftime_year_digits _ Hv),
      (strftime_month_english _ Hv).
    rewrite components_as_directory. f_equal.
    change (digits 4 (year d) +:+ "/" +:+ english_month (month d))
      with (digits 4 (year d) +:+ String "/" ("" +:+ english_month (month d))).
    rewrite str_app_nil, components_app_sep, digits_single, (english_month_single _ Hm).
    reflexivity. }
  split; [exact Hsd|].
  rewrite new_path_of_join. cbn [os_path_join fold_left].
  destruct (new_filename_shape d w h hx e) as [Hs _].
  rewrite (components_join2 _ _ Hs), Hsd, (new_filename_single _ _ _ _ _ Hv Hh He).
  now rewrite <- app_assoc.
Qed.

(** X20.  Whatever the name of the source file, a destination computed
    for a valid capture time lies exactly three components below the
    output directory: the year, the month, and a file name that
    contains no separator.  Neither the extension taken from the source
    name nor the hash can lead the relocation elsewhere. *)
Theorem X20_destination_three_below_output (fs : node) (file_path output_dir : string)
    (d : datetime) (w h : Z) (hx : string) :
  valid_datetime d = true ->
  fst (generate_hash fs file_path 8) = Ret hx ->
  contains_char "/" (new_filename_of d w h hx (file_ext_of file_path)) = false /\
  components (new_path_of output_dir d w h hx (file_ext_of file_path))
  = components output_dir
    ++ [strftime d "%Y"; strftime d "%B";
        new_filename_of d w h hx (file_ext_of file_path)].
Proof.
  intros Hv Hh. pose proof (generate_hash_no_sep _ _ _ Hh) as Hx.
  pose proof (file_ext_of_no_sep file_path) as He.
  split; [now apply new_filename_no_sep|].
  now apply new_path_components.
Qed.

Lemma X20_destination_three_below_output_witness :
  components (new_path_of "some/out/" (mk_datetime 2023 6 15 10 0 0 123456) 640 480 "90015098"
                (file_ext_of "photos/a.JPG"))
  = components "some/out/"
    ++ [strftime (mk_datetime 2023 6 15 10 0 0 123456) "%Y";
        strftime (mk_datetime 2023 6 15 10 0 0 123456) "%B";
        new_filename_of (mk_datetime 2023 6 15 10 0 0 123456) 640 480 "90015098"
          (file_ext_of "photos/a.JPG")].
Proof.
  apply (X20_destination_three_below_output ex_fs "photos/a.JPG" "some/out/"
           (mk_datetime 2023 6 15 10 0 0 123456) 640 480 "90015098").
  - reflexivity.
  - vm_compute. reflexivity.
Defined.

(** ** A copy that fails (lines 211-222) *)

Lemma assoc_set_id {A} (k : string) (v : A) (es : list (string * A)) :
  assoc k es = Some v -> assoc_set k v es = es.
Proof.
  induction es as [|[k' v'] es IH]; [discriminate|]. cbn [assoc assoc_set].
  destruct (String.eqb k k') eqn:E.
  - intros [= ->]. apply String.eqb_eq in E. now subst k'.
  - intros H. now rewrite IH.
Qed.

Lemma makedirs_at_existing (cs : list string) : forall (n : node) (w : bool)
    (es : list (string * node)),
  lookup_path n cs = Some (Dir w es) -> makedirs_at n cs true = Some n.
Proof.
  induction cs as [|c cs IH]; intros n w es H.
  - cbn in H. injection H as ->. reflexivity.
  - rewrite lookup_path_cons in H. destruct n as [f|w0 es0]; [discriminate|].
    cbn [makedirs_at]. destruct (assoc c es0) as [ch|] eqn:Ea; [|discriminate].
    rewrite (IH _ _ _ H). cbn. now rewrite (assoc_set_id _ _ _ Ea).
Qed.

Lemma create_at_unwritable (cs : list string) : forall (n x : node) (c : string)
    (es : list (string * node)),
  lookup_path n cs = Some (Dir false es) -> create_at n (cs ++ [c]) x = None.
Proof.
  unfold create_at. induction cs as [|a cs IH]; intros n x c es H.
  - cbn in H. injection H as ->. cbn. now destruct (assoc c es).
  - rewrite lookup_path_cons in H. destruct n as [f|w0 es0]; [discriminate|].
    destruct (assoc a es0) as [ch|] eqn:Ea; [|discriminate].
    cbn [app with_parent]. specialize (IH ch x c es H).
    destruct (cs ++ [c]) as [|b r] eqn:E; [now destruct cs|].
    rewrite Ea. cbn [mbind option_bind]. now rewrite IH.
Qed.

(** X21.  When the directory of the year and month exists but does not
    allow new entries, a live copy fails inside the [try]: the file is
    reported with the error line, [False] is returned, so that the loop
    goes on with the next file, and the file system is as it was. *)
Theorem X21_copy_failure_is_reported (s : state) (file_path output_dir : string)
    (d : datetime) (w h : Z) (hx : string) (es : list (string * node)) :
  fst (get_file_metadata (st_fs s) file_path) = (Some d, Some w, Some h) ->
  fst (generate_hash (st_fs s) file_path 8) = Ret hx ->
  valid_datetime d = true ->
  os_path_exists (st_fs s) (new_path_of output_dir d w h hx (file_ext_of file_path)) = false ->
  resolve (st_fs s) (structured_dir_of output_dir d) = Some (Dir false es) ->
  copy_and_rename_file file_path output_dir false false s
  = (Ret false,
     add_out s (snd (generate_hash (st_fs s) file_path 8)
                ++ [ErrorOperation OpCopy (os_path_basename file_path)])).
Proof.
  intros Hm Hh Hv He Hsd.
  pose proof (metadata_fst_full _ _ _ _ _ Hm) as Hm0.
  pose proof (hash_fst_pair _ _ _ Hh) as Hh0.
  rewrite (copy_run_live _ _ _ false _ _ _ _ _ _ Hm0 Hh0 He), relocate_file_run.
  cbn [app add_out st_fs st_out].
  apply resolve_lookup in Hsd as [Hne Hl]. apply String.eqb_neq in Hne. rewrite Hne.
  rewrite (makedirs_at_existing _ _ _ _ Hl).
  assert (Hc : shutil_copy2 file_path (new_path_of output_dir d w h hx (file_ext_of file_path))
                 (mk_state (st_fs s) (st_out s ++ snd (generate_hash (st_fs s) file_path 8)))
               = (Raise OSError,
                  mk_state (st_fs s)
                    (st_out s ++ snd (generate_hash (st_fs s) file_path 8)))).
  { unfold shutil_copy2. rewrite fs_op_run. cbn [st_fs].
    match goal with |- match ?g with _ => _ end = _ => assert (Hg : g = None) end;
      [|now rewrite Hg].
    destruct (resolve (st_fs s) file_path) as [[f|w0 es0]|]; [|reflexivity..].
    destruct (f_readable f); [|reflexivity].
    unfold os_path_isdir, os_path_exists in *.
    destruct (resolve (st_fs s) (new_path_of _ _ _ _ _ _)) eqn:Er; [discriminate|].
    cbn zeta.
    destruct (String.eqb (new_path_of output_dir d w h hx (file_ext_of file_path)) "");
      [reflexivity|].
    destruct (bool_decide _); [reflexivity|]. rewrite Er.
    destruct (new_path_components output_dir d w h hx (file_ext_of file_path) Hv
                (generate_hash_no_sep _ _ _ Hh) (file_ext_of_no_sep file_path)) as [Hc1 Hc2].
    rewrite Hc2. rewrite Hc1 in Hl.
    replace (components output_dir
             ++ [strftime d "%Y"; strftime d "%B";
                 new_filename_of d w h hx (file_ext_of file_path)])
      with ((components output_dir ++ [strftime d "%Y"; strftime d "%B"])
            ++ [new_filename_of d w h hx (file_ext_of file_path)])
      by now rewrite <- app_assoc.
    now apply (create_at_unwritable _ _ _ _ es). }
  rewrite Hc. unfold add_out. cbn [st_fs st_out operation_of]. now rewrite <- app_assoc.
Qed.

Lemma X21_copy_failure_is_reported_witness :
  copy_and_rename_file "in/a.jpg" "out" false false (mk_state ex_fs_locked [])
  = (Ret false,
     add_out (mk_state ex_fs_locked [])
       (snd (generate_hash ex_fs_locked "in/a.jpg" 8)
        ++ [ErrorOperation OpCopy (os_path_basename "in/a.jpg")])).
Proof.
  apply (X21_copy_failure_is_reported (mk_state ex_fs_locked []) "in/a.jpg" "out"
           (mk_datetime 2023 6 15 10 0 0 123456) 640 480 "90015098" []).
  - vm_compute. reflexivity.
  - vm_compute. reflexivity.
  - reflexivity.
  - vm_compute. reflexivity.
  - vm_compute. reflexivity.
Defined.

(** ** Moving in place (lines 212-214) *)

Lemma str_in_In (x : string) (l : list string) : str_in x l = true <-> In x l.
Proof.
  induction l as [|y l IH]; cbn [str_in In]; [split; [discriminate | tauto]|].
  rewrite orb_true_iff, IH. split; intros [H|H]; auto.
  - left. symmetry. now apply String.eqb_eq.
  - left. subst. apply String.eqb_refl.
Qed.

Lemma assoc_None_names {A} (k : string) (es : list (string * A)) :
  assoc k es = None <-> str_in k (map fst es) = false.
Proof.
  induction es as [|[k' v] es IH]; cbn [assoc map fst str_in]; [tauto|].
  destruct (String.eqb k k'); cbn [orb]; [split; discriminate | exact IH].
Qed.

Lemma distinct_names_dir (w : bool) (es : list (string * node)) :
  distinct_names (Dir w es) = true <->
  names_distinct (map fst es) = true /\ Forall (fun e => distinct_names (snd e) = true) es.
Proof.
  cbn [distinct_names]. rewrite andb_true_iff.
  assert (H : (fix all (l : list (string * node)) : bool :=
                 match l with
                 | [] => true
                 | (_, ch) :: l' => distinct_names ch && all l'
                 end) es = true <-> Forall (fun e => distinct_names (snd e) = true) es).
  { induction es as [|[c ch] es IH]; [split; [constructor | reflexivity]|].
    rewrite andb_true_iff, IH. split.
    - intros [H1 H2]. now constructor.
    - intros H. inversion H; subst. auto. }
  now rewrite H.
Qed.

Lemma assoc_In {A} (k : string) (v : A) (es : list (string * A)) :
  assoc k es = Some v -> In (k, v) es.
Proof.
  induction es as [|[k' v'] es IH]; [discriminate|]. cbn [assoc].
  destruct (String.eqb k k') eqn:E.
  - intros [= ->]. apply String.eqb_eq in E. subst. now left.
  - intros H. right. auto.
Qed.

Lemma distinct_names_child (w : bool) (es : list (string * node)) (c : string) (ch : node) :
  distinct_names (Dir w es) = true -> assoc c es = Some ch -> distinct_names ch = true.
Proof.
  intros H Ha. apply distinct_names_dir in H as [_ H].
  rewrite List.Forall_forall in H. exact (H _ (assoc_In _ _ _ Ha)).
Qed.

Lemma map_fst_assoc_set {A} (c : string) (v v' : A) (es : list (string * A)) :
  assoc c es = Some v -> map fst (assoc_set c v' es) = map fst es.
Proof.
  induction es as [|[k x] es IH]; [discriminate|]. cbn [assoc assoc_set].
  destruct (String.eqb c k) eqn:E.
  - intros _. apply String.eqb_eq in E. now subst.
  - intros H. cbn [map fst]. now rewrite IH.
Qed.

Lemma Forall_assoc_set {A} (P : string * A -> Prop) (c : string) (v : A)
    (es : list (string * A)) :
  Forall P es -> P (c, v) -> Forall P (assoc_set c v es).
Proof.
  intros H Hv. induction H as [|[k x] es Hx Hes IH]; cbn [assoc_set]; [now repeat constructor|].
  destruct (String.eqb c k); constructor; auto.
Qed.

Lemma distinct_names_set_child (w : bool) (es : list (string * node)) (c : string)
    (ch ch' : node) :
  distinct_names (Dir w es) = true -> assoc c es = Some ch -> distinct_names ch' = true ->
  distinct_names (Dir w (assoc_set c ch' es)) = true.
Proof.
  intros H Ha Hc. apply distinct_names_dir in H as [H1 H2]. apply distinct_names_dir.
  rewrite (map_fst_assoc_set _ _ _ _ Ha). split; [exact H1|].
  now apply Forall_assoc_set.
Qed.

Lemma names_distinct_snoc (l : list string) (c : string) :
  names_distinct l = true -> str_in c l = false -> names_distinct (l ++ [c]) = true.
Proof.
  induction l as [|x l IH]; [reflexivity|]. cbn [names_distinct str_in app].
  intros H Hc. apply andb_true_iff in H as [Hx Hl].
  apply orb_false_iff in Hc as [Hcx Hcl]. rewrite (IH Hl Hcl), andb_true_r.
  apply negb_true_iff in Hx. apply negb_true_iff.
  destruct (str_in x (l ++ [c])) eqn:E; [|reflexivity].
  apply str_in_In, in_app_or in E as [E|[E|[]]].
  - apply str_in_In in E. congruence.
  - subst c. now rewrite String.eqb_refl in Hcx.
Qed.

Lemma distinct_names_new_entry (w : bool) (es : list (string * node)) (c : string) (x : node) :
  distinct_names (Dir w es) = true -> assoc c es = None -> distinct_names x = true ->
  distinct_names (Dir w (es ++ [(c, x)])) = true.
Proof.
  intros H Ha Hx. apply distinct_names_dir in H as [H1 H2]. apply distinct_names_dir.
  rewrite map_app. cbn [map fst]. split.
  - apply names_distinct_snoc; [exact H1 | now apply assoc_None_names].
  - apply Forall_app. split; [exact H2 | now repeat constructor].
Qed.

Lemma makedirs_fresh_distinct (cs : list string) : forall n',
  makedirs_at (Dir true []) cs true = Some n' -> distinct_names n' = true.
Proof.
  induction cs as [|c cs IH]; intros n' H; cbn [makedirs_at] in H.
  - now injection H as <-.
  - cbn [assoc] in H. destruct (makedirs_at (Dir true []) cs true) as [ch|] eqn:E;
      [|discriminate].
    cbn in H. injection H as <-. cbn. now rewrite (IH _ eq_refl).
Qed.

Lemma makedirs_at_distinct (cs : list string) : forall (n n' : node) (ok : bool),
  makedirs_at n cs ok = Some n' -> distinct_names n = true -> distinct_names n' = true.
Proof.
  induction cs as [|c cs IH]; intros n n' ok H Hd; cbn [makedirs_at] in H.
  - destruct n as [f|w es]; [discriminate|]. destruct ok; [|discriminate]. now injection H as <-.
  - destruct n as [f|w es]; [discriminate|]. destruct (assoc c es) as [ch|] eqn:Ea.
    + destruct (makedirs_at ch cs ok) as [ch'|] eqn:E; [|discriminate].
      cbn in H. injection H as <-.
      apply (distinct_names_set_child _ _ _ ch); auto.
      eapply IH; eauto. eapply distinct_names_child; eauto.
    + destruct w; [|discriminate].
      destruct (makedirs_at (Dir true []) cs true) as [ch'|] eqn:E; [|discriminate].
      cbn in H. injection H as <-.
      apply distinct_names_new_entry; auto. now apply (makedirs_fresh_distinct cs).
Qed.

Lemma create_at_distinct (cs : list string) : forall (n n' : node) (f : file),
  create_at n cs (File f) = Some n' -> distinct_names n = true -> distinct_names n' = true.
Proof.
  unfold create_at. induction cs as [|c cs IH]; intros n n' f H Hd; [discriminate|].
  cbn [with_parent] in H. destruct n as [g|w es]; [discriminate|].
  destruct cs as [|c' cs].
  - destruct (assoc c es) eqn:Ea; [discriminate|]. destruct w; [|discriminate].
    cbn in H. injection H as <-. now apply distinct_names_new_entry.
  - destruct (assoc c es) as [ch|] eqn:Ea; [|discriminate]. cbn [mbind option_bind] in H.
    destruct (with_parent ch (c' :: cs) _) as [ch'|] eqn:E; [|discriminate].
    cbn in H. injection H as <-.
    apply (distinct_names_set_child _ _ _ ch); auto.
    eapply IH; eauto. eapply distinct_names_child; eauto.
Qed.

Lemma assoc_del_same {A} (c : string) (es : list (string * A)) :
  names_distinct (map fst es) = true -> assoc c (assoc_del c es) = None.
Proof.
  induction es as [|[k v] es IH]; [reflexivity|]. cbn [map fst names_distinct assoc_del].
  intros H. apply andb_true_iff in H as [Hk Hes]. destruct (String.eqb c k) eqn:E.
  - apply String.eqb_eq in E. subst k. apply assoc_None_names. now apply negb_true_iff.
  - cbn [assoc]. rewrite E. auto.
Qed.

(** After a removal nothing is found at the path or below it. *)
Lemma remove_at_gone (cs : list string) : forall (n n' : node) (r : list string),
  remove_at n cs = Some n' -> distinct_names n = true -> lookup_path n' (cs ++ r) = None.
Proof.
  unfold remove_at. induction cs as [|c cs IH]; intros n n' r H Hd; [discriminate|].
  cbn [with_parent] in H. destruct n as [g|w es]; [discriminate|].
  destruct cs as [|c' cs].
  - destruct (assoc c es) eqn:Ea; [|discriminate]. destruct w; [|discriminate].
    cbn in H. injection H as <-. cbn [app]. rewrite lookup_path_cons.
    apply distinct_names_dir in Hd as [Hd _]. now rewrite (assoc_del_same _ _ Hd).
  - destruct (assoc c es) as [ch|] eqn:Ea; [|discriminate]. cbn [mbind option_bind] in H.
    destruct (with_parent ch (c' :: cs) _) as [ch'|] eqn:E; [|discriminate].
    cbn in H. injection H as <-.
    change ((c :: c' :: cs) ++ r) with (c :: ((c' :: cs) ++ r)).
    rewrite lookup_path_cons, assoc_set_same.
    eapply IH; eauto. eapply distinct_names_child; eauto.
Qed.

Lemma remove_at_distinct (cs : list string) : forall (n n' : node),
  remove_at n cs = Some n' -> distinct_names n = true -> distinct_names n' = true.
Proof.
  unfold remove_at. induction cs as [|c cs IH]; intros n n' H Hd; [discriminate|].
  cbn [with_parent] in H. destruct n as [g|w es]; [discriminate|].
  destruct cs as [|c' cs].
  - destruct (assoc c es) eqn:Ea; [|discriminate]. destruct w; [|discriminate].
    cbn in H. injection H as <-.
    apply distinct_names_dir in Hd as [H1 H2]. apply distinct_names_dir.
    clear Ea. induction es as [|[k v] es IHes]; [split; [reflexivity | constructor]|].
    cbn [map fst names_distinct assoc_del] in *. apply andb_true_iff in H1 as [Hk Hes].
    inversion H2 as [|? ? Hv Hrest]; subst.
    destruct (String.eqb c k); [split; assumption|].
    destruct (IHes Hes Hrest) as [I1 I2]. cbn [map fst names_distinct]. split.
    + rewrite I1, andb_true_r. apply negb_true_iff in Hk. apply negb_true_iff.
      destruct (str_in k (map fst (assoc_del c es))) eqn:E; [|reflexivity].
      apply str_in_In, in_map_iff in E as ([k' v'] & Ek & Hin). cbn in Ek. subst k'.
      assert (In (k, v') es).
      { clear -Hin. induction es as [|[a b] es IH]; [contradiction|].
        cbn [assoc_del] in Hin. destruct (String.eqb c a); [now right|].
        destruct Hin as [Hin|Hin]; [now left | right; auto]. }
      assert (In k (map fst es)) by (apply in_map_iff; now exists (k, v')).
      apply str_in_In in H0. congruence.
    + now constructor.
  - destruct (assoc c es) as [ch|] eqn:Ea; [|discriminate]. cbn [mbind option_bind] in H.
    destruct (with_parent ch (c' :: cs) _) as [ch'|] eqn:E; [|discriminate].
    cbn in H. injection H as <-.
    apply (distinct_names_set_child _ _ _ ch); auto.
    eapply IH; eauto. eapply distinct_names_child; eauto.
Qed.

(** A removal brings nothing into being. *)
Lemma remove_at_none (cs : list string) : forall (n n' : node) (q : list string),
  remove_at n cs = Some n' -> distinct_names n = true ->
  lookup_path n q = None -> lookup_path n' q = None.
Proof.
  unfold remove_at. induction cs as [|c cs IH]; intros n n' q H Hd Hq; [discriminate|].
  cbn [with_parent] in H. destruct n as [g|w es]; [discriminate|].
  destruct q as [|k q]; [discriminate|]. rewrite lookup_path_cons in Hq.
  destruct cs as [|c' cs].
  - destruct (assoc c es) eqn:Ea; [|discriminate]. destruct w; [|discriminate].
    cbn in H. injection H as <-. rewrite lookup_path_cons.
    destruct (String.eqb k c) eqn:E.
    + apply String.eqb_eq in E. subst k.
      apply distinct_names_dir in Hd as [Hd _]. now rewrite (assoc_del_same _ _ Hd).
    + apply String.eqb_neq in E. now rewrite (assoc_del_other _ _ _ E).
  - destruct (assoc c es) as [ch|] eqn:Ea; [|discriminate]. cbn [mbind option_bind] in H.
    destruct (with_parent ch (c' :: cs) _) as [ch'|] eqn:E; [|discriminate].
    cbn in H. injection H as <-. rewrite lookup_path_cons.
    destruct (String.eqb k c) eqn:Ek.
    + apply String.eqb_eq in Ek. subst k. rewrite assoc_set_same. rewrite Ea in Hq.
      eapply IH; eauto. eapply distinct_names_child; eauto.
    + apply String.eqb_neq in Ek. now rewrite (assoc_set_other _ _ _ _ Ek).
Qed.

(** A new regular file brings nothing else into being. *)
Lemma create_at_none (cs : list string) : forall (n n' : node) (f : file) (q : list string),
  create_at n cs (File f) = Some n' ->
  lookup_path n q = None -> q <> cs -> lookup_path n' q = None.
Proof.
  unfold create_at. induction cs as [|c cs IH]; intros n n' f q H Hq Hne; [discriminate|].
  cbn [with_parent] in H. destruct n as [g|w es]; [discriminate|].
  destruct q as [|k q]; [discriminate|]. rewrite lookup_path_cons in Hq.
  destruct cs as [|c' cs].
  - destruct (assoc c es) eqn:Ea; [discriminate|]. destruct w; [|discriminate].
    cbn in H. injection H as <-. rewrite lookup_path_cons, assoc_app.
    destruct (assoc k es) as [ch|]; [exact Hq|]. cbn [assoc].
    destruct (String.eqb k c) eqn:E; [|reflexivity].
    apply String.eqb_eq in E. subst k. destruct q as [|k' q]; [congruence | reflexivity].
  - destruct (assoc c es) as [ch|] eqn:Ea; [|discriminate]. cbn [mbind option_bind] in H.
    destruct (with_parent ch (c' :: cs) _) as [ch'|] eqn:E; [|discriminate].
    cbn in H. injection H as <-. rewrite lookup_path_cons.
    destruct (String.eqb k c) eqn:Ek.
    + apply String.eqb_eq in Ek. subst k. rewrite assoc_set_same. rewrite Ea in Hq.
      eapply IH; eauto. congruence.
    + apply String.eqb_neq in Ek. now rewrite (assoc_set_other _ _ _ _ Ek).
Qed.

Lemma os_unlink_gone (s s' : state) (p : string) :
  distinct_names (st_fs s) = true ->
  os_unlink p s = (Ret tt, s') -> lookup_path (st_fs s') (components p) = None.
Proof.
  intros Hd H. unfold os_unlink in H. apply fs_op_ret in H as [Hg _].
  destruct (resolve (st_fs s) p) as [[g|? ?]|]; try discriminate.
  rewrite <- (app_nil_r (components p)). eapply remove_at_gone; eauto.
Qed.

Lemma os_rename_source_gone (s s' : state) (src dst : string) :
  distinct_names (st_fs s) = true ->
  dst <> "" -> lookup_path (st_fs s) (components dst) = None ->
  os_rename src dst s = (Ret tt, s') -> lookup_path (st_fs s') (components src) = None.
Proof.
  intros Hd Hne Hfree H. unfold os_rename in H. apply fs_op_ret in H as [Hg _].
  destruct (resolve (st_fs s) src) as [[f|? ?]|] eqn:Hsrc; try discriminate.
  destruct (String.eqb dst ""); [discriminate|].
  destruct (bool_decide _) eqn:Hb.
  - apply bool_decide_eq_true in Hb. apply resolve_lookup in Hsrc as [_ Hsrc].
    rewrite Hb in Hsrc. congruence.
  - apply bool_decide_eq_false in Hb. cbn [mbind option_bind] in Hg.
    destruct (remove_at (st_fs s) (components src)) as [fs1|] eqn:Hr; [|discriminate].
    cbn in Hg.
    pose proof (remove_at_none _ _ _ _ Hr Hd Hfree) as Hfree1.
    pose proof (remove_at_gone _ _ _ [] Hr Hd) as Hgone. rewrite app_nil_r in Hgone.
    unfold resolve in Hg. apply String.eqb_neq in Hne. rewrite Hne, Hfree1 in Hg.
    eapply create_at_none; eauto.
Qed.

Lemma shutil_copy2_distinct (s s' : state) (src dst : string) :
  distinct_names (st_fs s) = true ->
  dst <> "" -> lookup_path (st_fs s) (components dst) = None ->
  shutil_copy2 src dst s = (Ret tt, s') -> distinct_names (st_fs s') = true.
Proof.
  intros Hd Hne Hfree H. unfold shutil_copy2 in H. apply fs_op_ret in H as [Hg _].
  destruct (resolve (st_fs s) src) as [[f|? ?]|]; try discriminate.
  destruct (f_readable f); [|discriminate].
  assert (Hdir : os_path_isdir (st_fs s) dst = false).
  { unfold os_path_isdir. rewrite resolve_nonempty, Hfree by assumption. reflexivity. }
  rewrite Hdir in Hg. cbn zeta in Hg.
  destruct (String.eqb dst ""); [discriminate|].
  destruct (bool_decide _); [discriminate|].
  rewrite resolve_nonempty, Hfree in Hg by assumption.
  eapply create_at_distinct; eauto.
Qed.

(** After a successful [shutil.move] to a free path the source is gone. *)
Lemma shutil_move_source_gone (s s' : state) (src dst : string) :
  distinct_names (st_fs s) = true ->
  dst <> "" -> lookup_path (st_fs s) (components dst) = None ->
  shutil_move src dst s = (Ret tt, s') -> lookup_path (st_fs s') (components src) = None.
Proof.
  intros Hd Hne Hfree. unfold shutil_move, mbind, M_bind, get_fs.
  assert (Hdir : os_path_isdir (st_fs s) dst = false).
  { unfold os_path_isdir. rewrite resolve_nonempty, Hfree by assumption. reflexivity. }
  rewrite Hdir. unfold mret, M_ret, catch.
  destruct (os_rename src dst s) as [[[]|e] s1] eqn:Hr.
  - intros [= <-]. eapply os_rename_source_gone; eauto.
  - unfold os_rename in Hr. apply fs_op_raise in Hr. subst s1.
    destruct (shutil_copy2 src dst s) as [[[]|e2] s2] eqn:Hc; [|discriminate].
    intros Hu. eapply os_unlink_gone; [|exact Hu].
    eapply shutil_copy2_distinct; eauto.
Qed.

(** X22.  In move mode, in a tree where no directory lists a name
    twice, a file that is relocated is afterwards found at its
    destination and no longer at its source path. *)
Theorem X22_move_leaves_no_source (s s' : state) (file_path output_dir : string)
    (d : datetime) (w h : Z) (hx : string) :
  distinct_names (st_fs s) = true ->
  fst (get_file_metadata (st_fs s) file_path) = (Some d, Some w, Some h) ->
  fst (generate_hash (st_fs s) file_path 8) = Ret hx ->
  os_path_exists (st_fs s) (new_path_of output_dir d w h hx (file_ext_of file_path)) = false ->
  copy_and_rename_file file_path output_dir false true s = (Ret true, s') ->
  os_path_exists (st_fs s') file_path = false /\
  exists f,
    resolve (st_fs s) file_path = Some (File f) /\
    resolve (st_fs s') (new_path_of output_dir d w h hx (file_ext_of file_path))
    = Some (File f).
Proof.
  intros Hd Hm Hh He Hrun.
  pose proof (metadata_fst_full _ _ _ _ _ Hm) as Hm0.
  pose proof (hash_fst_pair _ _ _ Hh) as Hh0.
  rewrite (copy_run_live _ _ _ true _ _ _ _ _ _ Hm0 Hh0 He) in Hrun. cbn [app] in Hrun.
  destruct (new_filename_shape d w h hx (file_ext_of file_path)) as [Hs Hc].
  rewrite new_path_of_join in He, Hrun |- *.
  split.
  - rewrite relocate_file_run in Hrun. cbn [add_out st_fs st_out] in Hrun.
    destruct (String.eqb (structured_dir_of output_dir d) ""); [discriminate|].
    destruct (makedirs_at (st_fs s) (components (structured_dir_of output_dir d)) true)
      as [fs1|] eqn:Hmk; [|discriminate].
    destruct (makedirs_keeps_free _ _ _ _ _ Hs Hc Hmk He) as [HP Hfree].
    destruct (shutil_move file_path _ _) as [[[]|e] s1] eqn:Hmv; [|discriminate].
    injection Hrun as <-. cbn [add_out st_fs].
    pose proof (shutil_move_source_gone
                  (mk_state fs1 (st_out s ++ snd (generate_hash (st_fs s) file_path 8)))
                  _ _ _ (makedirs_at_distinct _ _ _ _ Hmk Hd) HP Hfree Hmv) as Hgone.
    unfold os_path_exists, resolve. destruct (String.eqb file_path ""); [reflexivity|].
    now rewrite Hgone.
  - destruct (relocate_file_lands (add_out s (snd (generate_hash (st_fs s) file_path 8)))
                _ _ _ _ _ _ Hs Hc He Hrun) as (_ & f & Hsrc & Hf).
    now exists f.
Qed.

Lemma X22_move_leaves_no_source_witness :
  os_path_exists
    (st_fs (snd (copy_and_rename_file "in/a.jpg" "in" false true (mk_state ex_fs_images []))))
    "in/a.jpg" = false.
Proof.
  apply (X22_move_leaves_no_source (mk_state ex_fs_images []) _ "in/a.jpg" "in"
           (mk_datetime 2023 6 15 10 0 0 123456) 640 480 "90015098").
  - vm_compute. reflexivity.
  - vm_compute. reflexivity.
  - vm_compute. reflexivity.
  - vm_compute. reflexivity.
  - vm_compute. reflexivity.
Defined.

(** ** What the scanner hands to the resolvers (lines 225-235 and 248-249) *)

Lemma plain_names_dir (w : bool) (es : list (string * node)) :
  plain_names (Dir w es) = true <->
  Forall (fun e => plain_name (fst e) = true /\ plain_names (snd e) = true) es.
Proof.
  cbn [plain_names]. induction es as [|[c ch] es IH]; [split; [constructor | reflexivity]|].
  rewrite !andb_true_iff, IH. split.
  - intros [[H1 H2] H3]. now constructor.
  - intros H. inversion H as [|? ? [H1 H2] H3]; subst. auto.
Qed.

Lemma In_assoc_distinct {A} (k : string) (v : A) (es : list (string * A)) :
  names_distinct (map fst es) = true -> In (k, v) es -> assoc k es = Some v.
Proof.
  induction es as [|[k' v'] es IH]; [contradiction|]. cbn [map fst names_distinct assoc].
  intros H Hin. apply andb_true_iff in H as [Hk Hes]. destruct Hin as [[= -> ->]|Hin].
  - now rewrite String.eqb_refl.
  - destruct (String.eqb k k') eqn:E; [|auto].
    apply String.eqb_eq in E. subst k'. apply negb_true_iff in Hk.
    assert (Hk' : In k (map fst es)) by (apply in_map_iff; now exists (k, v)).
    apply str_in_In in Hk'. congruence.
Qed.

Lemma file_under_lookup (n : node) (ds : list string) (name : string) :
  file_under n ds name -> distinct_names n = true ->
  exists f, lookup_path n (ds ++ [name]) = Some (File f).
Proof.
  induction 1 as [w es name f Hin | w es d child ds name Hin Hsub IH]; intros Hd.
  - apply distinct_names_dir in Hd as [Hd _]. exists f. cbn [app].
    now rewrite lookup_path_cons, (In_assoc_distinct _ _ _ Hd Hin).
  - pose proof Hd as Hd'. apply distinct_names_dir in Hd as [Hd1 Hd2].
    rewrite List.Forall_forall in Hd2. destruct (IH (Hd2 _ Hin)) as [f Hf].
    exists f. cbn [app]. now rewrite lookup_path_cons, (In_assoc_distinct _ _ _ Hd1 Hin).
Qed.

Lemma file_under_plain (n : node) (ds : list string) (name : string) :
  file_under n ds name -> plain_names n = true ->
  Forall (fun c => plain_name c = true) (ds ++ [name]).
Proof.
  induction 1 as [w es name f Hin | w es d child ds name Hin Hsub IH]; intros Hp;
    apply plain_names_dir in Hp; rewrite List.Forall_forall in Hp;
    destruct (Hp _ Hin) as [H1 H2]; cbn [fst snd app] in *.
  - now repeat constructor.
  - constructor; auto.
Qed.

Lemma plain_name_inv (c : string) :
  plain_name c = true ->
  contains_char "/" c = false /\ c <> "" /\ c <> "." /\ startswith c "/" = false.
Proof.
  unfold plain_name. intros H. apply andb_true_iff in H as [H H3].
  apply andb_true_iff in H as [H1 H2]. apply negb_true_iff in H1, H2, H3.
  apply String.eqb_neq in H2, H3. repeat split; try assumption.
  destruct c as [|x r]; [contradiction|]. rewrite startswith_cons.
  cbn [contains_char] in H1. now apply orb_false_iff in H1 as [-> _].
Qed.

Lemma components_join_plain (l : list string) : forall a,
  Forall (fun c => plain_name c = true) l ->
  components (os_path_join a l) = components a ++ l.
Proof.
  unfold os_path_join. induction l as [|c l IH]; intros a H; cbn [fold_left].
  - now rewrite app_nil_r.
  - inversion H as [|? ? Hc Hl]; subst. apply plain_name_inv in Hc as (H1 & H2 & H3 & H4).
    rewrite (IH _ Hl), (components_join2 _ _ H4), (components_plain _ H1 H2 H3).
    now rewrite <- app_assoc.
Qed.

Lemma lookup_path_app (a b : list string) : forall n,
  lookup_path n (a ++ b) = match lookup_path n a with
                           | Some m => lookup_path m b
                           | None => None
                           end.
Proof.
  induction a as [|c a IH]; intros n; [reflexivity|]. cbn [app].
  rewrite !lookup_path_cons. destruct n as [f|w es]; [reflexivity|].
  destruct (assoc c es); [apply IH | reflexivity].
Qed.

Lemma lookup_path_distinct (cs : list string) : forall n m,
  lookup_path n cs = Some m -> distinct_names n = true -> distinct_names m = true.
Proof.
  induction cs as [|c cs IH]; intros n m H Hd; [now injection H as <-|].
  rewrite lookup_path_cons in H. destruct n as [f|w es]; [discriminate|].
  destruct (assoc c es) as [ch|] eqn:Ea; [|discriminate].
  eapply IH; eauto. eapply distinct_names_child; eauto.
Qed.

Lemma lookup_path_plain (cs : list string) : forall n m,
  lookup_path n cs = Some m -> plain_names n = true -> plain_names m = true.
Proof.
  induction cs as [|c cs IH]; intros n m H Hd; [now injection H as <-|].
  rewrite lookup_path_cons in H. destruct n as [f|w es]; [discriminate|].
  destruct (assoc c es) as [ch|] eqn:Ea; [|discriminate].
  eapply IH; eauto. apply plain_names_dir in Hd. rewrite List.Forall_forall in Hd.
  exact (proj2 (Hd _ (assoc_In _ _ _ Ea))).
Qed.

(** X23.  In a tree whose directories list no name twice and only
    names that are single path components, every path that the scanner
    yields resolves to a regular file of the tree: what the first pass
    and the loop hand to the resolvers, to the hasher and to the copy
    is a file that is there. *)
Theorem X23_scanned_paths_are_files (fs : node) (directory_path p : string) :
  distinct_names fs = true ->
  plain_names fs = true ->
  In p (find_media_files_recursively fs directory_path) ->
  exists f, resolve fs p = Some (File f).
Proof.
  intros Hd Hp Hin. unfold find_media_files_recursively, os_walk in Hin.
  destruct (resolve fs directory_path) as [n|] eqn:Hr; [|contradiction].
  fold (scan_node directory_path n) in Hin.
  apply scan_node_spec in Hin as (ds & name & Hu & _ & _ & ->).
  apply resolve_lookup in Hr as [_ Hl].
  destruct (file_under_lookup _ _ _ Hu (lookup_path_distinct _ _ _ Hl Hd)) as [f Hf].
  pose proof (file_under_plain _ _ _ Hu (lookup_path_plain _ _ _ Hl Hp)) as Hpl.
  exists f. rewrite resolve_nonempty.
  - now rewrite (components_join_plain _ _ Hpl), lookup_path_app, Hl.
  - apply components_nonempty_str. rewrite (components_join_plain _ _ Hpl).
    destruct (components directory_path); [now destruct ds | discriminate].
Qed.

Lemma X23_scanned_paths_are_files_witness :
  exists f, resolve ex_fs "photos/.thumbs/t.png" = Some (File f).
Proof.
  apply (X23_scanned_paths_are_files ex_fs "photos" "photos/.thumbs/t.png").
  - vm_compute. reflexivity.
  - vm_compute. reflexivity.
  - vm_compute. right. left. reflexivity.
Defined.

(** ** A move that fails half-way (lines 212-222) *)

Lemma remove_at_unwritable (cs : list string) : forall (n : node) (c : string)
    (es : list (string * node)),
  lookup_path n cs = Some (Dir false es) -> remove_at n (cs ++ [c]) = None.
Proof.
  unfold remove_at. induction cs as [|a cs IH]; intros n c es H.
  - cbn in H. injection H as ->. cbn. now destruct (assoc c es).
  - rewrite lookup_path_cons in H. destruct n as [f|w0 es0]; [discriminate|].
    destruct (assoc a es0) as [ch|] eqn:Ea; [|discriminate].
    cbn [app with_parent]. specialize (IH ch c es H).
    destruct (cs ++ [c]) as [|b r] eqn:E; [now destruct cs|].
    rewrite Ea. cbn [mbind option_bind]. now rewrite IH.
Qed.

(** X24.  A move is not atomic.  When the directory of the source does
    not allow the file to be removed while the destination can be
    written, [shutil.move] falls back to copying and then fails to
    unlink the source: the file is reported with the error line and
    [False] is returned, yet the copy stays at the destination and the
    source stays where it was. *)
Theorem X24_failed_move_leaves_a_copy (s : state) (file_path output_dir : string)
    (d : datetime) (w h : Z) (hx : string) (f : file) (parent : list string) (c : string)
    (es : list (string * node)) (fs1 fs2 : node) :
  fst (get_file_metadata (st_fs s) file_path) = (Some d, Some w, Some h) ->
  fst (generate_hash (st_fs s) file_path 8) = Ret hx ->
  os_path_exists (st_fs s) (new_path_of output_dir d w h hx (file_ext_of file_path)) = false ->
  resolve (st_fs s) file_path = Some (File f) ->
  f_readable f = true ->
  components file_path = parent ++ [c] ->
  lookup_path (st_fs s) parent = Some (Dir false es) ->
  structured_dir_of output_dir d <> "" ->
  makedirs_at (st_fs s) (components (structured_dir_of output_dir d)) true = Some fs1 ->
  create_at fs1 (components (new_path_of output_dir d w h hx (file_ext_of file_path))) (File f)
  = Some fs2 ->
  copy_and_rename_file file_path output_dir false true s
  = (Ret false,
     mk_state fs2 (st_out s ++ snd (generate_hash (st_fs s) file_path 8)
                   ++ [ErrorOperation OpMove (os_path_basename file_path)])) /\
  lookup_path fs2 (components (new_path_of output_dir d w h hx (file_ext_of file_path)))
  = Some (File f) /\
  resolve fs2 file_path = Some (File f).
Proof.
  intros Hm Hh He Hsrc Hread Hcs Hpar Hsd Hmk Hcr.
  pose proof (metadata_fst_full _ _ _ _ _ Hm) as Hm0.
  pose proof (hash_fst_pair _ _ _ Hh) as Hh0.
  pose proof (makedirs_at_preserves _ _ _ _ Hmk) as Hp1.
  pose proof (create_at_preserves _ _ _ _ Hcr) as Hp2.
  pose proof (file_preserved _ _ _ _ Hp1 Hsrc) as Hsrc1.
  pose proof (file_preserved _ _ _ _ Hp2 Hsrc1) as Hsrc2.
  split; [|split; [eapply create_at_lookup; eauto | exact Hsrc2]].
  rewrite (copy_run_live _ _ _ true _ _ _ _ _ _ Hm0 Hh0 He), relocate_file_run.
  cbn [app add_out st_fs st_out operation_of].
  apply String.eqb_neq in Hsd. rewrite Hsd, Hmk.
  destruct (new_filename_shape d w h hx (file_ext_of file_path)) as [Hs Hc].
  rewrite new_path_of_join in He, Hcr |- *.
  destruct (makedirs_keeps_free _ _ _ _ _ Hs Hc Hmk He) as [HP Hfree].
  set (P := os_path_join (structured_dir_of output_dir d)
              [new_filename_of d w h hx (file_ext_of file_path)]) in *.
  set (out' := st_out s ++ snd (generate_hash (st_fs s) file_path 8)).
  assert (Hdir : os_path_isdir fs1 P = false).
  { unfold os_path_isdir. rewrite resolve_nonempty, Hfree by assumption. reflexivity. }
  assert (Hdiff : components file_path <> components P).
  { intros E. apply resolve_lookup in Hsrc1 as [_ Hl]. rewrite E in Hl. congruence. }
  destruct (proj2 (Hp1 parent) _ _ Hpar) as [es1 Hpar1].
  destruct (proj2 (Hp2 parent) _ _ Hpar1) as [es2 Hpar2].
  assert (Hmove : shutil_move file_path P (mk_state fs1 out')
                  = (Raise OSError, mk_state fs2 out')).
  { unfold shutil_move, mbind at 1, M_bind at 1, get_fs. cbn [st_fs]. rewrite Hdir.
    unfold mbind at 1, M_bind at 1, mret, M_ret, catch.
    assert (Hren : os_rename file_path P (mk_state fs1 out')
                   = (Raise OSError, mk_state fs1 out')).
    { unfold os_rename. rewrite fs_op_run. cbn [st_fs]. rewrite Hsrc1.
      apply String.eqb_neq in HP. rewrite HP.
      rewrite (bool_decide_eq_false_2 _ Hdiff), Hcs.
      now rewrite (remove_at_unwritable _ _ _ _ Hpar1). }
    rewrite Hren. unfold mbind, M_bind.
    assert (Hcopy : shutil_copy2 file_path P (mk_state fs1 out')
                    = (Ret tt, mk_state fs2 out')).
    { unfold shutil_copy2. rewrite fs_op_run. cbn [st_fs]. rewrite Hsrc1, Hread, Hdir.
      cbn zeta. apply String.eqb_neq in HP. rewrite HP.
      rewrite (bool_decide_eq_false_2 _ Hdiff).
      apply String.eqb_neq in HP. rewrite resolve_nonempty, Hfree by assumption.
      now rewrite Hcr. }
    rewrite Hcopy. unfold os_unlink. rewrite fs_op_run. cbn [st_fs]. rewrite Hsrc2, Hcs.
    now rewrite (remove_at_unwritable _ _ _ _ Hpar2). }
  rewrite Hmove. unfold add_out, out'. cbn [st_fs st_out]. now rewrite <- app_assoc.
Qed.

Lemma X24_failed_move_leaves_a_copy_witness :
  exists fs2,
    copy_and_rename_file "in/a.jpg" "out" false true (mk_state ex_fs_pinned [])
    = (Ret false,
       mk_state fs2 ([] ++ snd (generate_hash ex_fs_pinned "in/a.jpg" 8)
                     ++ [ErrorOperation OpMove (os_path_basename "in/a.jpg")])) /\
    resolve fs2 "in/a.jpg" = Some (File ex_image).
Proof.
  eexists.
  refine ((fun H => conj (proj1 H) (proj2 (proj2 H)))
            (X24_failed_move_leaves_a_copy (mk_state ex_fs_pinned []) "in/a.jpg" "out"
               (mk_datetime 2023 6 15 10 0 0 123456) 640 480 "90015098" ex_image
               ["in"] "a.jpg" [("a.jpg", File ex_image)] _ _ _ _ _ _ _ _ _ _ _ _)).
  - vm_compute. reflexivity.
  - vm_compute. reflexivity.
  - vm_compute. reflexivity.
  - vm_compute. reflexivity.
  - reflexivity.
  - vm_compute. reflexivity.
  - vm_compute. reflexivity.
  - vm_compute. discriminate.
  - vm_compute. reflexivity.
  - vm_compute. reflexivity.
Defined.

(** ** An empty [--output] (lines 324-328) *)

(** X25.  An [--output] that is the empty string counts as not given:
    the program behaves exactly as without the option, writing to the
    input path with [_renamed] appended, or, in place, warning about
    nothing. *)
Theorem X25_empty_output_is_no_output (a : args.t) (stdin : option string) (fs : node) :
  args.output a = Some "" ->
  main a stdin fs
  = main (args.mk (args.input_path a) None (args.dry_run a) (args.from_date a)
            (args.in_place a)) stdin fs.
Proof.
  intros Ho. unfold main, run_batch, output_directory_of. cbn [args.input_path args.output
    args.dry_run args.from_date args.in_place]. rewrite Ho. reflexivity.
Qed.

Lemma X25_empty_output_is_no_output_witness :
  main (args.mk "photos" (Some "") true None false) None ex_fs
  = main (args.mk "photos" None true None false) None ex_fs.
Proof.
  apply (X25_empty_output_is_no_output (args.mk "photos" (Some "") true None false) None ex_fs).
  reflexivity.
Defined.

(** ** The order of the loop, whatever the capture times (lines 259-291) *)



(** ** The start as a cut in the sorted list (lines 262-270) *)

Lemma from_start_monotone (y m : Z) (a b : string * datetime) :
  time_le a b -> from_start y m (snd a) = true -> from_start y m (snd b) = true.
Proof.
  unfold time_le, dt_ltb, dt_key, from_start. cbn [lex_ltb].
  intros Hle Ha. apply orb_false_iff in Hle as [H1 H2].
  apply Z.ltb_ge in H1. apply andb_false_iff in H2.
  apply orb_true_iff in Ha. apply orb_true_iff.
  rewrite andb_true_iff, Z.ltb_lt, Z.eqb_eq, Z.leb_le in *.
  destruct H2 as [H2|H2].
  - apply Z.eqb_neq in H2. lia.
  - apply orb_false_iff in H2 as [H2 _]. apply Z.ltb_ge in H2. lia.
Qed.

Lemma filter_sorted_suffix {A} (R : A -> A -> Prop) (f : A -> bool) (l : list A) :
  (forall a b, R a b -> f a = true -> f b = true) ->
  StronglySorted R l -> exists k, List.filter f l = drop k l.
Proof.
  intros Hmono H. induction H as [|a l Hs [k IH] Hall].
  - now exists 0%nat.
  - cbn [List.filter]. destruct (f a) eqn:E.
    + exists 0%nat. cbn [drop]. f_equal.
      clear IH Hs. induction Hall as [|b l Hb _ IHl]; [reflexivity|].
      cbn [List.filter]. now rewrite (Hmono _ _ Hb E), IHl.
    + exists (S k). exact IH.
Qed.

(** X27.  Because the list is sorted before the start is applied, the
    files kept for a start of the form year/month are a final segment
    of the sorted list: once a file is kept, every file after it is
    kept too. *)
Theorem X27_start_keeps_a_final_segment (start : string) (y m : Z)
    (l : list (string * datetime)) :
  start <> "" ->
  parse_year_month start = Ret (y, m) ->
  exists k,
    fst (select_media_files (Some start) (sort_by_time l))
    = Some (drop k (map fst (sort_by_time l))).
Proof.
  intros Hs Hp. unfold select_media_files. rewrite (supplied_nonempty _ Hs), Hp. cbn [fst].
  destruct (filter_sorted_suffix time_le (fun x => from_start y m (snd x)) (sort_by_time l)
              (from_start_monotone y m) (sort_by_time_sorted l)) as [k Hk].
  exists k. rewrite Hk. f_equal. unfold drop. now rewrite <- List.skipn_map.
Qed.

Lemma X27_start_keeps_a_final_segment_witness :
  exists k,
    fst (select_media_files (Some "2023/06")
           (sort_by_time [("new.jpg", mk_datetime 2023 7 1 0 0 0 0);
                          ("old.jpg", mk_datetime 2023 5 31 23 59 59 0)]))
    = Some (drop k (map fst (sort_by_time [("new.jpg", mk_datetime 2023 7 1 0 0 0 0);
                                           ("old.jpg", mk_datetime 2023 5 31 23 59 59 0)]))).
Proof.
  apply (X27_start_keeps_a_final_segment "2023/06" 2023 6).
  - discriminate.
  - vm_compute. reflexivity.
Defined.

(** ** The hasher after the resolvers (lines 163-170) *)

Lemma metadata_success_readable (fs : node) (p : string) (d : datetime) (w h : option Z) :
  fst (get_file_metadata fs p) = (Some d, w, h) ->
  exists f, resolve fs p = Some (File f) /\ f_readable f = true.
Proof.
  unfold get_file_metadata, get_video_metadata, get_image_metadata, ffprobe, image_open.
  destruct (resolve fs p) as [[f|? ?]|]; [| destruct (str_in _ _); discriminate..].
  destruct (f_readable f) eqn:Hread; [eauto|].
  destruct (str_in _ _); cbn [fst mbind res_bind]; discriminate.
Qed.

(** X28.  Where the resolvers have found metadata for a path, the
    hasher does not fail on it: the file is there and can be read, so
    that the hash in the new name is the beginning of the digest of the
    content and never the sentinel of the error branch, and the hasher
    prints nothing. *)
Theorem X28_hash_after_metadata_is_the_digest (fs : node) (file_path : string)
    (d : datetime) (w h : option Z) :
  fst (get_file_metadata fs file_path) = (Some d, w, h) ->
  exists f,
    resolve fs file_path = Some (File f) /\
    generate_hash fs file_path 8 = (Ret (str_take 8 (md5_hexdigest (f_bytes f))), []).
Proof.
  intros Hm. destruct (metadata_success_readable _ _ _ _ _ Hm) as (f & Hr & Hread).
  exists f. split; [exact Hr|]. rewrite generate_hash_cases. unfold open_rb.
  now rewrite Hr, Hread.
Qed.

Lemma X28_hash_after_metadata_is_the_digest_witness :
  exists f,
    resolve ex_fs "photos/a.JPG" = Some (File f) /\
    generate_hash ex_fs "photos/a.JPG" 8 = (Ret (str_take 8 (md5_hexdigest (f_bytes f))), []).
Proof.
  apply (X28_hash_after_metadata_is_the_digest ex_fs "photos/a.JPG"
           (mk_datetime 2023 6 15 10 0 0 123456) (Some 640) (Some 480)).
  vm_compute. reflexivity.
Defined.

(** ** What can escape from the batch (lines 238-296) *)

Lemma relocate_loop_escapes (out : string) (dry ip : bool) (mf : list string) :
  forall (s s' : state) (sc tc : Z) (e : exn),
  relocate_loop mf out dry ip sc tc s = (Raise e, s') -> e = OSError /\ dry = false.
Proof.
  induction mf as [|p mf IH]; intros s s' sc tc e Hrun; [discriminate|].
  rewrite relocate_loop_cons in Hrun.
  destruct (copy_and_rename_file_outcome p out dry ip s)
    as (r & s1 & pre & Hstep & _ & [(l & -> & _)|(-> & Hd & _)]); rewrite Hstep in Hrun.
  - eapply IH; eauto.
  - injection Hrun as <- _. auto.
Qed.

(** X29.  The batch lets no exception escape but the error of a
    directory that cannot be created, for the output directory or for a
    year or a month, and then only in a live run; every other failure
    is turned into a line and a count. *)
Theorem X29_only_directory_errors_escape (input output : string) (dry_run in_place : bool)
    (start_year_month : option string) (s s' : state) (e : exn) :
  process_directory input output dry_run start_year_month in_place s = (Raise e, s') ->
  e = OSError /\ dry_run = false.
Proof.
  rewrite process_directory_run.
  destruct (os_path_isdir (st_fs s) input); cbn [negb]; [|discriminate].
  destruct (collect_metadata (st_fs s) _) as [[|x l] o1]; [discriminate|].
  destruct (select_media_files start_year_month _) as [[mf|] o2]; [|discriminate].
  rewrite relocate_all_steps.
  destruct dry_run.
  - cbn [negb andb]. unfold mret at 1, M_ret at 1.
    destruct (relocate_loop mf output true in_place 0 0 _) as [[[sc tc]|e'] s2] eqn:Hloop;
      [discriminate|].
    apply relocate_loop_escapes in Hloop as [_ Hd]. discriminate Hd.
  - destruct (output_directory_step output false (add_out s (Scanning :: o1 ++ o2)))
      as [(s1 & pre & Hc1 & _)|Hc1]; rewrite Hc1.
    + destruct (relocate_loop mf output false in_place 0 0 _) as [[[sc tc]|e'] s2] eqn:Hloop;
        [discriminate|].
      apply relocate_loop_escapes in Hloop as [-> _]. now intros [= <- _].
    + now intros [= <- _].
Qed.

Lemma X29_only_directory_errors_escape_witness :
  OSError = OSError /\ false = false.
Proof.
  apply (X29_only_directory_errors_escape "in" "out" false false None
           (mk_state ex_fs_blocked [])
           (snd (process_directory "in" "out" false None false (mk_state ex_fs_blocked [])))
           OSError).
  vm_compute. reflexivity.
Defined.
